(** * binGraph: the graph-generation driver ([binGraph/binGraph.py])

    A shallow embedding of the driver script: path discovery
    ([File2Strings], [find_files]), output naming ([clean_fname],
    [gen_names]) and the per-file, per-graph loop ([generate_graphs],
    [main]).  Python strings are sequences of Unicode code points; the
    operating system, the graph modules and the plotting backend are
    parameters of the development. *)

From Stdlib Require Import ZArith NArith List Bool Lia String Ascii.
From Stdlib Require Import Numbers.DecimalString.
From Stdlib Require Numbers.DecimalZ Numbers.DecimalPos.
From Stdlib Require Strings.Byte.
Import ListNotations.

Set Warnings "-register-all".

Local Open Scope N_scope.
Local Open Scope list_scope.

(** ** Python strings *)

(** A [str] is a sequence of code points. *)
Definition pystr := list N.

(** A literal of the source, written as a Rocq string. *)
Definition py (s : string) : pystr :=
  map N_of_ascii (list_ascii_of_string s).

Definition str_eqb (a b : pystr) : bool :=
  if list_eq_dec N.eq_dec a b then true else false.

Module Str.

(** [s.startswith(p)] *)
Fixpoint startswith (s p : pystr) {struct p} : bool :=
  match p, s with
  | [], _ => true
  | _ :: _, [] => false
  | a :: p', b :: s' => (a =? b) && startswith s' p'
  end.

(** [s.endswith(p)] *)
Definition endswith (s p : pystr) : bool :=
  startswith (rev s) (rev p).

(** The scan of [s.replace(old, new)] for a non-empty [old]: left to
    right, non-overlapping; [skip] counts the characters of a match that
    are still to be dropped. *)
Fixpoint replace_from (old new : pystr) (skip : nat) (s : pystr) : pystr :=
  match s with
  | [] => []
  | c :: s' =>
      match skip with
      | S k => replace_from old new k s'
      | O =>
          if startswith s old
          then new ++ replace_from old new (Nat.pred (List.length old)) s'
          else c :: replace_from old new 0 s'
      end
  end.

(** [s.replace(old, new)]; an empty [old] matches before every character
    and at the end. *)
Definition replace (s old new : pystr) : pystr :=
  match old with
  | [] => new ++ flat_map (fun c => c :: new) s
  | _ :: _ => replace_from old new 0 s
  end.

(** [sep.join(parts)] *)
Fixpoint join (sep : pystr) (parts : list pystr) : pystr :=
  match parts with
  | [] => []
  | [p] => p
  | p :: rest => p ++ sep ++ join sep rest
  end.

(** [s.lstrip(chars)] *)
Fixpoint lstrip (s chars : pystr) : pystr :=
  match s with
  | [] => []
  | c :: s' => if existsb (N.eqb c) chars then lstrip s' chars else s
  end.

(** [s.rstrip(chars)] *)
Definition rstrip (s chars : pystr) : pystr :=
  rev (lstrip (rev s) chars).

(** [s.rfind(c)] for a one-character [c]: the highest index, or -1. *)
Fixpoint rfind_from (c : N) (s : pystr) (i : Z) (best : Z) : Z :=
  match s with
  | [] => best
  | x :: s' => rfind_from c s' (i + 1)%Z (if x =? c then i else best)
  end.

Definition rfind (s : pystr) (c : N) : Z := rfind_from c s 0%Z (-1)%Z.

(** Slices [s[i:]] and [s[:i]] for an index [0 <= i]. *)
Definition slice_from (s : pystr) (i : Z) : pystr := skipn (Z.to_nat i) s.
Definition slice_to (s : pystr) (i : Z) : pystr := firstn (Z.to_nat i) s.

(** [s.split(c)] for a one-character separator: at least one piece. *)
Fixpoint split (s : pystr) (c : N) : list pystr :=
  match s with
  | [] => [[]]
  | x :: s' =>
      if x =? c then [] :: split s' c
      else match split s' c with
           | [] => [[x]]
           | piece :: pieces => (x :: piece) :: pieces
           end
  end.

(** [f.readlines()] on the text of a file: every line keeps its
    terminating newline. *)
Fixpoint readlines (text : pystr) : list pystr :=
  match text with
  | [] => []
  | c :: text' =>
      if c =? 10 then [c] :: readlines text'
      else match readlines text' with
           | [] => [[c]]
           | line :: lines => (c :: line) :: lines
           end
  end.

(** [str(n)] for an [int]. *)
Definition of_int (z : Z) : pystr :=
  py (NilZero.string_of_int (Z.to_int z)).

(** [c.isalnum()] on the ASCII range. *)
Definition ascii_isalnum (c : N) : bool :=
  ((48 <=? c) && (c <=? 57)) || ((65 <=? c) && (c <=? 90))
  || ((97 <=? c) && (c <=? 122)).

End Str.

(** ** [os.path] (posixpath) *)

Module Path.

Definition sep : N := 47.
Definition extsep : N := 46.

Definition isabs (p : pystr) : bool := Str.startswith p [sep].

(** [os.path.join(a, b)] *)
Definition join (a b : pystr) : pystr :=
  if Str.startswith b [sep] then b
  else if match a with [] => true | _ => Str.endswith a [sep] end
       then a ++ b
       else a ++ [sep] ++ b.

(** [os.path.basename(p)] *)
Definition basename (p : pystr) : pystr :=
  Str.slice_from p (Str.rfind p sep + 1).

(** [os.path.splitext(p)]: the extension starts at the last dot of the
    last component, unless that component has only leading dots before
    it. *)
Fixpoint splitext_scan (p : pystr) (dotIndex : Z) (n : nat)
    (filenameIndex : Z) : pystr * pystr :=
  match n with
  | O => (p, [])
  | S n' =>
      if (filenameIndex <? dotIndex)%Z then
        if negb (str_eqb (firstn 1 (Str.slice_from p filenameIndex))
                         [extsep])
        then (Str.slice_to p dotIndex, Str.slice_from p dotIndex)
        else splitext_scan p dotIndex n' (filenameIndex + 1)%Z
      else (p, [])
  end.

Definition splitext (p : pystr) : pystr * pystr :=
  let sepIndex := Str.rfind p sep in
  let dotIndex := Str.rfind p extsep in
  if (sepIndex <? dotIndex)%Z
  then splitext_scan p dotIndex (S (List.length p)) (sepIndex + 1)%Z
  else (p, []).

(** [os.path.normpath(path)] *)
Definition normpath (path : pystr) : pystr :=
  match path with
  | [] => [extsep]
  | _ :: _ =>
      let initial_slashes : nat :=
        if Str.startswith path [sep] then
          if Str.startswith path [sep; sep]
             && negb (Str.startswith path [sep; sep; sep])
          then 2%nat else 1%nat
        else 0%nat in
      let comps := Str.split path sep in
      let new_comps :=
        fold_left
          (fun new_comps comp =>
             if str_eqb comp [] || str_eqb comp [extsep] then new_comps
             else if negb (str_eqb comp [extsep; extsep])
                     || (Nat.eqb initial_slashes 0
                         && match new_comps with [] => true | _ => false end)
                     || match new_comps with
                        | [] => false
                        | _ => str_eqb (last new_comps []) [extsep; extsep]
                        end
                  then new_comps ++ [comp]
                  else removelast new_comps)
          comps [] in
      let path := Str.join [sep] new_comps in
      let path := repeat sep initial_slashes ++ path in
      match path with
      | [] => [extsep]
      | _ :: _ => path
      end
  end.

(** [os.path.abspath(path)], with the current directory [cwd]. *)
Definition abspath (cwd path : pystr) : pystr :=
  if isabs path then normpath path else normpath (join cwd path).

End Path.

(** ** [base64] *)

Module Base64.

Definition alphabet : pystr :=
  py "ABCDEFGHIJKLMNOPQRSTUVWXYZabcdefghijklmnopqrstuvwxyz0123456789+/".

Definition pad : N := 61.

(** The character of a six-bit value. *)
Definition enc6 (v : N) : N := nth (N.to_nat v) alphabet pad.

(** The six-bit value of a character of the alphabet. *)
Definition dec6 (c : N) : option N :=
  if (65 <=? c) && (c <=? 90) then Some (c - 65)
  else if (97 <=? c) && (c <=? 122) then Some (c - 71)
  else if (48 <=? c) && (c <=? 57) then Some (c + 4)
  else if c =? 43 then Some 62
  else if c =? 47 then Some 63
  else None.

(** [base64.b64encode(data)], as code points of the ASCII result. *)
Fixpoint b64encode_N (data : list N) : pystr :=
  match data with
  | [] => []
  | [a] =>
      [enc6 (N.shiftr a 2); enc6 (N.shiftl (N.land a 3) 4); pad; pad]
  | [a; b] =>
      [enc6 (N.shiftr a 2);
       enc6 (N.lor (N.shiftl (N.land a 3) 4) (N.shiftr b 4));
       enc6 (N.shiftl (N.land b 15) 2); pad]
  | a :: b :: c :: rest =>
      enc6 (N.shiftr a 2)
      :: enc6 (N.lor (N.shiftl (N.land a 3) 4) (N.shiftr b 4))
      :: enc6 (N.lor (N.shiftl (N.land b 15) 2) (N.shiftr c 6))
      :: enc6 (N.land c 63)
      :: b64encode_N rest
  end.

(** [base64.b64encode(data).decode()] *)
Definition b64encode (data : list Byte.byte) : pystr :=
  b64encode_N (map Byte.to_N data).

(** [base64.b64decode(s)] on padded input: four characters give three
    bytes; padding is accepted in the last group only. *)
Fixpoint b64decode_N (s : pystr) : option (list N) :=
  match s with
  | [] => Some []
  | c1 :: c2 :: c3 :: c4 :: rest =>
      match dec6 c1, dec6 c2 with
      | Some v1, Some v2 =>
          let b1 := N.lor (N.shiftl v1 2) (N.shiftr v2 4) in
          if (c3 =? pad) && (c4 =? pad) then
            match rest with [] => Some [b1] | _ => None end
          else
            match dec6 c3 with
            | Some v3 =>
                let b2 := N.lor (N.shiftl (N.land v2 15) 4) (N.shiftr v3 2) in
                if c4 =? pad then
                  match rest with [] => Some [b1; b2] | _ => None end
                else
                  match dec6 c4, b64decode_N rest with
                  | Some v4, Some bytes =>
                      Some (b1 :: b2
                            :: N.lor (N.shiftl (N.land v3 3) 6) v4 :: bytes)
                  | _, _ => None
                  end
            | None => None
            end
      | _, _ => None
      end
  | _ => None
  end.

Fixpoint bytes_of (l : list N) : option (list Byte.byte) :=
  match l with
  | [] => Some []
  | n :: l' =>
      match Byte.of_N n, bytes_of l' with
      | Some b, Some bs => Some (b :: bs)
      | _, _ => None
      end
  end.

Definition b64decode (s : pystr) : option (list Byte.byte) :=
  match b64decode_N s with
  | Some l => bytes_of l
  | None => None
  end.

End Base64.

(** ** Values and dictionaries *)

(** The Python values an argument dictionary holds. *)
Inductive value : Type :=
| VNone
| VBool (b : bool)
| VInt (z : Z)
| VStr (s : pystr)
| VList (items : list value)
| VTuple (items : list value).

(** [bool(v)] *)
Definition truthy (v : value) : bool :=
  match v with
  | VNone => false
  | VBool b => b
  | VInt z => negb (z =? 0)%Z
  | VStr s => match s with [] => false | _ => true end
  | VList l | VTuple l => match l with [] => false | _ => true end
  end.

(** [v == s] for a string literal [s]. *)
Definition eq_str (v : value) (s : pystr) : bool :=
  match v with
  | VStr t => str_eqb t s
  | _ => false
  end.

Fixpoint hashable (v : value) : bool :=
  match v with
  | VList _ => false
  | VTuple l => forallb hashable l
  | _ => true
  end.

(** A [dict] with string keys, in insertion order. *)
Definition dict := list (pystr * value).

(** [d.get(k)] *)
Fixpoint dict_get (d : dict) (k : pystr) : option value :=
  match d with
  | [] => None
  | (k', v) :: d' => if str_eqb k' k then Some v else dict_get d' k
  end.

(** [d[k] = v]: an existing key keeps its position, a new one goes last. *)
Fixpoint dict_set (d : dict) (k : pystr) (v : value) : dict :=
  match d with
  | [] => [(k, v)]
  | (k', v') :: d' =>
      if str_eqb k' k then (k', v) :: d' else (k', v') :: dict_set d' k v
  end.

(** [list(d)]: the keys. *)
Definition dict_keys (d : dict) : list pystr := map fst d.

(** ** Exceptions *)

Inductive exn : Type :=
| KeyError (key : value)
| TypeError
| AttributeError
| Exception (msg : pystr) (arg : pystr)
| SystemExit (code : Z)
| OSError (errno : N)   (* raised by the operating system *)
| Raised (id : N).   (* raised by a graph module or by the backend *)

(** ** JSON *)

(** The objects handed to [json]: what it encodes, and [JOther e] for
    an object on which the encoder raises [e] (a [TypeError] for an
    object of a type it does not know). *)
Inductive jvalue : Type :=
| JNull
| JBool (b : bool)
| JNumber (literal : pystr)
| JString (s : pystr)
| JArray (items : list jvalue)
| JObject (members : list (pystr * jvalue))
| JOther (e : exn).

Fixpoint jget (members : list (pystr * jvalue)) (k : pystr) : option jvalue :=
  match members with
  | [] => None
  | (k', v) :: rest => if str_eqb k' k then Some v else jget rest k
  end.

Definition __version__ : jvalue :=
  JObject [(py "codename", JString (py "Iron Airedale"));
           (py "digit", JNumber (py "3.4"))].

(** The exception the encoder raises on an object, if any: that of the
    first object it cannot encode, in the order of the document. *)
Fixpoint json_error (j : jvalue) : option exn :=
  match j with
  | JOther e => Some e
  | JArray items =>
      (fix first (l : list jvalue) : option exn :=
         match l with
         | [] => None
         | item :: l' =>
             match json_error item with
             | Some e => Some e
             | None => first l'
             end
         end) items
  | JObject members =>
      (fix first (l : list (pystr * jvalue)) : option exn :=
         match l with
         | [] => None
         | (_, v) :: l' =>
             match json_error v with
             | Some e => Some e
             | None => first l'
             end
         end) members
  | _ => None
  end.

(** ** Logging *)

Inductive level : Type := DEBUG | INFO | ERROR | CRITICAL.

Inductive message : Type :=
| ArgsDict (d : dict)
| GeneratingGraphs (names : pystr)
| Processing (abs_fpath : value)
| OpeningInteractively
| SavingAsJson
| GraphSavedTo (path : pystr)
| FoundDirectory (dir_name : pystr)
| FileFound (abs_fpath : pystr)
| FoundFile (abs_fpath : pystr)
| NotAFileSkipping (f : pystr)
| LoadFileError
| OutNotADirectory (save_dir : pystr).

Definition log_record : Type := level * message.

(** ** The operating system *)

Record OS : Type := {
  os_path_exists : pystr -> bool;
  os_path_isfile : pystr -> bool;
  os_path_isdir : pystr -> bool;
  os_path_islink : pystr -> bool;
  os_stat_size : pystr -> N;
  (** [os.walk(top)]: the [(dir_name, dirs, files)] triples, in order *)
  os_walk : pystr -> list (pystr * list pystr * list pystr);
  os_getcwd : pystr;
  (** the text [open(filename, "r")] delivers, [None] when it raises *)
  os_read_text : pystr -> option pystr;
  (** the exception [open(path, "w")] raises, if it raises one *)
  os_open_write : pystr -> option exn
}.

(** [File2Strings(filename)]: the lines, or [None]; with what it logs. *)
Definition File2Strings (os : OS) (filename : pystr)
    : option (list pystr) * list log_record :=
  if negb (os_path_exists os filename) || negb (os_path_isfile os filename)
  then (None, [])
  else match os_read_text os filename with
       | Some text =>
           (Some (map (fun line => Str.rstrip line [10]) (Str.readlines text)), [])
       | None => (None, [(ERROR, LoadFileError)])
       end.

(** The test of [find_files] on one path. *)
Definition regular_nonempty (os : OS) (p : pystr) : bool :=
  os_path_isfile os p && negb (os_path_islink os p)
  && negb (os_stat_size os p =? 0).

(** The inner loop of [find_files] over the [files] of one directory. *)
Fixpoint find_in_dir (os : OS) (dir_name : pystr) (files : list pystr)
    : list pystr * list log_record :=
  match files with
  | [] => ([], [])
  | fname :: rest =>
      let abs_fpath := Path.join dir_name fname in
      let '(found, logs) := find_in_dir os dir_name rest in
      if regular_nonempty os abs_fpath
      then (abs_fpath :: found, (INFO, FileFound abs_fpath) :: logs)
      else (found, logs)
  end.

(** The loop of [find_files] over [os.walk(f)]. *)
Fixpoint find_in_walk (os : OS) (triples : list (pystr * list pystr * list pystr))
    : list pystr * list log_record :=
  match triples with
  | [] => ([], [])
  | (dir_name, _, files) :: rest =>
      let '(found, logs) := find_in_dir os dir_name files in
      let '(found', logs') := find_in_walk os rest in
      (found ++ found', (DEBUG, FoundDirectory dir_name) :: logs ++ logs')
  end.

(** [find_files(search_paths, recurse)]: [__files__], with what it logs. *)
Fixpoint find_files (os : OS) (search_paths : list pystr) (recurse : bool)
    : list pystr * list log_record :=
  match search_paths with
  | [] => ([], [])
  | f :: rest =>
      let '(found, logs) :=
        if recurse && os_path_isdir os f then find_in_walk os (os_walk os f)
        else if regular_nonempty os f then
          let abs_fpath := Path.abspath (os_getcwd os) f in
          ([abs_fpath], [(DEBUG, FoundFile abs_fpath)])
        else ([], [(CRITICAL, NotAFileSkipping f)]) in
      let '(found', logs') := find_files os rest recurse in
      (found ++ found', logs ++ logs')
  end.

(** ** The plotting backend *)

(** Where [plt.savefig] writes: the buffer [io.BytesIO()] of the JSON
    branch, or the file at a path. *)
Inductive target : Type :=
| Buffer
| File (path : pystr).

(** How a call of [plt.savefig] ends: with the bytes it wrote to its
    target; or with the exception it raises, and whether it leaves a
    file with part of the image at the path it was given. *)
Inductive saved : Type :=
| Saved (data : list Byte.byte)
| NotSaved (e : exn) (file_left : bool).

Module Driver.

Section BinGraph.

(** [str.isalnum] beyond ASCII is given by the Unicode character
    database. *)
Variable unicode_isalnum : N -> bool.

(** The figure of the plotting backend. *)
Variable Figure : Type.

(** The names of the graph modules that were imported, in order, and
    what each module's [generate] and [args_validation] do on the
    arguments: [generate] gives the current figure of the returned [plt],
    the save options and the JSON data, or raises; [args_validation]
    gives the arguments as it leaves them, or raises. *)
Variable graphs : list pystr.
Variable generate : pystr -> dict -> exn + (Figure * dict * jvalue).
Variable args_validation : pystr -> dict -> exn + dict.

(** The backend: [fig.set_size_inches], [plt.tight_layout], and how a
    call of [plt.savefig] ends for a figure, a target, a format, a dpi
    and the save options.  The two calls of the driver differ in their
    target, and nothing makes the backend write the same bytes to a
    buffer and to a file. *)
Variable set_size_inches : Figure -> list value -> Figure.
Variable tight_layout : Figure -> Figure.
Variable savefig : Figure -> target -> value -> value -> dict -> saved.

Variable os : OS.

Definition isalnum (c : N) : bool :=
  if c <? 128 then Str.ascii_isalnum c else unicode_isalnum c.

(** [clean_fname(fn)] *)
Definition clean_fname (fn : pystr) : pystr :=
  Str.join [] (map (fun c => [c]) (filter isalnum fn)).

Definition base_save_fname : pystr :=
  py "{prefix}-{findex}-{graphtype}-{cleaned_fname}.{ffrmt}".

(** [gen_names(ffrmt, abs_fpath, abs_save_path, save_prefix, graphtype,
    findex)]; [findex] is [Some i] when it is an [int]. *)
Definition gen_names (ffrmt abs_fpath abs_save_path : pystr)
    (save_prefix : option pystr) (graphtype : pystr) (findex : option Z)
    : pystr * pystr * pystr :=
  let save_fname :=
    match save_prefix with
    | Some (c :: p) => Str.replace base_save_fname (py "{prefix}") (c :: p)
    | _ => Str.replace base_save_fname (py "{prefix}-") []
    end in
  let save_fname := Str.replace save_fname (py "{graphtype}") graphtype in
  let cleaned_fname := clean_fname (Path.basename abs_fpath) in
  let save_fname :=
    match findex with
    | Some i =>
        let save_fname := Str.replace save_fname (py "{findex}") (Str.of_int i) in
        Str.replace save_fname (py "{cleaned_fname}") cleaned_fname
    | None =>
        let save_fname := Str.replace save_fname (py "{findex}-") [] in
        Str.replace save_fname (py "-{cleaned_fname}") []
    end in
  let save_fname := Str.replace save_fname (py "{ffrmt}") ffrmt in
  let abs_save_fpath := Path.join abs_save_path save_fname in
  (abs_save_fpath, Path.basename abs_fpath, cleaned_fname).

(** *** Effects of the driver *)

(** What a file holds after a write: an image, a JSON document, or the
    beginning of one of them, left by a write that raised. *)
Inductive content : Type :=
| Image (data : list Byte.byte)
| Json (document : list (pystr * jvalue))
| Truncated.

(** What a run does to the world, in order: a log record, a call of a
    module's [generate] with its keyword arguments, [plt.show()], a file
    written or left behind, and the release of the figure ([plt.clf();
    plt.cla(); plt.close()]). *)
Inductive event : Type :=
| Log (record : log_record)
| Generate (module_name : pystr) (kwargs : dict)
| Show (fig : Figure)
| Write (path : pystr) (c : content)
| Close.

(** A computation reads and updates [args_dict], emits events, and
    returns or raises. *)
Definition M (A : Type) : Type := dict -> list event * (exn + A * dict).

Definition ret {A} (a : A) : M A := fun d => ([], inr (a, d)).

Definition bind {A B} (m : M A) (f : A -> M B) : M B :=
  fun d =>
    match m d with
    | (evs, inl e) => (evs, inl e)
    | (evs, inr (a, d')) => let '(evs', r) := f a d' in (evs ++ evs', r)
    end.

Definition raise {A} (e : exn) : M A := fun _ => ([], inl e).
Definition emit (ev : event) : M unit := fun d => ([ev], inr (tt, d)).
Definition emit_all (evs : list event) : M unit := fun d => (evs, inr (tt, d)).
Definition log (l : level) (m : message) : M unit := emit (Log (l, m)).
Definition get_args : M dict := fun d => ([], inr (d, d)).

Definition lift {A} (r : exn + A) : M A :=
  match r with
  | inl e => raise e
  | inr a => ret a
  end.

(** [args_dict[k]] *)
Definition lookup (k : pystr) : M value :=
  fun d =>
    match dict_get d k with
    | Some v => ([], inr (v, d))
    | None => ([], inl (KeyError (VStr k)))
    end.

(** [args_dict[k] = v] *)
Definition store (k : pystr) (v : value) : M unit :=
  fun d => ([], inr (tt, dict_set d k v)).

Notation "x <- c ;; k" := (bind c (fun x => k))
  (at level 61, c at next level, right associativity).
Notation "c ;;; k" := (bind c (fun _ => k))
  (at level 61, right associativity).

Fixpoint for_each {A} (l : list A) (body : A -> M unit) : M unit :=
  match l with
  | [] => ret tt
  | x :: l' => body x ;;; for_each l' body
  end.

Fixpoint enumerate_from {A} (start : nat) (l : list A) : list (nat * A) :=
  match l with
  | [] => []
  | x :: l' => (start, x) :: enumerate_from (S start) l'
  end.

Definition enumerate {A} (l : list A) : list (nat * A) := enumerate_from 0 l.

(** Iterating over a value: its items, or a [TypeError]. *)
Definition iter (v : value) : exn + list value :=
  match v with
  | VList l | VTuple l => inr l
  | VStr s => inr (map (fun c => VStr [c]) s)
  | _ => inl TypeError
  end.

(** [len(v)] *)
Definition len (v : value) : exn + nat :=
  match v with
  | VList l | VTuple l => inr (List.length l)
  | VStr s => inr (List.length s)
  | _ => inl TypeError
  end.

(** The call of [gen_names] on values: the string operations reject what
    is not a [str]. *)
Definition gen_names_call (format abs_fpath save_dir prefix : value)
    (module_name : pystr) (findex : option Z)
    : exn + (pystr * pystr * pystr) :=
  match format, abs_fpath, save_dir with
  | VStr ffrmt, VStr p, VStr dir =>
      match prefix with
      | VStr s => inr (gen_names ffrmt p dir (Some s) module_name findex)
      | _ =>
          if truthy prefix then inl TypeError
          else inr (gen_names ffrmt p dir None module_name findex)
      end
  | _, _, _ => inl TypeError
  end.

(** [__graphtypes__]: every imported module for ["all"], else the one
    named. *)
Definition select_graphtypes (d : dict) : exn + list pystr :=
  if eq_str (match dict_get d (py "graphtype") with
             | Some v => v
             | None => VStr []
             end) (py "all")
  then inr graphs
  else match dict_get d (py "graphtype") with
       | None => inl (KeyError (VStr (py "graphtype")))
       | Some (VStr name) =>
           if existsb (str_eqb name) graphs then inr [name]
           else inl (KeyError (VStr name))
       | Some v => if hashable v then inl (KeyError v) else inl TypeError
       end.

(** [plt.savefig(target, format=format, dpi=dpi, **save_kwargs)]: a
    keyword given twice is a [TypeError], raised before the backend is
    entered. *)
Definition plt_savefig (fig : Figure) (to : target) (format dpi : value)
    (save_kwargs : dict) : saved :=
  match dict_get save_kwargs (py "format"), dict_get save_kwargs (py "dpi") with
  | None, None => savefig fig to format dpi save_kwargs
  | _, _ => NotSaved TypeError false
  end.

(** What a call of [plt.savefig] on the target [to] does to the run: a
    call on a path writes the file, or raises and may leave the
    beginning of the file; a call on the buffer gives the bytes, or
    raises. *)
Definition save (to : target) (r : saved) : M (list Byte.byte) :=
  match r, to with
  | Saved data, File path => emit (Write path (Image data)) ;;; ret data
  | Saved data, Buffer => ret data
  | NotSaved e true, File path => emit (Write path Truncated) ;;; raise e
  | NotSaved e _, _ => raise e
  end.

(** [with open(path, "w") as outfile: json.dump(output, outfile)]:
    [open] may raise, and then there is no file; the encoder may raise
    on an object it cannot encode, and then the file is left with the
    beginning of the document. *)
Definition dump_json (path : pystr) (output : list (pystr * jvalue))
    : M unit :=
  match os_open_write os path with
  | Some e => raise e
  | None =>
      match json_error (JObject output) with
      | Some e => emit (Write path Truncated) ;;; raise e
      | None => emit (Write path (Json output))
      end
  end.

(** The output block of the loop body: the [if]/[elif]/[else] on
    [showplt] and [json]. *)
Definition output_graph (fig : Figure) (save_kwargs : dict)
    (json_data : jvalue) (abs_save_fpath : pystr) : M unit :=
  showplt <- lookup (py "showplt") ;;
  if truthy showplt then
    log INFO OpeningInteractively ;;;
    emit (Show fig)
  else
    json <- lookup (py "json") ;;
    if truthy json then
      log INFO SavingAsJson ;;;
      format <- lookup (py "format") ;;
      dpi <- lookup (py "dpi") ;;
      buf <- save Buffer (plt_savefig fig Buffer format dpi save_kwargs) ;;
      args_dict <- get_args ;;
      let output :=
        [(py "info", json_data);
         (py "graph", JString (Base64.b64encode buf));
         (py "cmdline", JString (Str.join (py " ") (dict_keys args_dict)));
         (py "version", __version__)] in
      let abs_save_fpath := fst (Path.splitext abs_save_fpath) ++ py ".json" in
      dump_json abs_save_fpath output ;;;
      log INFO (GraphSavedTo abs_save_fpath)
    else
      format <- lookup (py "format") ;;
      dpi <- lookup (py "dpi") ;;
      save (File abs_save_fpath)
           (plt_savefig fig (File abs_save_fpath) format dpi save_kwargs) ;;;
      log INFO (GraphSavedTo abs_save_fpath).

(** The body of the inner loop of [generate_graphs]. *)
Definition generate_graph (index : nat) (abs_fpath : value)
    (module_name : pystr) : M unit :=
  format <- lookup (py "format") ;;
  save_dir <- lookup (py "save_dir") ;;
  prefix <- lookup (py "prefix") ;;
  files <- lookup (py "files") ;;
  n <- lift (len files) ;;
  let findex := if (1 <? n)%nat then Some (Z.of_nat index) else None in
  names <- lift (gen_names_call format abs_fpath save_dir prefix
                                module_name findex) ;;
  let '(abs_save_fpath, fname, cleaned_fname) := names in
  store (py "abs_fpath") abs_fpath ;;;
  store (py "fname") (VStr fname) ;;;
  store (py "cleaned_fname") (VStr cleaned_fname) ;;;
  (* Generate and output the graph *)
  kwargs <- get_args ;;
  emit (Generate module_name kwargs) ;;;
  result <- lift (generate module_name kwargs) ;;
  let '(fig, save_kwargs, json_data) := result in
  figsize <- lookup (py "figsize") ;;
  size <- lift (iter figsize) ;;
  let fig := tight_layout (set_size_inches fig size) in
  output_graph fig save_kwargs json_data abs_save_fpath ;;;
  emit Close.

(** [generate_graphs(args_dict)] *)
Definition generate_graphs : M unit :=
  d <- get_args ;;
  log DEBUG (ArgsDict d) ;;;
  (* verbose only changes the level of the loggers *)
  __graphtypes__ <- lift (select_graphtypes d) ;;
  log DEBUG (GeneratingGraphs (Str.join (py ", ") __graphtypes__)) ;;;
  files <- lookup (py "files") ;;
  files <- lift (iter files) ;;
  for_each (enumerate files) (fun '(index, abs_fpath) =>
    log DEBUG (Processing abs_fpath) ;;;
    for_each __graphtypes__ (generate_graph index abs_fpath)).

(** The loop of [main] over [args.files]: [__files__], or the exception
    for a list file that cannot be read; with what is logged. *)
Fixpoint resolve_files (files : list pystr) (recurse : bool)
    : list log_record * (exn + list pystr) :=
  match files with
  | [] => ([], inr [])
  | file :: rest =>
      if Str.startswith file (py "@") then
        match File2Strings os (Str.slice_from file 1) with
        | (None, logs) =>
            (logs, inl (Exception (py "Error reading %s") file))
        | (Some lines, logs) =>
            match resolve_files rest recurse with
            | (logs', inl e) => (logs ++ logs', inl e)
            | (logs', inr found') => (logs ++ logs', inr (lines ++ found'))
            end
        end
      else
        let '(found, logs) := find_files os [file] recurse in
        match resolve_files rest recurse with
        | (logs', inl e) => (logs ++ logs', inl e)
        | (logs', inr found') => (logs ++ logs', inr (found ++ found'))
        end
  end.

(** The items of [args.files]: strings. *)
Fixpoint str_items (items : list value) : exn + list pystr :=
  match items with
  | [] => inr []
  | VStr s :: rest =>
      match str_items rest with
      | inl e => inl e
      | inr l => inr (s :: l)
      end
  | _ :: _ => inl AttributeError
  end.

(** [module.args_validation(args)]: the arguments as the module leaves
    them, or its exception. *)
Definition validate (name : pystr) : M unit :=
  fun args =>
    match args_validation name args with
    | inl e => ([], inl e)
    | inr args' => ([], inr (tt, args'))
    end.

(** [main()], from the parsed arguments on. *)
Definition main : M unit :=
  files <- lookup (py "files") ;;
  files <- lift (iter files) ;;
  files <- lift (str_items files) ;;
  recurse <- lookup (py "recurse") ;;
  let '(logs, found) := resolve_files files (truthy recurse) in
  emit_all (map Log logs) ;;;
  __files__ <- lift found ;;
  store (py "files") (VList (map VStr __files__)) ;;;
  save_dir <- lookup (py "save_dir") ;;
  match save_dir with
  | VStr save_dir =>
      let save_dir := Path.abspath (os_getcwd os) save_dir in
      store (py "save_dir") (VStr save_dir) ;;;
      if negb (os_path_isdir os save_dir) then
        log CRITICAL (OutNotADirectory save_dir) ;;;
        raise (SystemExit 1)
      else
        args <- get_args ;;
        __graphtypes__ <- lift (select_graphtypes args) ;;
        for_each __graphtypes__ validate ;;;
        generate_graphs
  | _ => raise TypeError
  end.

(** The artifacts a trace leaves on disk, and the calls of [generate]. *)
Fixpoint writes (tr : list event) : list (pystr * content) :=
  match tr with
  | [] => []
  | Write path c :: tr' => (path, c) :: writes tr'
  | _ :: tr' => writes tr'
  end.

Fixpoint generate_calls (tr : list event) : list (pystr * dict) :=
  match tr with
  | [] => []
  | Generate module_name kwargs :: tr' =>
      (module_name, kwargs) :: generate_calls tr'
  | _ :: tr' => generate_calls tr'
  end.

Fixpoint shown (tr : list event) : list Figure :=
  match tr with
  | [] => []
  | Show fig :: tr' => fig :: shown tr'
  | _ :: tr' => shown tr'
  end.

(** *** The layout the names have *)

(** The file name as the specification words it:
    [[prefix-][index-]analysisType-sanitizedBasename.format]. *)
Definition spec_filename (prefix : option pystr) (index : option Z)
    (analysisType sanitizedBasename format : pystr) : pystr :=
  match prefix with Some p => p ++ py "-" | None => [] end
  ++ match index with Some i => Str.of_int i ++ py "-" | None => [] end
  ++ analysisType ++ py "-" ++ sanitizedBasename ++ py "." ++ format.

(** The file name [gen_names] builds: an empty prefix counts as none, and
    the cleaned name goes with the index. *)
Definition save_fname_layout (save_prefix : option pystr)
    (findex : option Z) (graphtype cleaned_fname ffrmt : pystr) : pystr :=
  match save_prefix with Some (c :: p) => (c :: p) ++ py "-" | _ => [] end
  ++ match findex with Some i => Str.of_int i ++ py "-" | None => [] end
  ++ graphtype
  ++ match findex with Some _ => py "-" ++ cleaned_fname | None => [] end
  ++ py "." ++ ffrmt.

(** A string without an opening brace cannot hold a placeholder of the
    template. *)
Definition brace_free (s : pystr) : Prop := ~ In 123 s.

(** The prefix segment of the layout. *)
Definition prefix_segment (save_prefix : option pystr) : pystr :=
  match save_prefix with Some (c :: p) => (c :: p) ++ py "-" | _ => [] end.

(** *** Runs and their traces *)

(** [showplt] is set to a true value. *)
Definition interactive (d : dict) : Prop :=
  exists sv, dict_get d (py "showplt") = Some sv /\ truthy sv = true.

(** From a dictionary in [I], the events of [m] are in [Q], and [I]
    holds again when [m] returns. *)
Definition preserves {A} (I : dict -> Prop) (Q : list event -> Prop)
    (m : M A) : Prop :=
  forall d, I d ->
    Q (fst (m d)) /\ forall a d', snd (m d) = inr (a, d') -> I d'.

(** A trace that leaves no file. *)
Definition no_writes (tr : list event) : Prop := writes tr = [].

(** A call of [generate] that raises is the last event of the run, and
    the run raises the same exception. *)
Definition stops_at_failure {A} (run : list event * (exn + A * dict))
    : Prop :=
  forall tr1 m kw tr2 e,
    fst run = tr1 ++ Generate m kw :: tr2 ->
    generate m kw = inl e ->
    tr2 = [] /\ snd run = inl e.

(** A trace without a call of [generate]. *)
Definition quiet (tr : list event) : Prop := generate_calls tr = [].

(** No condition on the dictionary. *)
Definition any_dict (d : dict) : Prop := True.

(** What a run reads of its configuration. *)
Record config : Type := {
  c_format : pystr;
  c_save_dir : pystr;
  c_prefix : value;
  c_files : list pystr;
  c_showplt : value;
  c_json : value
}.

(** The dictionary holds the configuration [c]. *)
Definition configured (c : config) (d : dict) : Prop :=
  dict_get d (py "format") = Some (VStr (c_format c))
  /\ dict_get d (py "save_dir") = Some (VStr (c_save_dir c))
  /\ dict_get d (py "prefix") = Some (c_prefix c)
  /\ dict_get d (py "files") = Some (VList (map VStr (c_files c)))
  /\ dict_get d (py "showplt") = Some (c_showplt c)
  /\ dict_get d (py "json") = Some (c_json c).

(** [findex]: the index when there is more than one file. *)
Definition findex_of (n index : nat) : option Z :=
  if (1 <? n)%nat then Some (Z.of_nat index) else None.

(** [save_prefix] as [gen_names] sees it. *)
Definition prefix_arg (prefix : value) : option pystr :=
  match prefix with
  | VStr s => Some s
  | _ => None
  end.

(** The path an artifact is written to. *)
Definition artifact_path (json : bool) (abs_save_fpath : pystr) : pystr :=
  if json then fst (Path.splitext abs_save_fpath) ++ py ".json"
  else abs_save_fpath.

(** The path of the artifact of file [index] and a graph type. *)
Definition pair_path (c : config) (index : nat) (abs_fpath : pystr)
    (module_name : pystr) : pystr :=
  artifact_path (truthy (c_json c))
    (fst (fst (gen_names (c_format c) abs_fpath (c_save_dir c)
                         (prefix_arg (c_prefix c)) module_name
                         (findex_of (List.length (c_files c)) index)))).

(** The paths of a run, in the order of the loops. *)
Definition run_paths (c : config) (graphtypes : list pystr)
    (files : list (nat * pystr)) : list pystr :=
  flat_map (fun '(index, abs_fpath) =>
              map (pair_path c index abs_fpath) graphtypes) files.

(** The paths written so far, and whether all of [expected] are. *)
Definition wrote_paths {A} (run : list event * (exn + A * dict))
    (expected : list pystr) : Prop :=
  exists rest,
    map fst (writes (fst run)) ++ rest = expected
    /\ forall a d', snd run = inr (a, d') -> rest = [].

(** [run] wrote the [expected] paths, all of them if it returned, and
    returned in [I]. *)
Definition writes_exactly {A} (I : dict -> Prop)
    (run : list event * (exn + A * dict)) (expected : list pystr) : Prop :=
  wrote_paths run expected
  /\ forall a d', snd run = inr (a, d') -> I d'.

(** *** List files and walks *)

(** The lines of a text, without their newlines: the pieces between
    newlines, but for an empty piece after the last newline. *)
Definition all_lines (text : pystr) : list pystr :=
  let pieces := Str.split text 10 in
  if str_eqb (last pieces []) [] then removelast pieces else pieces.

(** The paths of a list file as the specification words them: the
    non-empty lines. *)
Definition spec_listfile_paths (text : pystr) : list pystr :=
  filter (fun line => negb (str_eqb line [])) (all_lines text).

(** The regular, non-empty files of the triples of a walk. *)
Definition walk_files (o : OS)
    (triples : list (pystr * list pystr * list pystr)) : list pystr :=
  flat_map (fun '(dir_name, _, files) =>
              filter (regular_nonempty o) (map (Path.join dir_name) files))
           triples.

(** *** Base64 arithmetic, checked by enumeration *)

(** The numbers below [n]. *)
Definition below (n : nat) : list N := map N.of_nat (seq 0 n).

(** A six-bit value is read back from its character, which is not the
    padding. *)
Definition sextet_ok (v : N) : bool :=
  match Base64.dec6 (Base64.enc6 v) with Some v' => v' =? v | None => false end
  && negb (Base64.enc6 v =? Base64.pad).

(** The first byte [a] is read back from the first two six-bit values;
    [x] is the high half of the second byte. *)
Definition first_ok (a x : N) : bool :=
  let v1 := N.shiftr a 2 in
  let v2 := N.lor (N.shiftl (N.land a 3) 4) x in
  (v1 <? 64) && (v2 <? 64)
  && (N.lor (N.shiftl v1 2) (N.shiftr v2 4) =? a)
  && (N.land v2 15 =? x).

(** The second byte [b] is read back from the second and third six-bit
    values; [y] is the two high bits of the third byte. *)
Definition second_ok (b y : N) : bool :=
  let x := N.shiftr b 4 in
  let v3 := N.lor (N.shiftl (N.land b 15) 2) y in
  (x <? 16) && (v3 <? 64)
  && (N.lor (N.shiftl x 4) (N.shiftr v3 2) =? b)
  && (N.land v3 3 =? y).

(** The third byte [c] is read back from the last two six-bit values. *)
Definition third_ok (c : N) : bool :=
  let y := N.shiftr c 6 in
  let v4 := N.land c 63 in
  (y <? 4) && (v4 <? 64) && (N.lor (N.shiftl y 6) v4 =? c).

End BinGraph.

End Driver.

Import Driver.

Arguments ret {Figure A} a.
Arguments bind {Figure A B} m f.
Arguments raise {Figure A} e.
Arguments emit {Figure} ev.
Arguments emit_all {Figure} evs.
Arguments log {Figure} l m.
Arguments get_args {Figure}.
Arguments lift {Figure A} r.
Arguments lookup {Figure} k.
Arguments store {Figure} k v.
Arguments for_each {Figure A} l body.
Arguments Log {Figure} record.
Arguments Generate {Figure} module_name kwargs.
Arguments Show {Figure} fig.
Arguments Write {Figure} path c.
Arguments Close {Figure}.
Arguments writes {Figure} tr.
Arguments generate_calls {Figure} tr.
Arguments shown {Figure} tr.
Arguments preserves {Figure A} I Q m.
Arguments wrote_paths {Figure A} run expected.
Arguments writes_exactly {Figure A} I run expected.

(** * A concrete run

    A small world to run the driver in: ASCII file names, two graph
    modules, a backend that always gives the same four bytes, and a graph
    module that cannot read [/in/bad.bin]. *)

Definition ascii_only : N -> bool := fun _ => false.

Definition demo_graphs : list pystr := [py "ent"; py "hist"].

Definition demo_generate (module_name : pystr) (kwargs : dict)
    : exn + (N * dict * jvalue) :=
  match dict_get kwargs (py "abs_fpath") with
  | Some (VStr p) =>
      if str_eqb p (py "/in/bad.bin") then inl (Raised 1)
      else inr (N.of_nat (List.length p), [], JObject [(py "file", JString p)])
  | _ => inl TypeError
  end.

Definition demo_validation (name : pystr) (args : dict) : exn + dict :=
  inr args.

Definition demo_set_size_inches (fig : N) (size : list value) : N := fig.

Definition demo_tight_layout (fig : N) : N := fig.

Definition demo_image : list Byte.byte :=
  [Byte.x89; Byte.x50; Byte.x4e; Byte.x47].

Definition demo_savefig (fig : N) (to : target) (format dpi : value)
    (save_kwargs : dict) : saved :=
  Saved demo_image.

(** The files: a directory [dir] with an empty file, a link and a regular
    file; a directory [a.bin]; a list file whose second line is empty; the
    save directory [/out]. *)
Definition demo_os : OS := {|
  os_path_exists p :=
    existsb (str_eqb p)
      [py "dir"; py "dir/a.empty"; py "dir/b.lnk"; py "dir/c.bin";
       py "a.bin"; py "list.txt"; py "/out"];
  os_path_isfile p :=
    existsb (str_eqb p)
      [py "dir/a.empty"; py "dir/b.lnk"; py "dir/c.bin"; py "list.txt"];
  os_path_isdir p := existsb (str_eqb p) [py "dir"; py "a.bin"; py "/out"];
  os_path_islink p := str_eqb p (py "dir/b.lnk");
  os_stat_size p :=
    if str_eqb p (py "dir/a.empty") then 0
    else if str_eqb p (py "list.txt") then 13
    else 5;
  os_walk top :=
    if str_eqb top (py "dir")
    then [(py "dir", [], [py "a.empty"; py "b.lnk"; py "c.bin"])]
    else [];
  os_getcwd := py "/home/u";
  os_read_text p :=
    if str_eqb p (py "list.txt")
    then Some (py "a.bin" ++ [10; 10] ++ py "b.bin" ++ [10])
    else None;
  os_open_write p :=
    if Str.startswith p (py "/out/") then None else Some (OSError 2)
|}.

Definition demo_args (files : list pystr) (json showplt : bool) (dpi : Z)
    : dict :=
  [(py "files", VList (map VStr files));
   (py "recurse", VBool false);
   (py "prefix", VNone);
   (py "save_dir", VStr (py "/out"));
   (py "json", VBool json);
   (py "showplt", VBool showplt);
   (py "format", VStr (py "png"));
   (py "figsize", VTuple [VInt 12; VInt 4]);
   (py "dpi", VInt dpi);
   (py "graphtype", VStr (py "ent"))].

Definition demo_generate_graphs : M N unit :=
  generate_graphs ascii_only N demo_graphs demo_generate
                  demo_set_size_inches demo_tight_layout demo_savefig
                  demo_os.

Definition demo_main : M N unit :=
  main ascii_only N demo_graphs demo_generate demo_validation
       demo_set_size_inches demo_tight_layout demo_savefig demo_os.

Definition demo_output_graph := output_graph N demo_savefig demo_os.

(** The value of [abs_fpath] in the arguments of each call of [generate]. *)
Definition called_on {Figure} (tr : list (event Figure)) : list (option value) :=
  map (fun call => dict_get (snd call) (py "abs_fpath")) (generate_calls tr).

(** * The calls of [generate] in a run *)

Module Calls.

(** The releases of the figure in a trace. *)
Fixpoint closes {Figure} (tr : list (event Figure)) : nat :=
  match tr with
  | [] => 0%nat
  | Close :: tr' => S (closes tr')
  | _ :: tr' => closes tr'
  end.

(** The arguments after the three assignments of the loop body for the
    file [abs_fpath]. *)
Definition with_names (unicode_isalnum : N -> bool) (d : dict)
    (abs_fpath : pystr) : dict :=
  dict_set
    (dict_set (dict_set d (py "abs_fpath") (VStr abs_fpath))
              (py "fname") (VStr (Path.basename abs_fpath)))
    (py "cleaned_fname")
    (VStr (clean_fname unicode_isalnum (Path.basename abs_fpath))).

(** How the loop body goes for a graph module and a file: it raises
    before the call of [generate]; or it calls [generate] once, with the
    arguments and the names of the file, and then either raises with the
    figure unreleased, or releases the figure and returns. *)
Definition pair_outcome {Figure} (unicode_isalnum : N -> bool)
    (module_name : pystr) (abs_fpath : value) (d : dict)
    (run : list (event Figure) * (exn + unit * dict)) : Prop :=
  (generate_calls (fst run) = [] /\ closes (fst run) = 0%nat
   /\ exists e, snd run = inl e)
  \/ exists p,
       abs_fpath = VStr p
       /\ generate_calls (fst run)
          = [(module_name, with_names unicode_isalnum d p)]
       /\ ((closes (fst run) = 0%nat /\ exists e, snd run = inl e)
           \/ (closes (fst run) = 1%nat
               /\ snd run = inr (tt, with_names unicode_isalnum d p))).

(** The keyword arguments name one file: its path, its base name and
    the cleaned base name. *)
Definition names_of (unicode_isalnum : N -> bool) (kwargs : dict) : Prop :=
  exists p,
    dict_get kwargs (py "abs_fpath") = Some (VStr p)
    /\ dict_get kwargs (py "fname") = Some (VStr (Path.basename p))
    /\ dict_get kwargs (py "cleaned_fname")
       = Some (VStr (clean_fname unicode_isalnum (Path.basename p))).

(** [d'] has the entries of [d], but for the three names. *)
Definition agree_but_names (d d' : dict) : Prop :=
  forall k,
    k <> py "abs_fpath" -> k <> py "fname" -> k <> py "cleaned_fname" ->
    dict_get d' k = dict_get d k.

(** The module and the file of each call of [generate]. *)
Definition call_targets {Figure} (tr : list (event Figure))
    : list (pystr * option value) :=
  map (fun call => (fst call, dict_get (snd call) (py "abs_fpath")))
      (generate_calls tr).

(** What was observed of [run] is the beginning of [expected], and all
    of it if the run returned. *)
Definition observes {Figure A X} (obs : list (event Figure) -> list X)
    (run : list (event Figure) * (exn + A * dict)) (expected : list X)
    : Prop :=
  exists rest,
    obs (fst run) ++ rest = expected
    /\ forall a d', snd run = inr (a, d') -> rest = [].

(** Every figure generated was released, but for the one in hand when
    the run raised. *)
Definition balanced {Figure A}
    (run : list (event Figure) * (exn + A * dict)) : Prop :=
  match snd run with
  | inr _ => List.length (generate_calls (fst run)) = closes (fst run)
  | inl _ =>
      List.length (generate_calls (fst run)) = closes (fst run)
      \/ List.length (generate_calls (fst run)) = S (closes (fst run))
  end.

End Calls.

Import Calls.

(** * The import of the graph modules *)




(** * More of the concrete run *)

(** A graph module that rejects a resolution that is not positive. *)
Definition demo_strict_validation (name : pystr) (args : dict)
    : exn + dict :=
  match dict_get args (py "dpi") with
  | Some (VInt dpi) => if (0 <? dpi)%Z then inr args else inl (Raised 2)
  | _ => inl TypeError
  end.

Definition demo_strict_main : M N unit :=
  main ascii_only N demo_graphs demo_generate demo_strict_validation
       demo_set_size_inches demo_tight_layout demo_savefig demo_os.


(** The arguments with another value for one key. *)
Definition demo_with (k : pystr) (v : value) (files : list pystr) : dict :=
  dict_set (demo_args files false false 100) k v.

(** A backend that puts the name of the file it writes into the image,
    as a title: it has none to put for a buffer. *)
Definition title_bytes (path : pystr) : list Byte.byte :=
  flat_map (fun c => match Byte.of_N c with
                     | Some b => [b]
                     | None => []
                     end) path.

Definition demo_savefig_titled (fig : N) (to : target) (format dpi : value)
    (save_kwargs : dict) : saved :=
  match to with
  | Buffer => Saved demo_image
  | File path => Saved (demo_image ++ title_bytes path)
  end.

(** A symbolic link [lnk] to a directory that holds one regular
    file. *)
Definition link_os : OS := {|
  os_path_exists p := existsb (str_eqb p) [py "lnk"; py "lnk/c.bin"];
  os_path_isfile p := str_eqb p (py "lnk/c.bin");
  os_path_isdir p := str_eqb p (py "lnk");
  os_path_islink p := str_eqb p (py "lnk");
  os_stat_size p := 5;
  os_walk top :=
    if str_eqb top (py "lnk") then [(py "lnk", [], [py "c.bin"])] else [];
  os_getcwd := py "/home/u";
  os_read_text p := None;
  os_open_write p := None
|}.

(** * What a run reports *)

(** The paths of the records [Graph saved to: ...] of a trace. *)
Fixpoint logged_saves {Figure} (tr : list (event Figure)) : list pystr :=
  match tr with
  | [] => []
  | Log (_, GraphSavedTo path) :: tr' => path :: logged_saves tr'
  | _ :: tr' => logged_saves tr'
  end.

(** The files a trace wrote to their end, and the files that a write
    which raised left behind. *)
Fixpoint saved_files {Figure} (tr : list (event Figure)) : list pystr :=
  match tr with
  | [] => []
  | Write _ Truncated :: tr' => saved_files tr'
  | Write path _ :: tr' => path :: saved_files tr'
  | _ :: tr' => saved_files tr'
  end.

Fixpoint left_behind {Figure} (tr : list (event Figure)) : list pystr :=
  match tr with
  | [] => []
  | Write path Truncated :: tr' => path :: left_behind tr'
  | _ :: tr' => left_behind tr'
  end.

(** The number of outputs of a trace: figures shown and files written
    to their end. *)
Definition outputs {Figure} (tr : list (event Figure)) : nat :=
  (List.length (shown tr) + List.length (saved_files tr))%nat.

(** A run that returned left no file behind, and a run that raised left
    one at most. *)
Definition tidy {Figure A} (run : list (event Figure) * (exn + A * dict))
    : Prop :=
  match snd run with
  | inr _ => left_behind (fst run) = []
  | inl _ => (List.length (left_behind (fst run)) <= 1)%nat
  end.

(** * Properties *)

Section Properties.

Set Default Proof Using "Type".

Variable unicode_isalnum : N -> bool.
Variable Figure : Type.
Variable graphs : list pystr.
Variable generate : pystr -> dict -> exn + (Figure * dict * jvalue).
Variable args_validation : pystr -> dict -> exn + dict.
Variable set_size_inches : Figure -> list value -> Figure.
Variable tight_layout : Figure -> Figure.
Variable savefig : Figure -> target -> value -> value -> dict -> saved.
Variable os : OS.

(** The driver, with these parameters. *)
Local Abbreviation M := (M Figure).
Local Abbreviation event := (event Figure).
Local Abbreviation isalnum := (isalnum unicode_isalnum).
Local Abbreviation clean_fname := (clean_fname unicode_isalnum).
Local Abbreviation gen_names := (gen_names unicode_isalnum).
Local Abbreviation gen_names_call := (gen_names_call unicode_isalnum).
Local Abbreviation select_graphtypes := (select_graphtypes graphs).
Local Abbreviation plt_savefig := (plt_savefig Figure savefig).
Local Abbreviation output_graph := (output_graph Figure savefig os).
Local Abbreviation save := (save Figure).
Local Abbreviation dump_json := (dump_json Figure os).
Local Abbreviation generate_graph :=
  (generate_graph unicode_isalnum Figure generate set_size_inches
                  tight_layout savefig os).
Local Abbreviation generate_graphs :=
  (generate_graphs unicode_isalnum Figure graphs generate set_size_inches
                   tight_layout savefig os).
Local Abbreviation resolve_files := (resolve_files os).
Local Abbreviation validate := (validate Figure args_validation).
Local Abbreviation main :=
  (main unicode_isalnum Figure graphs generate args_validation
        set_size_inches tight_layout savefig os).
Local Abbreviation stops_at_failure := (stops_at_failure Figure generate).
Local Abbreviation no_writes := (no_writes Figure).
Local Abbreviation quiet := (quiet Figure).
Local Abbreviation pair_path := (pair_path unicode_isalnum).
Local Abbreviation run_paths := (run_paths unicode_isalnum).
Local Abbreviation with_names := (with_names unicode_isalnum).
Local Abbreviation pair_outcome := (pair_outcome unicode_isalnum).
Local Abbreviation names_of := (names_of unicode_isalnum).

Local Notation "x <- c ;; k" := (bind c (fun x => k))
  (at level 61, c at next level, right associativity).
Local Notation "c ;;; k" := (bind c (fun _ => k))
  (at level 61, right associativity).

(** The parameters a statement does not mention play no part in its
    proof. *)
Ltac unused :=
  try clear os; try clear savefig; try clear tight_layout;
  try clear set_size_inches; try clear args_validation;
  try clear generate; try clear graphs; try clear Figure;
  try clear unicode_isalnum.

(** ** Strings *)

Lemma join_singletons (l : pystr) :
  Str.join [] (map (fun c => [c]) l) = l.
Proof.
  induction l as [|c l IH]; [reflexivity|].
  destruct l as [|c' l]; [reflexivity|].
  change (Str.join [] (map (fun c => [c]) (c :: c' :: l)))
    with (c :: Str.join [] (map (fun c => [c]) (c' :: l))).
  now rewrite IH.
Qed.

Lemma clean_fname_filter (fn : pystr) : clean_fname fn = filter isalnum fn.
Proof. apply join_singletons. Qed.

Lemma filter_idem {A} (f : A -> bool) (l : list A) :
  filter f (filter f l) = filter f l.
Proof.
  induction l as [|a l IH]; simpl; [reflexivity|].
  destruct (f a) eqn:E; simpl; rewrite ?E, IH; reflexivity.
Qed.

Lemma count_occ_filter (f : N -> bool) (l : pystr) (c : N) :
  f c = true -> count_occ N.eq_dec (filter f l) c = count_occ N.eq_dec l c.
Proof.
  intros Hc. induction l as [|a l IH]; simpl; [reflexivity|].
  destruct (f a) eqn:E; simpl; destruct (N.eq_dec a c) as [->|Hne];
    try rewrite IH; try reflexivity.
  congruence.
Qed.

Lemma replace_from_cons (old new : pystr) (c : N) (s : pystr) :
  Str.replace_from old new 0 (c :: s)
  = if Str.startswith (c :: s) old
    then new ++ Str.replace_from old new (Nat.pred (List.length old)) s
    else c :: Str.replace_from old new 0 s.
Proof. reflexivity. Qed.

(** No match of [old] starts inside [s1]: the scan copies [s1]. *)
Lemma replace_from_app (old new s1 s2 : pystr) :
  (forall pre c suf, s1 = pre ++ c :: suf ->
                     Str.startswith (c :: suf ++ s2) old = false) ->
  Str.replace_from old new 0 (s1 ++ s2)
  = s1 ++ Str.replace_from old new 0 s2.
Proof.
  induction s1 as [|c s1 IH]; intros H; [reflexivity|].
  simpl app. rewrite replace_from_cons, (H [] c s1 eq_refl).
  f_equal. apply IH. intros pre c' suf ->.
  apply (H (c :: pre) c' suf). reflexivity.
Qed.

(** [old] begins with a character that [s1] does not have. *)
Lemma replace_app_first (a : N) (old' new s1 s2 : pystr) :
  ~ In a s1 ->
  Str.replace (s1 ++ s2) (a :: old') new
  = s1 ++ Str.replace s2 (a :: old') new.
Proof.
  intros Ha. unfold Str.replace. apply replace_from_app.
  intros pre c suf ->. simpl.
  destruct (N.eqb_spec a c) as [->|]; [|reflexivity].
  exfalso. apply Ha. apply in_or_app. right. now left.
Qed.

(** The second character of [old] is neither in [s1] nor the first of
    [s2]. *)
Lemma replace_app_second (a b : N) (old' new s1 s2 : pystr) :
  ~ In b s1 -> hd_error s2 <> Some b ->
  Str.replace (s1 ++ s2) (a :: b :: old') new
  = s1 ++ Str.replace s2 (a :: b :: old') new.
Proof.
  intros Hb Hhd. unfold Str.replace. apply replace_from_app.
  intros pre c suf ->. simpl.
  destruct (a =? c); [simpl|reflexivity].
  destruct suf as [|y suf]; simpl.
  - destruct s2 as [|y s2]; [reflexivity|]. simpl.
    destruct (N.eqb_spec b y) as [->|]; [|reflexivity].
    exfalso. now apply Hhd.
  - destruct (N.eqb_spec b y) as [->|]; [|reflexivity].
    exfalso. apply Hb. apply in_or_app. right. right. now left.
Qed.

Lemma replace_app_brace (old new s1 s2 : pystr) :
  hd_error old = Some 123 -> brace_free s1 ->
  Str.replace (s1 ++ s2) old new = s1 ++ Str.replace s2 old new.
Proof.
  destruct old as [|a old']; [discriminate|].
  intros [= ->]. apply replace_app_first.
Qed.

Lemma brace_free_app (s1 s2 : pystr) :
  brace_free s1 -> brace_free s2 -> brace_free (s1 ++ s2).
Proof.
  unused.
  unfold brace_free. intros H1 H2 H.
  apply in_app_or in H. tauto.
Qed.

Lemma brace_free_uint (d : Decimal.uint) :
  brace_free (py (NilEmpty.string_of_uint d)).
Proof.
  unfold brace_free.
  induction d; simpl; intros H; try tauto;
    destruct H as [H|H]; try discriminate H; tauto.
Qed.

Lemma of_int_brace_free (z : Z) : brace_free (Str.of_int z).
Proof.
  unfold Str.of_int, NilZero.string_of_int, NilZero.string_of_uint.
  destruct (Z.to_int z) as [d|d].
  - destruct d; try apply brace_free_uint.
    unfold brace_free. simpl. intros [H|H]; [discriminate H|tauto].
  - change (brace_free (45 :: py match d with
                                 | Decimal.Nil => "0"
                                 | _ => NilEmpty.string_of_uint d
                                 end)).
    intros [H|H]; [discriminate H|]. revert H.
    destruct d; try apply brace_free_uint.
    simpl. intros [H|H]; [discriminate H|tauto].
Qed.

Lemma isalnum_not_brace : isalnum 123 = false.
Proof. reflexivity. Qed.

Lemma clean_fname_brace_free (fn : pystr) : brace_free (clean_fname fn).
Proof.
  rewrite clean_fname_filter. intros H. apply filter_In in H.
  destruct H as [_ H]. rewrite isalnum_not_brace in H. discriminate.
Qed.

(** ** Names *)

Lemma prefix_segment_brace_free (save_prefix : option pystr) :
  (forall p, save_prefix = Some p -> brace_free p) ->
  brace_free (prefix_segment save_prefix).
Proof.
  intros H. destruct save_prefix as [[|c p]|];
    [intros []| |intros []].
  apply brace_free_app; [now apply H|].
  intros [E|[]]. discriminate E.
Qed.

(** The template after the prefix step. *)
Lemma template_prefix (save_prefix : option pystr) :
  match save_prefix with
  | Some (c :: p) => Str.replace base_save_fname (py "{prefix}") (c :: p)
  | _ => Str.replace base_save_fname (py "{prefix}-") []
  end
  = prefix_segment save_prefix
    ++ py "{findex}-{graphtype}-{cleaned_fname}.{ffrmt}".
Proof.
  destruct save_prefix as [[|c p]|]; try reflexivity.
  unfold prefix_segment. rewrite <- app_assoc. reflexivity.
Qed.

Lemma template_graphtype (graphtype : pystr) :
  Str.replace (py "{findex}-{graphtype}-{cleaned_fname}.{ffrmt}")
              (py "{graphtype}") graphtype
  = py "{findex}-" ++ graphtype ++ py "-{cleaned_fname}.{ffrmt}".
Proof. reflexivity. Qed.

Lemma template_findex (n rest : pystr) :
  Str.replace (py "{findex}-" ++ rest) (py "{findex}") n
  = n ++ py "-" ++ Str.replace rest (py "{findex}") n.
Proof. reflexivity. Qed.

Lemma template_no_findex (rest : pystr) :
  Str.replace (py "{findex}-" ++ rest) (py "{findex}-") []
  = Str.replace rest (py "{findex}-") [].
Proof. reflexivity. Qed.

Lemma gen_names_layout (ffrmt abs_fpath abs_save_path : pystr)
    (save_prefix : option pystr) (graphtype : pystr) (findex : option Z) :
  (forall p, save_prefix = Some p -> brace_free p) ->
  brace_free graphtype ->
  gen_names ffrmt abs_fpath abs_save_path save_prefix graphtype findex
  = (Path.join abs_save_path
       (save_fname_layout save_prefix findex graphtype
          (clean_fname (Path.basename abs_fpath)) ffrmt),
     Path.basename abs_fpath,
     clean_fname (Path.basename abs_fpath)).
Proof.
  intros Hp Hg. unfold Driver.gen_names. do 2 f_equal. f_equal.
  rewrite template_prefix.
  pose proof (prefix_segment_brace_free _ Hp) as Hseg.
  pose proof (clean_fname_brace_free (Path.basename abs_fpath)) as Hc.
  set (cl := clean_fname (Path.basename abs_fpath)) in *.
  assert (Hdash : brace_free (py "-")) by (intros [E|[]]; discriminate E).
  assert (Hdot : brace_free (py ".")) by (intros [E|[]]; discriminate E).
  rewrite (replace_app_brace (py "{graphtype}")) by easy.
  rewrite template_graphtype.
  unfold save_fname_layout. fold (prefix_segment save_prefix).
  destruct findex as [i|].
  - pose proof (of_int_brace_free i) as Hi.
    rewrite (replace_app_brace (py "{findex}")) by easy.
    rewrite template_findex.
    rewrite (replace_app_brace (py "{findex}")) by easy.
    change (Str.replace (py "-{cleaned_fname}.{ffrmt}") (py "{findex}")
                        (Str.of_int i))
      with (py "-" ++ py "{cleaned_fname}.{ffrmt}").
    do 5 (rewrite (replace_app_brace (py "{cleaned_fname}")) by easy).
    change (Str.replace (py "{cleaned_fname}.{ffrmt}") (py "{cleaned_fname}") cl)
      with (cl ++ py "." ++ py "{ffrmt}").
    do 7 (rewrite (replace_app_brace (py "{ffrmt}")) by easy).
    change (Str.replace (py "{ffrmt}") (py "{ffrmt}") ffrmt) with (ffrmt ++ []).
    rewrite app_nil_r, <- ?app_assoc. reflexivity.
  - rewrite (replace_app_brace (py "{findex}-")) by easy.
    rewrite template_no_findex.
    rewrite (replace_app_brace (py "{findex}-")) by easy.
    change (Str.replace (py "-{cleaned_fname}.{ffrmt}") (py "{findex}-") [])
      with (py "-{cleaned_fname}.{ffrmt}").
    rewrite app_assoc.
    change (py "-{cleaned_fname}") with (45 :: 123 :: py "cleaned_fname}").
    rewrite replace_app_second;
      [|apply brace_free_app; assumption|discriminate].
    change (Str.replace (py "-{cleaned_fname}.{ffrmt}")
                        (45 :: 123 :: py "cleaned_fname}") [])
      with (py "." ++ py "{ffrmt}").
    rewrite <- app_assoc.
    do 3 (rewrite (replace_app_brace (py "{ffrmt}")) by easy).
    change (Str.replace (py "{ffrmt}") (py "{ffrmt}") ffrmt) with (ffrmt ++ []).
    rewrite app_nil_r, <- ?app_assoc. reflexivity.
Qed.

(** ** Dictionaries *)

Lemma str_eqb_refl (k : pystr) : str_eqb k k = true.
Proof. unfold str_eqb. now destruct (list_eq_dec N.eq_dec k k). Qed.

Lemma str_eqb_eq (a b : pystr) : str_eqb a b = true <-> a = b.
Proof.
  unfold str_eqb. destruct (list_eq_dec N.eq_dec a b); split;
    congruence.
Qed.

Lemma dict_get_set_other (d : dict) (k k' : pystr) (v : value) :
  str_eqb k k' = false -> dict_get (dict_set d k v) k' = dict_get d k'.
Proof.
  intros Hk. induction d as [|[k0 v0] d IH]; simpl.
  - now rewrite Hk.
  - destruct (str_eqb k0 k) eqn:E0; simpl.
    + apply str_eqb_eq in E0. subst k0. now rewrite Hk.
    + now rewrite IH.
Qed.

Lemma dict_get_set_same (d : dict) (k : pystr) (v : value) :
  dict_get (dict_set d k v) k = Some v.
Proof.
  induction d as [|[k0 v0] d IH]; simpl.
  - now rewrite str_eqb_refl.
  - destruct (str_eqb k0 k) eqn:E0; simpl; rewrite E0; [reflexivity|apply IH].
Qed.

(** ** Running the driver *)

Lemma run_lookup {A} (k : pystr) (f : value -> M A) (d : dict) (v : value) :
  dict_get d k = Some v -> bind (lookup k) f d = f v d.
Proof.
  intros H. unfold bind, lookup. rewrite H. now destruct (f v d).
Qed.

Lemma run_lookup_missing {A} (k : pystr) (f : value -> M A) (d : dict) :
  dict_get d k = None -> bind (lookup k) f d = ([], inl (KeyError (VStr k))).
Proof. intros H. unfold bind, lookup. now rewrite H. Qed.

Lemma run_lift {A B} (a : A) (f : A -> M B) (d : dict) :
  bind (lift (inr a)) f d = f a d.
Proof. unfold bind, lift, ret. now destruct (f a d). Qed.

Lemma run_lift_raise {A B} (e : exn) (f : A -> M B) (d : dict) :
  bind (lift (inl e)) f d = ([], inl e).
Proof. reflexivity. Qed.

Lemma run_store {A} (k : pystr) (v : value) (f : unit -> M A) (d : dict) :
  bind (store k v) f d = f tt (dict_set d k v).
Proof. unfold bind, store. now destruct (f tt (dict_set d k v)). Qed.

Lemma run_get_args {A} (f : dict -> M A) (d : dict) :
  bind get_args f d = f d d.
Proof. unfold bind, get_args. now destruct (f d d). Qed.

Lemma run_emit {A} (ev : event) (f : unit -> M A) (d : dict) :
  bind (emit ev) f d = (ev :: fst (f tt d), snd (f tt d)).
Proof. unfold bind, emit. now destruct (f tt d). Qed.

Lemma run_emit_all {A} (evs : list event) (f : unit -> M A) (d : dict) :
  bind (emit_all evs) f d = (evs ++ fst (f tt d), snd (f tt d)).
Proof. unfold bind, emit_all. now destruct (f tt d). Qed.

Lemma run_log {A} (l : level) (m : message) (f : unit -> M A) (d : dict) :
  bind (log l m) f d = (Log (l, m) :: fst (f tt d), snd (f tt d)).
Proof. apply run_emit. Qed.

Lemma run_bind_assoc {A B C} (m : M A) (f : A -> M B) (g : B -> M C)
    (d : dict) :
  bind (bind m f) g d = bind m (fun a => bind (f a) g) d.
Proof.
  unfold bind. destruct (m d) as [evs [e|[a d']]]; [reflexivity|].
  destruct (f a d') as [evs' [e|[b d'']]]; [reflexivity|].
  destruct (g b d'') as [evs'' r]. now rewrite app_assoc.
Qed.

Lemma run_ret {A B} (a : A) (f : A -> M B) (d : dict) :
  bind (ret a) f d = f a d.
Proof. unfold bind, ret. now destruct (f a d). Qed.

Lemma run_raise {A B} (e : exn) (f : A -> M B) (d : dict) :
  bind (raise e) f d = ([], inl e).
Proof. reflexivity. Qed.

Lemma run_if {A B} (c : bool) (m1 m2 : M A) (f : A -> M B) (d : dict) :
  bind (if c then m1 else m2) f d
  = if c then bind m1 f d else bind m2 f d.
Proof. now destruct c. Qed.

Lemma writes_app (tr1 tr2 : list event) :
  writes (tr1 ++ tr2) = writes tr1 ++ writes tr2.
Proof.
  induction tr1 as [|[] tr1 IH]; simpl; now rewrite ?IH.
Qed.

Lemma generate_calls_app (tr1 tr2 : list event) :
  generate_calls (tr1 ++ tr2) = generate_calls tr1 ++ generate_calls tr2.
Proof.
  induction tr1 as [|[] tr1 IH]; simpl; now rewrite ?IH.
Qed.

(** One step of a run: the head of the computation is executed on the
    current dictionary, with a case for each way it can go. *)
Ltac run_step :=
  cbv beta;
  lazymatch goal with
  | |- context [bind (bind ?m ?f) ?g ?d] =>
      rewrite (run_bind_assoc m f g d)
  | |- context [bind (if ?c then ?m1 else ?m2) ?f ?d] =>
      rewrite (run_if c m1 m2 f d); destruct c eqn:?
  | |- context [bind (lookup ?k) ?f ?d] =>
      let E := fresh "E" in
      destruct (dict_get d k) eqn:E;
      [rewrite (run_lookup k f d _ E)
      |rewrite (run_lookup_missing k f d E)];
      repeat rewrite dict_get_set_other in E by reflexivity
  | |- context [bind (lift ?r) ?f ?d] =>
      let E := fresh "E" in
      destruct r eqn:E; [rewrite run_lift_raise|rewrite run_lift]
  | |- context [bind (store ?k ?v) ?f ?d] => rewrite (run_store k v f d)
  | |- context [bind get_args ?f ?d] => rewrite (run_get_args f d)
  | |- context [bind (emit ?ev) ?f ?d] => rewrite (run_emit ev f d)
  | |- context [bind (log ?l ?m) ?f ?d] => rewrite (run_log l m f d)
  | |- context [bind (ret ?a) ?f ?d] => rewrite (run_ret a f d)
  | |- context [bind (raise ?e) ?f ?d] => rewrite (run_raise e f d)
  | |- context [bind (save ?to ?r) ?f ?d] =>
      unfold Driver.save; destruct r as [?|? []] eqn:?; cbv beta iota
  | |- context [bind (dump_json ?path ?output) ?f ?d] =>
      unfold Driver.dump_json;
      destruct (os_open_write os path) eqn:?;
      [|destruct (json_error (JObject output)) eqn:?]
  | |- context [match ?t with (_, _) => _ end] => destruct t
  end.

Ltac dict_simpl :=
  repeat first
    [rewrite dict_get_set_same
    |rewrite dict_get_set_other by reflexivity].

Ltac run_all :=
  repeat (run_step; try solve [simpl; split; [reflexivity|discriminate]]).

(** *** Interactive display *)

Lemma interactive_set (d : dict) (k : pystr) (v : value) :
  str_eqb k (py "showplt") = false ->
  interactive d -> interactive (dict_set d k v).
Proof.
  intros Hk [sv [Hs Ht]]. exists sv. split; [|assumption].
  now rewrite dict_get_set_other.
Qed.

Lemma output_graph_interactive (fig : Figure) (save_kwargs : dict)
    (json_data : jvalue) (abs_save_fpath : pystr) (d : dict) :
  interactive d ->
  output_graph fig save_kwargs json_data abs_save_fpath d
  = ([Log (INFO, OpeningInteractively); Show fig], inr (tt, d)).
Proof.
  intros [sv [Hs Ht]]. unfold Driver.output_graph.
  rewrite (run_lookup _ _ _ _ Hs). cbv beta. rewrite Ht.
  reflexivity.
Qed.

(** *** Invariants of a run *)

Section Preserves.

Variable I : dict -> Prop.
Variable Q : list event -> Prop.
Hypothesis Q_nil : Q [].
Hypothesis Q_app : forall tr1 tr2, Q tr1 -> Q tr2 -> Q (tr1 ++ tr2).

Lemma preserves_ret {A} (a : A) : preserves I Q (ret a).
Proof using Type Q_nil. intros d Hd. split; [exact Q_nil|]. now intros a' d' [= _ <-]. Qed.

Lemma preserves_raise {A} (e : exn) : preserves I Q (@raise Figure A e).
Proof using Type Q_nil. intros d Hd. split; [exact Q_nil|]. discriminate. Qed.

Lemma preserves_lift {A} (r : exn + A) : preserves I Q (lift r).
Proof using Type Q_nil. destruct r; [apply preserves_raise|apply preserves_ret]. Qed.

Lemma preserves_get_args : preserves I Q get_args.
Proof using Type Q_nil. intros d Hd. split; [exact Q_nil|]. now intros a' d' [= _ <-]. Qed.

Lemma preserves_lookup (k : pystr) : preserves I Q (lookup k).
Proof using Type Q_nil.
  intros d Hd. unfold lookup. destruct (dict_get d k); simpl.
  - split; [exact Q_nil|]. now intros a' d' [= _ <-].
  - split; [exact Q_nil|]. discriminate.
Qed.

Lemma preserves_store (k : pystr) (v : value) :
  (forall d, I d -> I (dict_set d k v)) -> preserves I Q (store k v).
Proof using Type Q_nil.
  intros H d Hd. split; [exact Q_nil|].
  intros a' d' [= E]. subst d'. now apply H.
Qed.

Lemma preserves_emit (ev : event) : Q [ev] -> preserves I Q (emit ev).
Proof.
  intros H d Hd. split; [exact H|].
  intros a' d' [= E]. now subst d'.
Qed.

Lemma preserves_bind {A B} (m : M A) (f : A -> M B) :
  preserves I Q m -> (forall a, preserves I Q (f a)) ->
  preserves I Q (bind m f).
Proof using Type Q_app.
  intros Hm Hf d Hd. unfold bind.
  destruct (Hm d Hd) as [Hq Hi].
  destruct (m d) as [evs [e|[a d1]]]; simpl in *.
  - split; [exact Hq|discriminate].
  - destruct (Hf a d1 (Hi a d1 eq_refl)) as [Hq' Hi'].
    destruct (f a d1) as [evs' r]; simpl in *.
    split; [now apply Q_app|exact Hi'].
Qed.

Lemma preserves_for_each {A} (l : list A) (body : A -> M unit) :
  (forall x, preserves I Q (body x)) -> preserves I Q (for_each l body).
Proof using Type Q_app Q_nil.
  intros Hb. induction l as [|x l IH]; simpl.
  - apply preserves_ret.
  - apply preserves_bind; [apply Hb|intros _; exact IH].
Qed.

End Preserves.

Lemma no_writes_nil : no_writes [].
Proof. reflexivity. Qed.

Lemma no_writes_app (tr1 tr2 : list event) :
  no_writes tr1 -> no_writes tr2 -> no_writes (tr1 ++ tr2).
Proof. unfold Driver.no_writes. intros H1 H2. now rewrite writes_app, H1, H2. Qed.

Ltac preserves_step I Q Hnil Happ :=
  first
    [apply (preserves_bind I Q Happ); [|intros ?]
    |apply (preserves_lookup I Q Hnil)
    |apply (preserves_lift I Q Hnil)
    |apply (preserves_get_args I Q Hnil)
    |apply (preserves_ret I Q Hnil)
    |apply (preserves_raise I Q Hnil)
    |apply (preserves_for_each I Q Hnil Happ); intros ?
    |apply (preserves_emit I Q)
    |apply (preserves_store I Q Hnil)
    |match goal with
     | |- preserves _ _ (match ?t with (_, _) => _ end) => destruct t
     | |- preserves _ _ (if ?c then _ else _) => destruct c
     | |- preserves _ _ (save ?to ?r) =>
         unfold Driver.save; destruct r as [?|? []]; destruct to
     | |- preserves _ _ (dump_json ?path ?output) =>
         unfold Driver.dump_json; destruct (os_open_write os path);
         [|destruct (json_error (JObject output))]
     end].

Lemma output_graph_no_writes (fig : Figure) (save_kwargs : dict)
    (json_data : jvalue) (abs_save_fpath : pystr) :
  preserves interactive no_writes
    (output_graph fig save_kwargs json_data abs_save_fpath).
Proof.
  intros d Hd. rewrite (output_graph_interactive _ _ _ _ _ Hd).
  split; [reflexivity|]. intros a d' [= E]. now subst d'.
Qed.

Lemma generate_graph_no_writes (index : nat) (abs_fpath : value)
    (module_name : pystr) :
  preserves interactive no_writes
    (generate_graph index abs_fpath module_name).
Proof.
  unfold Driver.generate_graph.
  repeat first
    [apply output_graph_no_writes
    |preserves_step interactive (Driver.no_writes Figure)
                    no_writes_nil no_writes_app];
    try reflexivity;
    intros; now apply interactive_set.
Qed.

Lemma generate_graphs_no_writes :
  preserves interactive no_writes generate_graphs.
Proof.
  unfold Driver.generate_graphs, log.
  repeat first
    [apply generate_graph_no_writes
    |preserves_step interactive (Driver.no_writes Figure)
                    no_writes_nil no_writes_app];
    reflexivity.
Qed.

(** *** A failing [generate] *)

Lemma quiet_nil : quiet [].
Proof. reflexivity. Qed.

Lemma quiet_app (tr1 tr2 : list event) :
  quiet tr1 -> quiet tr2 -> quiet (tr1 ++ tr2).
Proof.
  unfold Driver.quiet. intros H1 H2. now rewrite generate_calls_app, H1, H2.
Qed.

Lemma quiet_no_call (tr tr1 tr2 : list event) (m : pystr) (kw : dict) :
  quiet tr -> tr <> tr1 ++ Generate m kw :: tr2.
Proof.
  unfold Driver.quiet. intros Hq ->. rewrite generate_calls_app in Hq. simpl in Hq.
  now destruct (generate_calls tr1).
Qed.

Lemma stops_quiet {A} (run : list event * (exn + A * dict)) :
  quiet (fst run) -> stops_at_failure run.
Proof.
  intros Hq tr1 m kw tr2 e H.
  exfalso. exact (quiet_no_call _ _ _ _ _ Hq H).
Qed.

(** Where a call sits in a trace made of two parts. *)
Lemma call_in_app (evs evs' tr1 tr2 : list event) (m : pystr) (kw : dict) :
  evs ++ evs' = tr1 ++ Generate m kw :: tr2 ->
  (exists tr2', evs = tr1 ++ Generate m kw :: tr2' /\ tr2 = tr2' ++ evs')
  \/ (exists tr1', evs' = tr1' ++ Generate m kw :: tr2 /\ tr1 = evs ++ tr1').
Proof.
  revert tr1. induction evs as [|ev evs IH]; intros tr1 H; simpl in H.
  - right. now exists tr1.
  - destruct tr1 as [|ev1 tr1]; simpl in H; injection H as -> H.
    + left. now exists evs.
    + destruct (IH _ H) as [[tr2' [-> ->]]|[tr1' [-> ->]]].
      * left. now exists tr2'.
      * right. now exists tr1'.
Qed.

Lemma stops_bind {A B} (m : M A) (f : A -> M B) (d : dict) :
  stops_at_failure (m d) ->
  (forall a d', stops_at_failure (f a d')) ->
  stops_at_failure (bind m f d).
Proof.
  intros Hm Hf. unfold bind.
  destruct (m d) as [evs [e0|[a d1]]] eqn:Em.
  - intros tr1 mn kw tr2 e H Hg.
    destruct (Hm tr1 mn kw tr2 e H Hg) as [-> [= ->]]. now split.
  - specialize (Hf a d1). destruct (f a d1) as [evs' r] eqn:Ef.
    intros tr1 mn kw tr2 e H Hg. simpl in H.
    apply call_in_app in H.
    destruct H as [[tr2' [H1 ->]]|[tr1' [H1 ->]]].
    + destruct (Hm tr1 mn kw tr2' e H1 Hg) as [_ Hr]. discriminate Hr.
    + exact (Hf tr1' mn kw tr2 e H1 Hg).
Qed.

Lemma stops_for_each {A} (l : list A) (body : A -> M unit) (d : dict) :
  (forall x d', stops_at_failure (body x d')) ->
  stops_at_failure (for_each l body d).
Proof.
  intros Hb. revert d. induction l as [|x l IH]; intros d; simpl.
  - now apply stops_quiet.
  - apply stops_bind; [apply Hb|intros _ d'; apply IH].
Qed.

(** The call itself, followed by events that hold no other call. *)
Lemma stops_generate {B} (m : pystr) (kw : dict)
    (rest : Figure * dict * jvalue -> M B) (d : dict) :
  (forall r d', quiet (fst (rest r d'))) ->
  stops_at_failure
    (bind (emit (Generate m kw)) (fun _ => bind (lift (generate m kw)) rest) d).
Proof.
  intros Hrest. rewrite run_emit. cbv beta.
  destruct (generate m kw) as [e0|r] eqn:Eg.
  - rewrite run_lift_raise. intros tr1 m' kw' tr2 e H Hg. simpl in H.
    destruct tr1 as [|ev tr1]; simpl in H.
    + injection H as -> -> <-. split; [reflexivity|]. simpl. congruence.
    + injection H as _ H. now destruct tr1.
  - rewrite run_lift. intros tr1 m' kw' tr2 e H Hg. simpl in H.
    destruct tr1 as [|ev tr1]; simpl in H.
    + injection H as -> -> _. congruence.
    + injection H as _ H.
      exfalso. exact (quiet_no_call _ _ _ _ _ (Hrest r d) H).
Qed.

Lemma output_graph_quiet (fig : Figure) (save_kwargs : dict)
    (json_data : jvalue) (abs_save_fpath : pystr) :
  preserves any_dict quiet
    (output_graph fig save_kwargs json_data abs_save_fpath).
Proof.
  unfold Driver.output_graph, log.
  repeat preserves_step any_dict (Driver.quiet Figure) quiet_nil quiet_app; reflexivity.
Qed.

Lemma after_generate_quiet (abs_save_fpath : pystr)
    (result : Figure * dict * jvalue) (d : dict) :
  quiet
    (fst ((let '(fig, save_kwargs, json_data) := result in
           figsize <- lookup (py "figsize") ;;
           size <- lift (iter figsize) ;;
           let fig := tight_layout (set_size_inches fig size) in
           output_graph fig save_kwargs json_data abs_save_fpath ;;;
           emit Close) d)).
Proof.
  assert (H : preserves any_dict quiet
                (let '(fig, save_kwargs, json_data) := result in
                 figsize <- lookup (py "figsize") ;;
                 size <- lift (iter figsize) ;;
                 let fig := tight_layout (set_size_inches fig size) in
                 output_graph fig save_kwargs json_data abs_save_fpath ;;;
                 emit Close)).
  { repeat first
      [apply output_graph_quiet
      |preserves_step any_dict (Driver.quiet Figure) quiet_nil quiet_app];
      reflexivity. }
  now apply H.
Qed.

Ltac stops_prim :=
  apply stops_quiet;
  unfold lookup, lift, store, get_args, log, emit, ret, raise;
  repeat match goal with
         | |- context [match ?x with _ => _ end] => destruct x
         end;
  reflexivity.

Lemma generate_graph_stops (index : nat) (abs_fpath : value)
    (module_name : pystr) (d : dict) :
  stops_at_failure (generate_graph index abs_fpath module_name d).
Proof.
  unfold Driver.generate_graph.
  repeat first
    [apply stops_generate; intros; apply after_generate_quiet
    |apply stops_bind; [stops_prim|intros ? ?]
    |match goal with
     | |- stops_at_failure ((match ?t with (_, _) => _ end) _) => destruct t
     end].
Qed.

(** *** The names of the artifacts of a run *)

Lemma configured_step (c : config) (d : dict) (v1 v2 v3 : value) :
  configured c d ->
  configured c
    (dict_set (dict_set (dict_set d (py "abs_fpath") v1) (py "fname") v2)
              (py "cleaned_fname") v3).
Proof.
  unfold configured. intros (H1 & H2 & H3 & H4 & H5 & H6).
  repeat split; dict_simpl; assumption.
Qed.

Lemma gen_names_call_str (ffrmt abs_fpath save_dir : pystr) (prefix : value)
    (module_name : pystr) (findex : option Z)
    (names : pystr * pystr * pystr) :
  gen_names_call (VStr ffrmt) (VStr abs_fpath) (VStr save_dir) prefix
                 module_name findex = inr names ->
  names = gen_names ffrmt abs_fpath save_dir (prefix_arg prefix)
                    module_name findex.
Proof.
  unfold Driver.gen_names_call.
  destruct prefix; simpl; try destruct (negb _); try destruct b;
    try destruct items; congruence.
Qed.

(** A lookup whose value is known. *)
Ltac run_known :=
  cbv beta;
  lazymatch goal with
  | |- context [bind (lookup ?k) ?f ?d] =>
      erewrite (run_lookup k f d) by (dict_simpl; eassumption)
  end.

Ltac failed :=
  simpl; split;
  [eexists; split; [reflexivity|discriminate]|discriminate].

Ltac leaf :=
  simpl; split;
  [eexists; split; [reflexivity|first [discriminate|intros; reflexivity]]
  |first [discriminate|intros ? ? [= _ <-]; reflexivity]].

(** The output block of a run that saves writes the artifact of its
    mode, or raises, and leaves the arguments as they are. *)
Lemma output_graph_writes (fig : Figure) (save_kwargs : dict)
    (json_data : jvalue) (abs_save_fpath : pystr) (d : dict)
    (showplt json : value) :
  dict_get d (py "showplt") = Some showplt -> truthy showplt = false ->
  dict_get d (py "json") = Some json ->
  writes_exactly (fun d' => d' = d)
    (output_graph fig save_kwargs json_data abs_save_fpath d)
    [artifact_path (truthy json) abs_save_fpath].
Proof.
  intros Hs Hst Hj. unfold Driver.output_graph.
  rewrite (run_lookup _ _ _ _ Hs). cbv beta. rewrite Hst.
  rewrite (run_lookup _ _ _ _ Hj). cbv beta.
  unfold artifact_path, writes_exactly, wrote_paths, log.
  destruct (truthy json); repeat run_step; try solve [leaf].
Qed.

Lemma writes_exactly_bind {A B} (I : dict -> Prop) (m : M A) (f : A -> M B)
    (d : dict) (e1 e2 : list pystr) :
  writes_exactly I (m d) e1 ->
  (forall a d', I d' -> writes_exactly I (f a d') e2) ->
  writes_exactly I (bind m f d) (e1 ++ e2).
Proof.
  intros [[rest1 [Hw1 Hr1]] Hi1] Hf. unfold bind.
  destruct (m d) as [evs [e|[a d1]]]; simpl in *.
  - split; [|discriminate]. exists (rest1 ++ e2). split; [|discriminate].
    simpl. now rewrite app_assoc, Hw1.
  - rewrite (Hr1 a d1 eq_refl), app_nil_r in Hw1.
    destruct (Hf a d1 (Hi1 a d1 eq_refl)) as [[rest2 [Hw2 Hr2]] Hi2].
    destruct (f a d1) as [evs' r]; simpl in *.
    split; [|exact Hi2]. exists rest2. split; [|exact Hr2].
    simpl. now rewrite writes_app, map_app, <- app_assoc, Hw1, Hw2.
Qed.

Lemma writes_exactly_log {A} (I : dict -> Prop) (l : level) (msg : message)
    (f : unit -> M A) (d : dict) (expected : list pystr) :
  writes_exactly I (f tt d) expected ->
  writes_exactly I (bind (log l msg) f d) expected.
Proof. rewrite run_log. intros H. exact H. Qed.

Lemma generate_graph_writes (c : config) (d : dict) (index : nat)
    (abs_fpath module_name : pystr) :
  configured c d -> truthy (c_showplt c) = false ->
  wrote_paths (generate_graph index (VStr abs_fpath) module_name d)
              [pair_path c index abs_fpath module_name]
  /\ forall a d',
       snd (generate_graph index (VStr abs_fpath) module_name d)
       = inr (a, d') -> configured c d'.
Proof.
  intros Hc Hs.
  pose proof Hc as (H1 & H2 & H3 & H4 & H5 & H6).
  unfold Driver.generate_graph.
  do 4 run_known. simpl len. rewrite length_map, run_lift.
  fold (findex_of (List.length (c_files c)) index).
  run_step; [failed|].
  apply gen_names_call_str in E.
  destruct p as [[path fname] cleaned].
  rewrite !run_store, run_get_args. cbv beta. rewrite run_emit. cbv beta.
  assert (Hpath : pair_path c index abs_fpath module_name
                  = artifact_path (truthy (c_json c)) path).
  { unfold Driver.pair_path. now rewrite <- E. }
  rewrite Hpath.
  repeat (run_step; try solve [failed]).
  match goal with
  | |- context [bind (output_graph ?fig ?kw ?js _) _ ?d0] =>
      pose proof (writes_exactly_bind (fun d' => d' = d0)
                    (output_graph fig kw js path) (fun _ => emit Close) d0
                    [artifact_path (truthy (c_json c)) path] []) as Hw;
      destruct Hw as [[rest [Hw1 Hw2]] Hw3];
      [apply (output_graph_writes fig kw js path d0 (c_showplt c)
                                  (c_json c));
       [now dict_simpl|exact Hs|now dict_simpl]
      |intros _ d' ->; split;
       [exists []; now split|now intros a d' [= _ <-]]
      |]
  end.
  simpl fst. simpl snd. simpl writes. split.
  - exists rest. split; [exact Hw1|exact Hw2].
  - intros a d' Ed. rewrite (Hw3 a d' Ed). now apply configured_step.
Qed.

Lemma generate_graph_loop_writes (c : config) (index : nat)
    (abs_fpath : pystr) (graphtypes : list pystr) (d : dict) :
  truthy (c_showplt c) = false -> configured c d ->
  writes_exactly (configured c)
    (for_each graphtypes (generate_graph index (VStr abs_fpath)) d)
    (map (pair_path c index abs_fpath) graphtypes).
Proof.
  intros Hs. revert d.
  induction graphtypes as [|m gts IH]; intros d Hc; simpl.
  - split; [|now intros a d' [= _ <-]]. exists []. now split.
  - apply (writes_exactly_bind (configured c) _ _ _ [_]).
    + now apply generate_graph_writes.
    + intros _ d' Hd'. now apply IH.
Qed.

Lemma files_loop_writes (c : config) (graphtypes : list pystr)
    (files : list pystr) (start : nat) (d : dict) :
  truthy (c_showplt c) = false -> configured c d ->
  writes_exactly (configured c)
    (for_each (enumerate_from start (map VStr files))
              (fun '(index, abs_fpath) =>
                 log DEBUG (Processing abs_fpath) ;;;
                 for_each graphtypes (generate_graph index abs_fpath)) d)
    (run_paths c graphtypes (enumerate_from start files)).
Proof.
  intros Hs. revert start d.
  induction files as [|f files IH]; intros start d Hc; simpl.
  - split; [|now intros a d' [= _ <-]]. exists []. now split.
  - apply writes_exactly_bind.
    + apply writes_exactly_log. now apply generate_graph_loop_writes.
    + intros _ d' Hd'. now apply IH.
Qed.

Lemma generate_graphs_writes (c : config) (graphtypes : list pystr)
    (d : dict) :
  configured c d -> truthy (c_showplt c) = false ->
  select_graphtypes d = inr graphtypes ->
  wrote_paths (generate_graphs d)
              (run_paths c graphtypes (enumerate (c_files c))).
Proof.
  intros Hc Hs Hg. pose proof Hc as (H1 & H2 & H3 & H4 & H5 & H6).
  unfold Driver.generate_graphs.
  rewrite run_get_args. cbv beta. rewrite run_log. cbv beta.
  rewrite Hg, run_lift, run_log. cbv beta.
  run_known. simpl iter. rewrite run_lift.
  destruct (files_loop_writes c graphtypes (c_files c) 0 d Hs Hc) as [H _].
  exact H.
Qed.

(** ** List files *)

Lemma lstrip_app_last (r chars : pystr) (c : N) :
  existsb (N.eqb c) chars = false ->
  Str.lstrip (r ++ [c]) chars = Str.lstrip r chars ++ [c].
Proof.
  intros Hc. induction r as [|x r IH]; simpl.
  - now rewrite Hc.
  - destruct (existsb (N.eqb x) chars); [exact IH|reflexivity].
Qed.

Lemma rstrip_cons (c : N) (s chars : pystr) :
  existsb (N.eqb c) chars = false ->
  Str.rstrip (c :: s) chars = c :: Str.rstrip s chars.
Proof.
  intros Hc. unfold Str.rstrip. simpl rev.
  now rewrite lstrip_app_last, rev_app_distr.
Qed.

Lemma split_nonempty (s : pystr) (c : N) : Str.split s c <> [].
Proof.
  induction s as [|x s IH]; simpl; [discriminate|].
  destruct (x =? c); [discriminate|].
  now destruct (Str.split s c).
Qed.

Lemma readlines_nil (text : pystr) : Str.readlines text = [] -> text = [].
Proof.
  destruct text as [|c text]; [reflexivity|]. simpl.
  destruct (c =? 10); [discriminate|].
  now destruct (Str.readlines text).
Qed.

Lemma readlines_split (text : pystr) :
  let stripped := map (fun line => Str.rstrip line [10]) (Str.readlines text) in
  (last (Str.split text 10) [] = [] /\ Str.split text 10 = stripped ++ [[]])
  \/ (last (Str.split text 10) [] <> [] /\ Str.split text 10 = stripped).
Proof.
  induction text as [|c text IH]; [now left|].
  cbv zeta in *. simpl Str.split. simpl Str.readlines.
  pose proof (split_nonempty text 10) as Hne.
  destruct (N.eqb_spec c 10) as [->|Hc].
  - simpl map. change (Str.rstrip [10] [10]) with (@nil N).
    destruct (Str.split text 10) as [|piece pieces] eqn:Es; [easy|].
    destruct IH as [[Hl Hs]|[Hl Hs]]; [left|right];
      (split; [exact Hl|simpl; now rewrite <- Hs]).
  - assert (Hx : existsb (N.eqb c) [10] = false).
    { simpl. apply N.eqb_neq in Hc. now rewrite Hc. }
    destruct (Str.readlines text) as [|line lines] eqn:Er.
    + apply readlines_nil in Er. subst text. right.
      simpl map. rewrite (rstrip_cons _ _ _ Hx).
      split; [discriminate|reflexivity].
    + simpl map in *. rewrite (rstrip_cons _ _ _ Hx).
      destruct (Str.split text 10) as [|piece pieces] eqn:Es; [easy|].
      destruct IH as [[Hl Hs]|[Hl Hs]]; simpl in Hs;
        injection Hs as Hp Hps.
      * left. split; [|simpl; now rewrite Hp, Hps].
        destruct pieces as [|q pieces]; [|exact Hl].
        symmetry in Hps. apply app_eq_nil in Hps. now destruct Hps.
      * right. split; [|simpl; now rewrite Hp, Hps].
        destruct pieces as [|q pieces]; [discriminate|exact Hl].
Qed.

Lemma readlines_all_lines (text : pystr) :
  map (fun line => Str.rstrip line [10]) (Str.readlines text)
  = all_lines text.
Proof.
  unfold all_lines. cbv zeta.
  destruct (readlines_split text) as [[Hl Hs]|[Hl Hs]].
  - rewrite Hl. simpl. rewrite Hs. now rewrite removelast_last.
  - destruct (str_eqb _ []) eqn:E; [|now rewrite Hs].
    now apply str_eqb_eq in E.
Qed.

Lemma File2Strings_lines (o : OS) (filename text : pystr) :
  os_path_exists o filename = true -> os_path_isfile o filename = true ->
  os_read_text o filename = Some text ->
  File2Strings o filename = (Some (all_lines text), []).
Proof.
  intros He Hf Hr. unfold File2Strings.
  now rewrite He, Hf, Hr, readlines_all_lines.
Qed.

(** ** Finding files *)

Lemma find_in_dir_files (o : OS) (dir_name : pystr) (files : list pystr) :
  fst (find_in_dir o dir_name files)
  = filter (regular_nonempty o) (map (Path.join dir_name) files).
Proof.
  induction files as [|fname files IH]; [reflexivity|].
  simpl. destruct (find_in_dir o dir_name files) as [found logs].
  simpl in IH. destruct (regular_nonempty o _); simpl; now rewrite IH.
Qed.

Lemma find_in_walk_files (o : OS)
    (triples : list (pystr * list pystr * list pystr)) :
  fst (find_in_walk o triples) = walk_files o triples.
Proof.
  induction triples as [|[[dir_name dirs] files] triples IH];
    [reflexivity|].
  simpl. pose proof (find_in_dir_files o dir_name files) as Hd.
  destruct (find_in_dir o dir_name files) as [found logs].
  destruct (find_in_walk o triples) as [found' logs'].
  simpl in *. now rewrite Hd, IH.
Qed.

Lemma find_files_directory (o : OS) (f : pystr) :
  os_path_isdir o f = true ->
  fst (find_files o [f] true) = walk_files o (os_walk o f).
Proof.
  intros Hd. simpl. rewrite Hd. simpl.
  pose proof (find_in_walk_files o (os_walk o f)) as Hw.
  destruct (find_in_walk o (os_walk o f)) as [found logs].
  simpl in *. now rewrite app_nil_r.
Qed.

Lemma walk_files_In (o : OS)
    (triples : list (pystr * list pystr * list pystr)) (p : pystr) :
  In p (walk_files o triples) <->
  exists dir_name dirs files fname,
    In (dir_name, dirs, files) triples /\ In fname files
    /\ p = Path.join dir_name fname
    /\ regular_nonempty o p = true.
Proof.
  unfold walk_files. rewrite in_flat_map. split.
  - intros [[[dir_name dirs] files] [Ht Hp]].
    apply filter_In in Hp. destruct Hp as [Hp Hr].
    apply in_map_iff in Hp. destruct Hp as [fname [<- Hf]].
    now exists dir_name, dirs, files, fname.
  - intros (dir_name & dirs & files & fname & Ht & Hf & -> & Hr).
    exists (dir_name, dirs, files). split; [assumption|].
    apply filter_In. split; [|assumption].
    apply in_map_iff. now exists fname.
Qed.

Lemma regular_nonempty_true (o : OS) (p : pystr) :
  regular_nonempty o p = true <->
  os_path_isfile o p = true /\ os_path_islink o p = false
  /\ os_stat_size o p <> 0.
Proof.
  unused.
  unfold regular_nonempty.
  rewrite !andb_true_iff, !negb_true_iff, N.eqb_neq. tauto.
Qed.

Lemma regular_nonempty_false (o : OS) (p : pystr) :
  regular_nonempty o p = false <->
  os_path_isfile o p = false \/ os_path_islink o p = true
  \/ os_stat_size o p = 0.
Proof.
  unused.
  unfold regular_nonempty.
  rewrite !andb_false_iff, !negb_false_iff, N.eqb_eq. tauto.
Qed.

Lemma find_files_skip (o : OS) (f : pystr) (rest : list pystr)
    (recurse : bool) :
  recurse && os_path_isdir o f = false ->
  regular_nonempty o f = false ->
  find_files o (f :: rest) recurse
  = (fst (find_files o rest recurse),
     (CRITICAL, NotAFileSkipping f) :: snd (find_files o rest recurse)).
Proof.
  intros Hd Hr. simpl. rewrite Hd, Hr.
  now destruct (find_files o rest recurse).
Qed.

(** *** Absolute paths *)

Lemma isabs_cons (p : pystr) :
  Path.isabs p = true <-> exists rest, p = Path.sep :: rest.
Proof.
  unfold Path.isabs. destruct p as [|c p].
  - split; [discriminate|now intros [rest H]].
  - change (Str.startswith (c :: p) [Path.sep])
      with ((Path.sep =? c) && true).
    destruct (N.eqb_spec Path.sep c) as [<-|Hne]; split;
      try discriminate; try reflexivity.
    + now exists p.
    + intros [rest [= -> _]]. now elim Hne.
Qed.

Lemma normpath_isabs (path : pystr) :
  Path.isabs path = true -> Path.isabs (Path.normpath path) = true.
Proof.
  intros H. pose proof H as H'. apply isabs_cons in H'.
  destruct H' as [rest ->]. unfold Path.normpath.
  change (Str.startswith (Path.sep :: rest) [Path.sep]) with true.
  cbv iota.
  destruct (Str.startswith (Path.sep :: rest) [Path.sep; Path.sep]
            && negb (Str.startswith (Path.sep :: rest)
                                    [Path.sep; Path.sep; Path.sep]));
    reflexivity.
Qed.

Lemma join_isabs (a b : pystr) :
  Path.isabs a = true -> Path.isabs (Path.join a b) = true.
Proof.
  intros H. unfold Path.join.
  destruct (Str.startswith b [Path.sep]) eqn:Eb; [exact Eb|].
  apply isabs_cons in H. destruct H as [rest ->].
  destruct (Str.endswith (Path.sep :: rest) [Path.sep]); reflexivity.
Qed.

Lemma abspath_isabs (cwd path : pystr) :
  Path.isabs cwd = true -> Path.isabs (Path.abspath cwd path) = true.
Proof.
  intros H. unfold Path.abspath.
  destruct (Path.isabs path) eqn:Ep; apply normpath_isabs;
    [exact Ep|now apply join_isabs].
Qed.

Lemma find_files_literal (o : OS) (f : pystr) (recurse : bool) :
  recurse && os_path_isdir o f = false ->
  regular_nonempty o f = true ->
  fst (find_files o [f] recurse) = [Path.abspath (os_getcwd o) f].
Proof. intros Hd Hr. simpl. now rewrite Hd, Hr. Qed.

(** *** A run without files *)


Lemma str_items_strs (l : list pystr) : str_items (map VStr l) = inr l.
Proof. induction l as [|s l IH]; simpl; now rewrite ?IH. Qed.

Lemma validation_loop_unchanged (graphtypes : list pystr) (args : dict) :
  (forall name, In name graphtypes -> args_validation name args = inr args) ->
  for_each graphtypes validate args = ([], inr (tt, args)).
Proof.
  induction graphtypes as [|name gts IH]; intros H; [reflexivity|].
  simpl. unfold bind. unfold Driver.validate at 1.
  rewrite (H name (or_introl eq_refl)).
  rewrite IH; [reflexivity|]. intros n Hn. apply H. now right.
Qed.

(** *** Base64 *)

Lemma below_forall (n : nat) (P : N -> bool) :
  forallb P (below n) = true -> forall v, v < N.of_nat n -> P v = true.
Proof.
  intros H v Hv. rewrite forallb_forall in H. apply H.
  apply in_map_iff. exists (N.to_nat v). split; [apply N2Nat.id|].
  apply in_seq. lia.
Qed.

Lemma sextet_ok_all v : v < 64 -> sextet_ok v = true.
Proof. apply (below_forall 64). vm_compute. reflexivity. Qed.

Lemma first_ok_all a x : a < 256 -> x < 16 -> first_ok a x = true.
Proof.
  intros Ha Hx.
  apply (below_forall 16 (first_ok a)); [|exact Hx].
  revert a Ha.
  apply (below_forall 256 (fun a => forallb (first_ok a) (below 16))).
  vm_compute. reflexivity.
Qed.

Lemma second_ok_all b y : b < 256 -> y < 4 -> second_ok b y = true.
Proof.
  intros Hb Hy.
  apply (below_forall 4 (second_ok b)); [|exact Hy].
  revert b Hb.
  apply (below_forall 256 (fun b => forallb (second_ok b) (below 4))).
  vm_compute. reflexivity.
Qed.

Lemma third_ok_all c : c < 256 -> third_ok c = true.
Proof. apply (below_forall 256). vm_compute. reflexivity. Qed.

Lemma dec6_enc6 v :
  v < 64 ->
  Base64.dec6 (Base64.enc6 v) = Some v
  /\ (Base64.enc6 v =? Base64.pad) = false.
Proof.
  intros H. pose proof (sextet_ok_all v H) as Hok. unfold sextet_ok in Hok.
  apply andb_prop in Hok. destruct Hok as [H1 H2].
  destruct (Base64.dec6 (Base64.enc6 v)) as [v'|]; [|discriminate].
  apply N.eqb_eq in H1. subst v'. split; [reflexivity|].
  now apply negb_true_iff.
Qed.

Lemma first_spec (a x : N) :
  a < 256 -> x < 16 ->
  N.shiftr a 2 < 64
  /\ N.lor (N.shiftl (N.land a 3) 4) x < 64
  /\ N.lor (N.shiftl (N.shiftr a 2) 2)
           (N.shiftr (N.lor (N.shiftl (N.land a 3) 4) x) 4) = a
  /\ N.land (N.lor (N.shiftl (N.land a 3) 4) x) 15 = x.
Proof.
  unused.
  intros Ha Hx. pose proof (first_ok_all a x Ha Hx) as H.
  unfold first_ok in H.
  rewrite !andb_true_iff, !N.ltb_lt, !N.eqb_eq in H. tauto.
Qed.

Lemma second_spec (b y : N) :
  b < 256 -> y < 4 ->
  N.shiftr b 4 < 16
  /\ N.lor (N.shiftl (N.land b 15) 2) y < 64
  /\ N.lor (N.shiftl (N.shiftr b 4) 4)
           (N.shiftr (N.lor (N.shiftl (N.land b 15) 2) y) 2) = b
  /\ N.land (N.lor (N.shiftl (N.land b 15) 2) y) 3 = y.
Proof.
  unused.
  intros Hb Hy. pose proof (second_ok_all b y Hb Hy) as H.
  unfold second_ok in H.
  rewrite !andb_true_iff, !N.ltb_lt, !N.eqb_eq in H. tauto.
Qed.

Lemma third_spec (c : N) :
  c < 256 ->
  N.shiftr c 6 < 4 /\ N.land c 63 < 64
  /\ N.lor (N.shiftl (N.shiftr c 6) 6) (N.land c 63) = c.
Proof.
  unused.
  intros Hc. pose proof (third_ok_all c Hc) as H.
  unfold third_ok in H.
  rewrite !andb_true_iff, !N.ltb_lt, !N.eqb_eq in H. tauto.
Qed.

Lemma b64_roundtrip_N (n : nat) (l : list N) :
  (List.length l <= n)%nat -> Forall (fun b => b < 256) l ->
  Base64.b64decode_N (Base64.b64encode_N l) = Some l.
Proof.
  revert l. induction n as [|n IH]; intros l Hn Hl.
  - destruct l; [reflexivity|simpl in Hn; lia].
  - destruct l as [|a [|b [|c rest]]]; [reflexivity| | |].
    + inversion Hl as [|? ? Ha _]; subst.
      destruct (first_spec a 0 Ha eq_refl) as (A1 & A2 & A3 & _).
      rewrite N.lor_0_r in A2, A3.
      cbn [Base64.b64encode_N Base64.b64decode_N].
      destruct (dec6_enc6 _ A1) as [-> _].
      destruct (dec6_enc6 _ A2) as [-> _].
      rewrite N.eqb_refl. cbn [andb]. now rewrite A3.
    + inversion Hl as [|? ? Ha Hl']; subst.
      inversion Hl' as [|? ? Hb _]; subst.
      destruct (second_spec b 0 Hb eq_refl) as (B1 & B2 & B3 & _).
      rewrite N.lor_0_r in B2, B3.
      destruct (first_spec a _ Ha B1) as (A1 & A2 & A3 & A4).
      cbn [Base64.b64encode_N Base64.b64decode_N].
      destruct (dec6_enc6 _ A1) as [-> _].
      destruct (dec6_enc6 _ A2) as [-> _].
      destruct (dec6_enc6 _ B2) as [-> ->].
      rewrite N.eqb_refl. cbn [andb]. now rewrite A3, A4, B3.
    + inversion Hl as [|? ? Ha Hl']; subst.
      inversion Hl' as [|? ? Hb Hl'']; subst.
      inversion Hl'' as [|? ? Hc Hrest]; subst.
      destruct (third_spec c Hc) as (C1 & C2 & C3).
      destruct (second_spec b _ Hb C1) as (B1 & B2 & B3 & B4).
      destruct (first_spec a _ Ha B1) as (A1 & A2 & A3 & A4).
      cbn [Base64.b64encode_N Base64.b64decode_N].
      destruct (dec6_enc6 _ A1) as [-> _].
      destruct (dec6_enc6 _ A2) as [-> _].
      destruct (dec6_enc6 _ B2) as [-> ->].
      destruct (dec6_enc6 _ C2) as [-> ->].
      rewrite andb_false_l.
      rewrite IH; [|simpl in Hn; lia|assumption].
      now rewrite A3, A4, B3, B4, C3.
Qed.

Lemma bytes_of_to_N (data : list Byte.byte) :
  Base64.bytes_of (map Byte.to_N data) = Some data.
Proof.
  induction data as [|b data IH]; [reflexivity|].
  simpl. now rewrite Byte.of_to_N, IH.
Qed.

Lemma b64decode_b64encode (data : list Byte.byte) :
  Base64.b64decode (Base64.b64encode data) = Some data.
Proof.
  unfold Base64.b64decode, Base64.b64encode.
  rewrite (b64_roundtrip_N (List.length (map Byte.to_N data))).
  - apply bytes_of_to_N.
  - reflexivity.
  - apply Forall_forall. intros x Hx. apply in_map_iff in Hx.
    destruct Hx as [b [<- _]]. pose proof (Byte.to_N_bounded b). lia.
Qed.

(** *** The two ways of saving *)

Lemma json_error_output (json_data : jvalue) (graph cmdline : pystr) :
  json_error (JObject [(py "info", json_data);
                       (py "graph", JString graph);
                       (py "cmdline", JString cmdline);
                       (py "version", __version__)])
  = json_error json_data.
Proof.
  unused.
  cbn [json_error]. now destruct (json_error json_data).
Qed.

Lemma output_graph_json (fig : Figure) (save_kwargs : dict)
    (json_data : jvalue) (abs_save_fpath : pystr) (d : dict)
    (showplt json format dpi : value) :
  dict_get d (py "showplt") = Some showplt -> truthy showplt = false ->
  dict_get d (py "json") = Some json -> truthy json = true ->
  dict_get d (py "format") = Some format ->
  dict_get d (py "dpi") = Some dpi ->
  output_graph fig save_kwargs json_data abs_save_fpath d
  = match plt_savefig fig Buffer format dpi save_kwargs with
    | NotSaved e _ => ([Log (INFO, SavingAsJson)], inl e)
    | Saved buf =>
        match os_open_write os
                (fst (Path.splitext abs_save_fpath) ++ py ".json") with
        | Some e => ([Log (INFO, SavingAsJson)], inl e)
        | None =>
            match json_error json_data with
            | Some e =>
                ([Log (INFO, SavingAsJson);
                  Write (fst (Path.splitext abs_save_fpath) ++ py ".json")
                        Truncated],
                 inl e)
            | None =>
                ([Log (INFO, SavingAsJson);
                  Write (fst (Path.splitext abs_save_fpath) ++ py ".json")
                    (Json [(py "info", json_data);
                           (py "graph", JString (Base64.b64encode buf));
                           (py "cmdline",
                            JString (Str.join (py " ") (dict_keys d)));
                           (py "version", __version__)]);
                  Log (INFO,
                       GraphSavedTo
                         (fst (Path.splitext abs_save_fpath) ++ py ".json"))],
                 inr (tt, d))
            end
        end
    end.
Proof.
  intros Hs Hst Hj Hjt Hf Hd. unfold Driver.output_graph.
  rewrite (run_lookup _ _ _ _ Hs). cbv beta. rewrite Hst.
  rewrite (run_lookup _ _ _ _ Hj). cbv beta. rewrite Hjt.
  rewrite run_log. cbv beta.
  rewrite (run_lookup _ _ _ _ Hf). cbv beta.
  rewrite (run_lookup _ _ _ _ Hd). cbv beta.
  unfold Driver.save.
  destruct (plt_savefig fig Buffer format dpi save_kwargs) as [buf|e []];
    cbv beta iota; try (rewrite run_raise; reflexivity).
  rewrite run_ret, run_get_args. cbv beta zeta.
  unfold Driver.dump_json. rewrite json_error_output.
  destruct (os_open_write os _) as [e|];
    [now rewrite run_raise|].
  destruct (json_error json_data) as [e|].
  - rewrite run_bind_assoc, run_emit. cbv beta. now rewrite run_raise.
  - rewrite run_emit. reflexivity.
Qed.

Lemma output_graph_file (fig : Figure) (save_kwargs : dict)
    (json_data : jvalue) (abs_save_fpath : pystr) (d : dict)
    (showplt json format dpi : value) :
  dict_get d (py "showplt") = Some showplt -> truthy showplt = false ->
  dict_get d (py "json") = Some json -> truthy json = false ->
  dict_get d (py "format") = Some format ->
  dict_get d (py "dpi") = Some dpi ->
  output_graph fig save_kwargs json_data abs_save_fpath d
  = match plt_savefig fig (File abs_save_fpath) format dpi save_kwargs with
    | Saved data =>
        ([Write abs_save_fpath (Image data);
          Log (INFO, GraphSavedTo abs_save_fpath)],
         inr (tt, d))
    | NotSaved e true => ([Write abs_save_fpath Truncated], inl e)
    | NotSaved e false => ([], inl e)
    end.
Proof.
  intros Hs Hst Hj Hjt Hf Hd. unfold Driver.output_graph.
  rewrite (run_lookup _ _ _ _ Hs). cbv beta. rewrite Hst.
  rewrite (run_lookup _ _ _ _ Hj). cbv beta. rewrite Hjt.
  rewrite (run_lookup _ _ _ _ Hf). cbv beta.
  rewrite (run_lookup _ _ _ _ Hd). cbv beta.
  unfold Driver.save.
  destruct (plt_savefig fig (File abs_save_fpath) format dpi save_kwargs)
    as [data|e []]; cbv beta iota.
  - rewrite run_bind_assoc, run_emit. cbv beta. now rewrite run_ret.
  - rewrite run_bind_assoc, run_emit. cbv beta. now rewrite run_raise.
  - now rewrite run_raise.
Qed.

(** *** The log of a walk *)

Lemma find_in_dir_logs (o : OS) (dir_name : pystr) (files : list pystr) :
  snd (find_in_dir o dir_name files)
  = map (fun p => (INFO, FileFound p))
        (filter (regular_nonempty o) (map (Path.join dir_name) files)).
Proof.
  unused.
  induction files as [|fname files IH]; [reflexivity|].
  simpl. destruct (find_in_dir o dir_name files) as [found logs].
  simpl in IH. destruct (regular_nonempty o _); simpl; now rewrite IH.
Qed.

Lemma find_in_walk_logs (o : OS)
    (triples : list (pystr * list pystr * list pystr)) :
  snd (find_in_walk o triples)
  = flat_map
      (fun '(dir_name, _, files) =>
         (DEBUG, FoundDirectory dir_name)
         :: map (fun p => (INFO, FileFound p))
                (filter (regular_nonempty o) (map (Path.join dir_name) files)))
      triples.
Proof.
  unused.
  induction triples as [|[[dir_name dirs] files] triples IH];
    [reflexivity|].
  simpl. pose proof (find_in_dir_logs o dir_name files) as Hl.
  destruct (find_in_dir o dir_name files) as [found logs].
  destruct (find_in_walk o triples) as [found' logs'].
  simpl in *. now rewrite Hl, IH.
Qed.

(** A walk logs nothing at the critical level. *)
Lemma find_in_walk_not_critical (o : OS)
    (triples : list (pystr * list pystr * list pystr)) (l : level)
    (m : message) :
  In (l, m) (snd (find_in_walk o triples)) -> l <> CRITICAL.
Proof.
  unused.
  rewrite find_in_walk_logs, in_flat_map.
  intros [[[dir_name dirs] files] [_ [H|H]]].
  - now inversion H.
  - apply in_map_iff in H. destruct H as [p [H _]]. now inversion H.
Qed.

(** The two ways [os.path.join] puts a file name after a directory. *)
Lemma join_cases (a b : pystr) :
  (Str.startswith b [Path.sep] = false ->
   exists s, Path.join a b = a ++ s ++ b /\ (s = [] \/ s = [Path.sep]))
  /\ (Str.startswith b [Path.sep] = true -> Path.join a b = b).
Proof.
  unused.
  unfold Path.join. split; intros H; rewrite H; [|reflexivity].
  destruct (match a with [] => true | _ :: _ => Str.endswith a [Path.sep] end).
  - exists []. auto.
  - exists [Path.sep]. auto.
Qed.

(** ** The properties of the driver *)

(** C1 (as the code has it).  [gen_names] fills the template
    [{prefix}-{findex}-{graphtype}-{cleaned_fname}.{ffrmt}]: for a prefix
    and a graph type without an opening brace the file name is
    [[prefix-][index-]graphtype[-cleanedname].format].  The prefix
    segment is left out when the prefix is [None] or empty; the index
    segment and the cleaned-name segment are left out together when
    there is no index.  The path is [os.path.join] of the save directory
    and the file name: the directory, a separator if one is missing, and
    the file name; but the file name alone when it begins with a
    separator.  In a run that saves, the artifacts are written in loop
    order to the names of their pairs, and the index is there when
    [files] has more than one entry: with one file the names have
    neither index nor cleaned name, and with more the index in the name
    of a file is its position, counted from 0, in [files]. *)
Theorem output_names_layout :
  (forall (ffrmt abs_fpath abs_save_path : pystr)
          (save_prefix : option pystr) (graphtype : pystr)
          (findex : option Z),
      (forall p, save_prefix = Some p -> brace_free p) ->
      brace_free graphtype ->
      gen_names ffrmt abs_fpath abs_save_path save_prefix graphtype findex
      = (Path.join abs_save_path
           (save_fname_layout save_prefix findex graphtype
              (clean_fname (Path.basename abs_fpath)) ffrmt),
         Path.basename abs_fpath,
         clean_fname (Path.basename abs_fpath)))
  /\ (forall (ffrmt abs_fpath abs_save_path : pystr)
             (save_prefix : option pystr) (graphtype : pystr)
             (findex : option Z),
         (forall p, save_prefix = Some p -> brace_free p) ->
         brace_free graphtype ->
         let save_fname :=
           save_fname_layout save_prefix findex graphtype
             (clean_fname (Path.basename abs_fpath)) ffrmt in
         let abs_save_fpath :=
           fst (fst (gen_names ffrmt abs_fpath abs_save_path save_prefix
                               graphtype findex)) in
         (Str.startswith save_fname [Path.sep] = false ->
          exists s, abs_save_fpath = abs_save_path ++ s ++ save_fname
                    /\ (s = [] \/ s = [Path.sep]))
         /\ (Str.startswith save_fname [Path.sep] = true ->
             abs_save_fpath = save_fname))
  /\ (forall (c : config) (graphtypes : list pystr) (d : dict),
         configured c d -> truthy (c_showplt c) = false ->
         select_graphtypes d = inr graphtypes ->
         exists rest,
           map fst (writes (fst (generate_graphs d))) ++ rest
           = flat_map
               (fun '(index, abs_fpath) =>
                  map (fun module_name =>
                         artifact_path (truthy (c_json c))
                           (fst (fst (gen_names (c_format c) abs_fpath
                                        (c_save_dir c)
                                        (prefix_arg (c_prefix c))
                                        module_name
                                        (if (1 <? List.length (c_files c))%nat
                                         then Some (Z.of_nat index)
                                         else None)))))
                      graphtypes)
               (enumerate (c_files c))
           /\ forall d', snd (generate_graphs d) = inr (tt, d') ->
                         rest = [])
  /\ (forall (c : config) (graphtypes : list pystr) (d : dict)
             (abs_fpath : pystr),
         configured c d -> truthy (c_showplt c) = false ->
         select_graphtypes d = inr graphtypes ->
         c_files c = [abs_fpath] ->
         exists rest,
           map fst (writes (fst (generate_graphs d))) ++ rest
           = map (fun module_name =>
                    artifact_path (truthy (c_json c))
                      (fst (fst (gen_names (c_format c) abs_fpath
                                   (c_save_dir c)
                                   (prefix_arg (c_prefix c))
                                   module_name None))))
                 graphtypes
           /\ forall d', snd (generate_graphs d) = inr (tt, d') ->
                         rest = []).
Proof.
  split; [exact gen_names_layout|]. split; [|split].
  - intros ffrmt abs_fpath abs_save_path save_prefix graphtype findex
           Hp Hg save_fname abs_save_fpath.
    unfold abs_save_fpath. rewrite gen_names_layout by assumption.
    simpl fst. fold save_fname. apply join_cases.
  - intros c graphtypes d Hc Hs Hg.
    destruct (generate_graphs_writes c graphtypes d Hc Hs Hg)
      as [rest [Hw Hr]].
    exists rest. split; [|intros d'; apply Hr].
    rewrite Hw. reflexivity.
  - intros c graphtypes d abs_fpath Hc Hs Hg Hf.
    destruct (generate_graphs_writes c graphtypes d Hc Hs Hg)
      as [rest [Hw Hr]].
    exists rest. split; [|intros d'; apply Hr].
    rewrite Hw. unfold Driver.run_paths, Driver.pair_path, findex_of.
    rewrite Hf. simpl. now rewrite app_nil_r.
Qed.

(** C2 (as the code has it).  [generate_graphs] has no handler around
    [module.generate]: a call that raises is the last event of the run
    and the run raises the same exception, so nothing is written for
    that pair, nothing is logged about it, and no later pair is
    processed: the files written are those written before the call, and
    the call is the last one made. *)
Theorem failed_generate_aborts_run (d : dict) (tr1 tr2 : list event)
    (module_name : pystr) (kwargs : dict) (e : exn) :
  fst (generate_graphs d) = tr1 ++ Generate module_name kwargs :: tr2 ->
  generate module_name kwargs = inl e ->
  tr2 = [] /\ snd (generate_graphs d) = inl e
  /\ writes (fst (generate_graphs d)) = writes tr1
  /\ generate_calls (fst (generate_graphs d))
     = generate_calls tr1 ++ [(module_name, kwargs)].
Proof.
  intros Htr Hg.
  assert (Hstops : stops_at_failure (generate_graphs d)).
  { unfold Driver.generate_graphs.
    repeat first
      [apply generate_graph_stops
      |apply stops_for_each; intros ? ?
      |apply stops_bind; [stops_prim|intros ? ?]
      |match goal with
       | |- Driver.stops_at_failure _ _ ((match ?t with (_, _) => _ end) _) =>
           destruct t
       end]. }
  destruct (Hstops tr1 module_name kwargs tr2 e Htr Hg) as [-> Hr].
  split; [reflexivity|]. split; [exact Hr|].
  rewrite Htr, writes_app, generate_calls_app. simpl.
  now rewrite app_nil_r.
Qed.


(** C4 (as the code has it).  In JSON mode the [graph] member of the
    document is the base64 text of the bytes [plt.savefig] wrote to an
    in-memory buffer for the figure, the format, the dpi and the save
    options, and decoding it gives these bytes.  File mode is another
    call of [plt.savefig], on the path: it writes the bytes the backend
    gives for that target.  The decoded bytes are the bytes of the file
    exactly when the backend gives the same bytes for the buffer and
    for the path, which nothing in the driver ensures. *)
Theorem json_graph_decodes_to_image_bytes (fig : Figure)
    (save_kwargs : dict) (json_data json_data' : jvalue)
    (abs_save_fpath : pystr) (d_json d_file : dict)
    (showplt showplt' json json' format dpi : value)
    (path : pystr) (document : list (pystr * jvalue)) :
  dict_get d_json (py "showplt") = Some showplt -> truthy showplt = false ->
  dict_get d_json (py "json") = Some json -> truthy json = true ->
  dict_get d_json (py "format") = Some format ->
  dict_get d_json (py "dpi") = Some dpi ->
  dict_get d_file (py "showplt") = Some showplt' -> truthy showplt' = false ->
  dict_get d_file (py "json") = Some json' -> truthy json' = false ->
  dict_get d_file (py "format") = Some format ->
  dict_get d_file (py "dpi") = Some dpi ->
  writes (fst (output_graph fig save_kwargs json_data abs_save_fpath d_json))
  = [(path, Json document)] ->
  exists graph buf,
    jget document (py "graph") = Some (JString graph)
    /\ Base64.b64decode graph = Some buf
    /\ plt_savefig fig Buffer format dpi save_kwargs = Saved buf
    /\ (forall data,
          writes (fst (output_graph fig save_kwargs json_data'
                                    abs_save_fpath d_file))
          = [(abs_save_fpath, Image data)]
          <-> plt_savefig fig (File abs_save_fpath) format dpi save_kwargs
              = Saved data)
    /\ (forall data,
          plt_savefig fig (File abs_save_fpath) format dpi save_kwargs
          = Saved data ->
          (Base64.b64decode graph = Some data
           <-> plt_savefig fig Buffer format dpi save_kwargs
               = plt_savefig fig (File abs_save_fpath) format dpi
                             save_kwargs)).
Proof.
  intros Hs Hst Hj Hjt Hf Hd Hs' Hst' Hj' Hjt' Hf' Hd'.
  rewrite (output_graph_json _ _ _ _ _ _ _ _ _ Hs Hst Hj Hjt Hf Hd).
  rewrite (output_graph_file _ _ _ _ _ _ _ _ _ Hs' Hst' Hj' Hjt' Hf' Hd').
  destruct (plt_savefig fig Buffer format dpi save_kwargs) as [buf|e left];
    [|discriminate].
  destruct (os_open_write os _) as [e|]; [discriminate|].
  destruct (json_error json_data) as [e|]; [discriminate|].
  simpl. intros [= <- <-].
  exists (Base64.b64encode buf), buf.
  split; [reflexivity|]. split; [apply b64decode_b64encode|].
  split; [reflexivity|]. split.
  - intros data.
    destruct (plt_savefig fig (File abs_save_fpath) format dpi save_kwargs)
      as [data0|e []]; simpl; split; intros H; try discriminate H;
      congruence.
  - intros data Hdata. rewrite b64decode_b64encode, Hdata.
    split; congruence.
Qed.

(** C5 (as the code has it).  An [@listfile] input resolves to every
    line of the file without its newline, empty lines too, in the order
    of the file; the lines are taken as they are, whatever they name and
    whether or not directories are recursed into. *)
Theorem listfile_yields_every_line (listfile text : pystr)
    (recurse : bool) :
  os_path_exists os listfile = true ->
  os_path_isfile os listfile = true ->
  os_read_text os listfile = Some text ->
  resolve_files [py "@" ++ listfile] recurse = ([], inr (all_lines text)).
Proof.
  intros He Hf Hr.
  change (resolve_files [py "@" ++ listfile] recurse)
    with (match File2Strings os listfile with
          | (None, logs) =>
              (logs, @inl exn (list pystr)
                       (Exception (py "Error reading %s")
                                  (py "@" ++ listfile)))
          | (Some lines, logs) => (logs ++ [], inr (lines ++ []))
          end).
  rewrite (File2Strings_lines _ _ _ He Hf Hr). simpl.
  now rewrite app_nil_r.
Qed.

(** C8.  With [showplt] set, the output block only shows the figure, and
    a whole run writes no file, whatever the format, the save directory
    and [json] are. *)
Theorem interactive_mode_writes_no_file (d : dict) (showplt : value) :
  dict_get d (py "showplt") = Some showplt -> truthy showplt = true ->
  writes (fst (generate_graphs d)) = []
  /\ forall fig save_kwargs json_data abs_save_fpath,
       output_graph fig save_kwargs json_data abs_save_fpath d
       = ([Log (INFO, OpeningInteractively); Show fig], inr (tt, d)).
Proof.
  intros Hs Ht.
  assert (Hi : interactive d) by now exists showplt.
  split.
  - now apply generate_graphs_no_writes.
  - intros. now apply output_graph_interactive.
Qed.

(** C9 (as the code has it).  For a directory with [recurse] set,
    [find_files] gives the paths [dir_name/fname] of the walk that are
    regular files, not links and not empty, and nothing else: no
    directory; and it logs nothing at the critical level.  [os.path.isdir]
    follows links and is tested first, so a link to a directory is such
    a directory: it is walked, not skipped.  An input that is not a
    directory under recursion, and is not a regular, unlinked, non-empty
    file (missing, a link to a file, empty, a directory without
    [recurse]), adds no path and one critical log record, and the other
    inputs are still looked at. *)
Theorem find_files_recurses_and_skips (o : OS) (f : pystr)
    (rest : list pystr) (recurse : bool) :
  (os_path_isdir o f = true ->
   (forall p,
      In p (fst (find_files o [f] true)) <->
      exists dir_name dirs files fname,
        In (dir_name, dirs, files) (os_walk o f) /\ In fname files
        /\ p = Path.join dir_name fname
        /\ os_path_isfile o p = true /\ os_path_islink o p = false
        /\ os_stat_size o p <> 0)
   /\ (forall l m, In (l, m) (snd (find_files o [f] true)) ->
                   l <> CRITICAL))
  /\ (recurse && os_path_isdir o f = false ->
      os_path_isfile o f = false \/ os_path_islink o f = true
      \/ os_stat_size o f = 0 ->
      find_files o (f :: rest) recurse
      = (fst (find_files o rest recurse),
         (CRITICAL, NotAFileSkipping f) :: snd (find_files o rest recurse))).
Proof.
  unused.
  split.
  - intros Hd. split.
    + intros p. rewrite (find_files_directory _ _ Hd), walk_files_In.
      split; intros (dir_name & dirs & files & fname & H1 & H2 & H3 & H4);
        exists dir_name, dirs, files, fname; repeat split; try assumption;
        try (apply regular_nonempty_true in H4; tauto).
    + intros l m. simpl. rewrite Hd. simpl.
      pose proof (find_in_walk_not_critical o (os_walk o f) l m) as Hw.
      destruct (find_in_walk o (os_walk o f)) as [found logs].
      simpl in *. now rewrite app_nil_r.
  - intros Hd Hr. apply find_files_skip; [exact Hd|].
    now apply regular_nonempty_false.
Qed.

(** C10.  [clean_fname] keeps the alphanumeric characters of its
    argument, as they are and in their order, and nothing else; it reads
    nothing but its argument; cleaning twice is cleaning once. *)
Theorem clean_fname_idempotent_filter (s : pystr) :
  clean_fname (clean_fname s) = clean_fname s
  /\ clean_fname s = filter isalnum s
  /\ (forall c, In c (clean_fname s) -> In c s /\ isalnum c = true)
  /\ (forall c, isalnum c = true ->
                count_occ N.eq_dec (clean_fname s) c
                = count_occ N.eq_dec s c).
Proof.
  rewrite !clean_fname_filter. repeat split.
  - apply filter_idem.
  - now apply filter_In in H.
  - now apply filter_In in H.
  - intros c Hc. now apply count_occ_filter.
Qed.

(** ** More on finding files *)

Lemma find_files_app (o : OS) (a b : list pystr) (recurse : bool) :
  find_files o (a ++ b) recurse
  = (fst (find_files o a recurse) ++ fst (find_files o b recurse),
     snd (find_files o a recurse) ++ snd (find_files o b recurse)).
Proof.
  unused.
  induction a as [|f a IH]; simpl.
  - now destruct (find_files o b recurse).
  - rewrite IH.
    destruct (if recurse && os_path_isdir o f
              then find_in_walk o (os_walk o f)
              else if regular_nonempty o f
                   then ([Path.abspath (os_getcwd o) f],
                         [(DEBUG, FoundFile (Path.abspath (os_getcwd o) f))])
                   else ([], [(CRITICAL, NotAFileSkipping f)]))
      as [found logs].
    destruct (find_files o a recurse) as [fa la].
    destruct (find_files o b recurse) as [fb lb].
    simpl. now rewrite !app_assoc.
Qed.

(** X3.  [main] calls [find_files] on one input at a time; for inputs
    that are not list files this gives what one call on all of them
    gives: the files in the order of the inputs, each as often as it is
    given, and the log records in the same order. *)
Theorem resolve_files_literals (files : list pystr) (recurse : bool) :
  (forall f, In f files -> Str.startswith f (py "@") = false) ->
  resolve_files files recurse
  = (snd (find_files os files recurse),
     inr (fst (find_files os files recurse))).
Proof.
  induction files as [|f files IH]; intros H; [reflexivity|].
  change (resolve_files (f :: files) recurse)
    with (if Str.startswith f (py "@") then
            match File2Strings os (Str.slice_from f 1) with
            | (None, logs) =>
                (logs, inl (Exception (py "Error reading %s") f))
            | (Some lines, logs) =>
                match resolve_files files recurse with
                | (logs', inl e) => (logs ++ logs', inl e)
                | (logs', inr found') => (logs ++ logs', inr (lines ++ found'))
                end
            end
          else
            let '(found, logs) := find_files os [f] recurse in
            match resolve_files files recurse with
            | (logs', inl e) => (logs ++ logs', inl e)
            | (logs', inr found') => (logs ++ logs', inr (found ++ found'))
            end).
  rewrite (H f (or_introl eq_refl)).
  rewrite IH by (intros g Hg; apply H; now right).
  change (f :: files) with ([f] ++ files). rewrite (find_files_app os [f]).
  now destruct (find_files os [f] recurse).
Qed.

(** X4.  Without recursion [find_files] looks at each input once: the
    result is the absolute form of the inputs that are regular files, not
    links and not empty, in their order, and there is one log record for
    each input, a critical one for each input left out. *)
Theorem find_files_without_recursion (o : OS) (search_paths : list pystr) :
  find_files o search_paths false
  = (map (Path.abspath (os_getcwd o))
         (filter (regular_nonempty o) search_paths),
     map (fun f =>
            if regular_nonempty o f
            then (DEBUG, FoundFile (Path.abspath (os_getcwd o) f))
            else (CRITICAL, NotAFileSkipping f))
         search_paths).
Proof.
  unused.
  induction search_paths as [|f paths IH]; [reflexivity|].
  simpl. rewrite IH. now destruct (regular_nonempty o f).
Qed.

(** X5.  When the current directory is absolute, every path that
    [find_files] gives without recursion is absolute. *)
Theorem find_files_without_recursion_absolute (o : OS)
    (search_paths : list pystr) (p : pystr) :
  Path.isabs (os_getcwd o) = true ->
  In p (fst (find_files o search_paths false)) ->
  Path.isabs p = true.
Proof.
  unused.
  intros Hcwd Hp. rewrite find_files_without_recursion in Hp. simpl in Hp.
  apply in_map_iff in Hp. destruct Hp as [f [<- _]].
  now apply abspath_isabs.
Qed.

(** X6.  For a directory with [recurse] set, the log of [find_files] has
    a debug record for each directory of the walk, followed by an info
    record for each file it takes; the files of the walk that it leaves
    out (links, empty files, what is not a regular file) get no record. *)
Theorem find_files_directory_logs (o : OS) (f : pystr) :
  os_path_isdir o f = true ->
  snd (find_files o [f] true)
  = flat_map
      (fun '(dir_name, _, files) =>
         (DEBUG, FoundDirectory dir_name)
         :: map (fun p => (INFO, FileFound p))
                (filter (regular_nonempty o) (map (Path.join dir_name) files)))
      (os_walk o f).
Proof.
  unused.
  intros Hd. simpl. rewrite Hd. simpl.
  assert (Hw : forall triples,
             snd (find_in_walk o triples)
             = flat_map
                 (fun '(dir_name, _, files) =>
                    (DEBUG, FoundDirectory dir_name)
                    :: map (fun p => (INFO, FileFound p))
                         (filter (regular_nonempty o)
                                 (map (Path.join dir_name) files)))
                 triples).
  { induction triples as [|[[dir_name dirs] files] triples IH];
      [reflexivity|].
    simpl. pose proof (find_in_dir_logs o dir_name files) as Hl.
    destruct (find_in_dir o dir_name files) as [found logs].
    destruct (find_in_walk o triples) as [found' logs'].
    simpl in *. now rewrite Hl, IH. }
  specialize (Hw (os_walk o f)).
  destruct (find_in_walk o (os_walk o f)) as [found logs].
  simpl in *. now rewrite app_nil_r.
Qed.

(** ** More on list files *)




Lemma join_cons_cons (sep p q : pystr) (rest : list pystr) :
  Str.join sep (p :: q :: rest) = p ++ sep ++ Str.join sep (q :: rest).
Proof. reflexivity. Qed.

Lemma join_split (s : pystr) (c : N) : Str.join [c] (Str.split s c) = s.
Proof.
  unused.
  induction s as [|x s IH]; [reflexivity|].
  simpl Str.split. pose proof (split_nonempty s c) as Hne.
  destruct (Str.split s c) as [|piece pieces]; [easy|].
  destruct (N.eqb_spec x c) as [->|Hx].
  - rewrite join_cons_cons, IH. reflexivity.
  - destruct pieces as [|q pieces].
    + simpl in *. now rewrite IH.
    + rewrite <- IH, !join_cons_cons. reflexivity.
Qed.

Lemma split_pieces (s : pystr) (c : N) (piece : pystr) :
  In piece (Str.split s c) -> ~ In c piece.
Proof.
  unused.
  revert piece. induction s as [|x s IH]; intros piece; simpl.
  - intros [<-|[]]. easy.
  - pose proof (split_nonempty s c) as Hne.
    destruct (N.eqb_spec x c) as [->|Hx].
    + intros [<-|H]; [easy|now apply IH].
    + destruct (Str.split s c) as [|p ps]; [easy|].
      intros [<-|H].
      * intros [E|E]; [congruence|]. now apply (IH p (or_introl eq_refl)).
      * apply IH. now right.
Qed.

Lemma join_last (sep : pystr) (pieces : list pystr) :
  pieces <> [] -> exists pre, Str.join sep pieces = pre ++ last pieces [].
Proof.
  unused.
  induction pieces as [|p pieces IH]; [easy|]. intros _.
  destruct pieces as [|q pieces].
  - now exists [].
  - destruct IH as [pre Hpre]; [discriminate|].
    exists (p ++ sep ++ pre). rewrite join_cons_cons, Hpre.
    now rewrite <- !app_assoc.
Qed.

Lemma join_app_empty (sep : pystr) (pieces : list pystr) :
  pieces <> [] ->
  Str.join sep (pieces ++ [[]]) = Str.join sep pieces ++ sep.
Proof.
  unused.
  induction pieces as [|p pieces IH]; [easy|]. intros _.
  destruct pieces as [|q pieces].
  - simpl. now rewrite app_nil_r.
  - change ((p :: q :: pieces) ++ [[]]) with (p :: (q :: pieces) ++ [[]]).
    change ((q :: pieces) ++ [[]]) with (q :: pieces ++ [[]]) at 1.
    rewrite join_cons_cons.
    change (q :: pieces ++ [[]]) with ((q :: pieces) ++ [[]]).
    rewrite IH by discriminate. rewrite join_cons_cons.
    now rewrite <- !app_assoc.
Qed.

Lemma endswith_last (s : pystr) (x c : N) :
  Str.endswith (s ++ [x]) [c] = (c =? x).
Proof.
  unused.
  unfold Str.endswith. rewrite rev_app_distr. simpl.
  now rewrite andb_true_r.
Qed.

(** X2.  What [File2Strings] returns loses nothing of the file but the
    ends of its lines: no line holds a newline, and the lines joined by
    newlines, with the final newline of the text if it has one, are the
    text.  It logs nothing when it returns lines. *)
Theorem File2Strings_round_trip (o : OS) (filename : pystr)
    (lines : list pystr) (logs : list log_record) :
  File2Strings o filename = (Some lines, logs) ->
  exists text,
    os_read_text o filename = Some text
    /\ logs = []
    /\ (forall line, In line lines -> ~ In 10 line)
    /\ text = Str.join [10] lines
              ++ (if Str.endswith text [10] then [10] else []).
Proof.
  unused.
  unfold File2Strings.
  destruct (negb (os_path_exists o filename)
            || negb (os_path_isfile o filename)); [discriminate|].
  destruct (os_read_text o filename) as [text|]; [|discriminate].
  intros [= <- <-]. exists text. split; [reflexivity|].
  split; [reflexivity|].
  pose proof (join_split text 10) as Hj.
  pose proof (split_pieces text 10) as Hp.
  destruct (readlines_split text) as [[Hl Hs]|[Hl Hs]]; cbv zeta in Hs.
  - set (stripped := map (fun line => Str.rstrip line [10])
                         (Str.readlines text)) in *.
    split.
    + intros line Hline. apply Hp. rewrite Hs. apply in_or_app. now left.
    + rewrite Hs in Hj. destruct stripped as [|l ls] eqn:E.
      * simpl in Hj. now subst text.
      * rewrite join_app_empty in Hj by discriminate.
        rewrite <- Hj at 2. rewrite endswith_last, N.eqb_refl.
        now symmetry.
  - set (stripped := map (fun line => Str.rstrip line [10])
                         (Str.readlines text)) in *.
    split.
    + intros line Hline. apply Hp. now rewrite Hs.
    + rewrite Hs in Hj, Hl, Hp.
      assert (Hne : stripped <> []).
      { intros E. rewrite E in Hl. now apply Hl. }
      destruct (join_last [10] stripped Hne) as [pre Hpre].
      destruct (exists_last Hne) as [ini [z Ez]].
      assert (Ez' : last stripped [] = z) by (rewrite Ez; apply last_last).
      rewrite Ez' in Hl, Hpre.
      destruct (exists_last Hl) as [q' [x Ex]].
      assert (Hx : x <> 10).
      { intros ->. apply (Hp z).
        - rewrite Ez. apply in_or_app. right. now left.
        - rewrite Ex. apply in_or_app. right. now left. }
      assert (He : Str.endswith text [10] = false).
      { rewrite <- Hj, Hpre, Ex, app_assoc, endswith_last.
        apply N.eqb_neq. congruence. }
      rewrite He, app_nil_r. now symmetry.
Qed.

(** ** More on [main] *)

(** [main] once the inputs are resolved: the save directory is made
    absolute and checked, the graph modules validate the arguments, and
    [generate_graphs] runs on the arguments with the files found. *)
Lemma main_after_resolution (args : dict) (inputs : list pystr)
    (recurse : value) (logs : list log_record) (found : list pystr)
    (save_dir : pystr) :
  let abs_save_dir := Path.abspath (os_getcwd os) save_dir in
  let args' :=
    dict_set (dict_set args (py "files") (VList (map VStr found)))
             (py "save_dir") (VStr abs_save_dir) in
  let rest : M unit :=
    if negb (os_path_isdir os abs_save_dir) then
      log CRITICAL (OutNotADirectory abs_save_dir) ;;;
      raise (SystemExit 1)
    else
      args <- get_args ;;
      __graphtypes__ <- lift (select_graphtypes args) ;;
      for_each __graphtypes__ validate ;;;
      generate_graphs in
  dict_get args (py "files") = Some (VList (map VStr inputs)) ->
  dict_get args (py "recurse") = Some recurse ->
  resolve_files inputs (truthy recurse) = (logs, inr found) ->
  dict_get args (py "save_dir") = Some (VStr save_dir) ->
  main args = (map Log logs ++ fst (rest args'), snd (rest args')).
Proof.
  intros abs_save_dir args' rest Hf Hr Hres Hs. unfold Driver.main.
  rewrite (run_lookup _ _ _ _ Hf). cbv beta. simpl iter.
  rewrite run_lift, str_items_strs, run_lift.
  rewrite (run_lookup _ _ _ _ Hr). cbv beta. rewrite Hres.
  rewrite run_emit_all. cbv beta.
  rewrite run_lift, run_store.
  match goal with
  | |- (_ ++ fst ?X, snd ?X) = _ => assert (HX : X = rest args')
  end.
  { erewrite run_lookup by (dict_simpl; exact Hs). cbv beta iota.
    rewrite run_store. reflexivity. }
  now rewrite HX.
Qed.

Lemma validation_loop_failure (before : list pystr) (name : pystr)
    (after : list pystr) (args : dict) (e : exn) :
  (forall n, In n before -> args_validation n args = inr args) ->
  args_validation name args = inl e ->
  for_each (before ++ name :: after) validate args = ([], inl e).
Proof.
  intros Hb He. induction before as [|n before IH]; simpl.
  - unfold bind, Driver.validate at 1. now rewrite He.
  - unfold bind. unfold Driver.validate at 1.
    rewrite (Hb n (or_introl eq_refl)).
    rewrite IH; [reflexivity|]. intros m Hm. apply Hb. now right.
Qed.

(** X7.  When the save directory, made absolute, is not a directory,
    [main] logs it at the critical level and exits with status 1: after
    the inputs were resolved and logged, and before a graph module is
    asked to validate or to generate. *)
Theorem save_dir_not_a_directory_exits (args : dict) (inputs : list pystr)
    (recurse : value) (logs : list log_record) (found : list pystr)
    (save_dir : pystr) :
  dict_get args (py "files") = Some (VList (map VStr inputs)) ->
  dict_get args (py "recurse") = Some recurse ->
  resolve_files inputs (truthy recurse) = (logs, inr found) ->
  dict_get args (py "save_dir") = Some (VStr save_dir) ->
  os_path_isdir os (Path.abspath (os_getcwd os) save_dir) = false ->
  main args
  = (map Log logs
     ++ [Log (CRITICAL,
              OutNotADirectory (Path.abspath (os_getcwd os) save_dir))],
     inl (SystemExit 1)).
Proof.
  intros Hf Hr Hres Hs Hd.
  rewrite (main_after_resolution _ _ _ _ _ _ Hf Hr Hres Hs).
  now rewrite Hd.
Qed.

(** X8.  [main] hands over to [generate_graphs]: when the save directory
    is a directory and the selected graph modules accept the arguments
    and leave them as they are, the run of [main] is the log of the
    resolution followed by the run of [generate_graphs] on the arguments
    with [files] replaced by the files found and [save_dir] by its
    absolute form. *)
Theorem main_runs_generate_graphs (args : dict) (inputs : list pystr)
    (recurse : value) (logs : list log_record) (found : list pystr)
    (save_dir : pystr) (graphtypes : list pystr) :
  let args' :=
    dict_set (dict_set args (py "files") (VList (map VStr found)))
             (py "save_dir") (VStr (Path.abspath (os_getcwd os) save_dir)) in
  dict_get args (py "files") = Some (VList (map VStr inputs)) ->
  dict_get args (py "recurse") = Some recurse ->
  resolve_files inputs (truthy recurse) = (logs, inr found) ->
  dict_get args (py "save_dir") = Some (VStr save_dir) ->
  os_path_isdir os (Path.abspath (os_getcwd os) save_dir) = true ->
  select_graphtypes args' = inr graphtypes ->
  (forall name, In name graphtypes ->
                args_validation name args' = inr args') ->
  main args
  = (map Log logs ++ fst (generate_graphs args'),
     snd (generate_graphs args')).
Proof.
  intros args' Hf Hr Hres Hs Hd Hg Hv.
  rewrite (main_after_resolution _ _ _ _ _ _ Hf Hr Hres Hs).
  fold args'. rewrite Hd. cbv [negb].
  rewrite run_get_args. cbv beta. rewrite Hg, run_lift.
  match goal with
  | |- (_ ++ fst ?X, snd ?X) = _ => assert (HX : X = generate_graphs args')
  end.
  { unfold bind. rewrite (validation_loop_unchanged _ _ Hv).
    now destruct (generate_graphs args') as [evs r]. }
  now rewrite HX.
Qed.

(** X9.  A graph module that rejects the arguments ends [main] with its
    exception before [generate_graphs] is entered: nothing is logged
    after the resolution of the inputs, and no graph is generated, for
    the modules validated before it either. *)
Theorem failed_validation_aborts_main (args : dict) (inputs : list pystr)
    (recurse : value) (logs : list log_record) (found : list pystr)
    (save_dir : pystr) (before : list pystr) (name : pystr)
    (after : list pystr) (e : exn) :
  let args' :=
    dict_set (dict_set args (py "files") (VList (map VStr found)))
             (py "save_dir") (VStr (Path.abspath (os_getcwd os) save_dir)) in
  dict_get args (py "files") = Some (VList (map VStr inputs)) ->
  dict_get args (py "recurse") = Some recurse ->
  resolve_files inputs (truthy recurse) = (logs, inr found) ->
  dict_get args (py "save_dir") = Some (VStr save_dir) ->
  os_path_isdir os (Path.abspath (os_getcwd os) save_dir) = true ->
  select_graphtypes args' = inr (before ++ name :: after) ->
  (forall n, In n before -> args_validation n args' = inr args') ->
  args_validation name args' = inl e ->
  main args = (map Log logs, inl e).
Proof.
  intros args' Hf Hr Hres Hs Hd Hg Hb He.
  rewrite (main_after_resolution _ _ _ _ _ _ Hf Hr Hres Hs).
  fold args'. rewrite Hd. cbv [negb].
  rewrite run_get_args. cbv beta. rewrite Hg, run_lift.
  match goal with
  | |- (_ ++ fst ?X, snd ?X) = _ => assert (HX : X = ([], inl e))
  end.
  { unfold bind. now rewrite (validation_loop_failure _ _ _ _ _ Hb He). }
  rewrite HX. simpl. now rewrite app_nil_r.
Qed.

(** X10.  A graph type that is neither ["all"] nor the name of an
    imported module is a [KeyError] on the table of modules: the run
    logs its arguments and raises, before it reads [files]. *)
Theorem unknown_graphtype_is_a_key_error (d : dict) (name : pystr) :
  dict_get d (py "graphtype") = Some (VStr name) ->
  name <> py "all" ->
  ~ In name graphs ->
  generate_graphs d
  = ([Log (DEBUG, ArgsDict d)], inl (KeyError (VStr name))).
Proof.
  intros Hg Hall Hin. unfold Driver.generate_graphs.
  rewrite run_get_args. cbv beta. rewrite run_log. cbv beta.
  assert (Hs : select_graphtypes d = inl (KeyError (VStr name))).
  { unfold Driver.select_graphtypes. rewrite Hg. simpl eq_str.
    destruct (str_eqb name (py "all")) eqn:E;
      [now apply str_eqb_eq in E|].
    destruct (existsb (str_eqb name) graphs) eqn:Ex; [|reflexivity].
    apply existsb_exists in Ex. destruct Ex as [g [Hg' Hn]].
    apply str_eqb_eq in Hn. now subst g. }
  now rewrite Hs, run_lift_raise.
Qed.

(** ** The calls of [generate] *)

Lemma closes_app (tr1 tr2 : list event) :
  closes (tr1 ++ tr2) = (closes tr1 + closes tr2)%nat.
Proof.
  induction tr1 as [|[] tr1 IH]; simpl; now rewrite ?IH.
Qed.

Lemma gen_names_call_inv (format abs_fpath save_dir prefix : value)
    (module_name : pystr) (findex : option Z) (path fname cleaned : pystr) :
  gen_names_call format abs_fpath save_dir prefix module_name findex
  = inr (path, fname, cleaned) ->
  exists p,
    abs_fpath = VStr p /\ fname = Path.basename p
    /\ cleaned = clean_fname (Path.basename p).
Proof.
  unfold Driver.gen_names_call.
  destruct format; try discriminate.
  destruct abs_fpath as [| | |p| |]; try discriminate.
  destruct save_dir; try discriminate.
  intros H. exists p. split; [reflexivity|].
  destruct prefix; simpl in H; try destruct (negb _); try destruct b;
    try destruct items; try discriminate;
    unfold Driver.gen_names in H; now inversion H.
Qed.

(** The output block calls no module, releases no figure and leaves the
    arguments as they are. *)
Lemma output_graph_outcome (fig : Figure) (save_kwargs : dict)
    (json_data : jvalue) (abs_save_fpath : pystr) (d : dict) :
  generate_calls (fst (output_graph fig save_kwargs json_data abs_save_fpath d))
  = []
  /\ closes (fst (output_graph fig save_kwargs json_data abs_save_fpath d))
     = 0%nat
  /\ forall a d',
       snd (output_graph fig save_kwargs json_data abs_save_fpath d)
       = inr (a, d') -> d' = d.
Proof.
  assert (Hnil : (fun tr : list event =>
                    generate_calls tr = [] /\ closes tr = 0%nat) [])
    by (split; reflexivity).
  assert (Happ : forall tr1 tr2 : list event,
             (fun tr : list event =>
                generate_calls tr = [] /\ closes tr = 0%nat) tr1 ->
             (fun tr : list event =>
                generate_calls tr = [] /\ closes tr = 0%nat) tr2 ->
             (fun tr : list event =>
                generate_calls tr = [] /\ closes tr = 0%nat) (tr1 ++ tr2)).
  { cbv beta. intros tr1 tr2 [H1 H2] [H3 H4].
    now rewrite generate_calls_app, closes_app, H1, H2, H3, H4. }
  assert (H : preserves (fun d' => d' = d)
                (fun tr : list event =>
                   generate_calls tr = [] /\ closes tr = 0%nat)
                (output_graph fig save_kwargs json_data abs_save_fpath)).
  { unfold Driver.output_graph, log.
    repeat preserves_step (fun d' : dict => d' = d)
             (fun tr : list event =>
                generate_calls tr = [] /\ closes tr = 0%nat) Hnil Happ;
      split; reflexivity. }
  destruct (H d eq_refl) as [[H1 H2] H3]. auto.
Qed.

Lemma after_generate_outcome (abs_save_fpath : pystr)
    (result : Figure * dict * jvalue) (d : dict) :
  let run :=
    (let '(fig, save_kwargs, json_data) := result in
     figsize <- lookup (py "figsize") ;;
     size <- lift (iter figsize) ;;
     let fig := tight_layout (set_size_inches fig size) in
     output_graph fig save_kwargs json_data abs_save_fpath ;;;
     emit Close) d in
  generate_calls (fst run) = []
  /\ ((closes (fst run) = 0%nat /\ exists e, snd run = inl e)
      \/ (closes (fst run) = 1%nat /\ snd run = inr (tt, d))).
Proof.
  destruct result as [[fig save_kwargs] json_data]. cbv zeta.
  do 2 (run_step; try solve [simpl; split; [reflexivity|left; eauto]]).
  unfold bind.
  destruct (output_graph_outcome (tight_layout (set_size_inches fig l))
              save_kwargs json_data abs_save_fpath d) as (H1 & H2 & H3).
  destruct (output_graph _ _ _ _ d) as [evs [e|[[] d1]]]; simpl in *.
  - split; [exact H1|]. left. eauto.
  - rewrite generate_calls_app, closes_app, H1, H2, (H3 tt d1 eq_refl).
    split; [reflexivity|]. now right.
Qed.

Lemma generate_graph_outcome (index : nat) (abs_fpath : value)
    (module_name : pystr) (d : dict) :
  pair_outcome module_name abs_fpath d
    (generate_graph index abs_fpath module_name d).
Proof.
  unfold Driver.generate_graph.
  do 6 (run_step; try solve [left; simpl; repeat split; eauto]).
  destruct p as [[path fname] cleaned].
  match goal with
  | H : gen_names_call _ _ _ _ _ _ = inr _ |- _ =>
      apply gen_names_call_inv in H; destruct H as [p [-> [-> ->]]]
  end.
  rewrite !run_store, run_get_args. cbv beta.
  fold (with_names d p). rewrite run_emit. cbv beta.
  right. exists p. split; [reflexivity|].
  destruct (generate module_name (with_names d p)) as [e|result].
  { rewrite run_lift_raise. simpl. split; [reflexivity|]. left. eauto. }
  rewrite run_lift.
  destruct (after_generate_outcome path result (with_names d p))
    as [H1 H2].
  cbv zeta in H1, H2. simpl fst. simpl snd. simpl generate_calls.
  simpl closes. rewrite H1. split; [reflexivity|exact H2].
Qed.

Lemma str_eqb_neq (a b : pystr) : a <> b -> str_eqb a b = false.
Proof.
  unused.
  intros H. destruct (str_eqb a b) eqn:E; [|reflexivity].
  now apply str_eqb_eq in E.
Qed.

Lemma names_of_with_names (d : dict) (p : pystr) :
  names_of (with_names d p).
Proof.
  exists p. unfold Calls.with_names. repeat split; now dict_simpl.
Qed.

Lemma agree_with_names (d0 d : dict) (p : pystr) :
  agree_but_names d0 d -> agree_but_names d0 (with_names d p).
Proof.
  intros H k K1 K2 K3. unfold Calls.with_names.
  rewrite !dict_get_set_other
    by (apply str_eqb_neq; intros E; symmetry in E; contradiction).
  now apply H.
Qed.

Lemma generate_graph_names (d0 : dict) (index : nat) (abs_fpath : value)
    (module_name : pystr) :
  preserves (agree_but_names d0)
    (fun tr : list event =>
       Forall (fun call : pystr * dict =>
                 names_of (snd call) /\ agree_but_names d0 (snd call))
              (generate_calls tr))
    (generate_graph index abs_fpath module_name).
Proof.
  intros d Hd.
  destruct (generate_graph_outcome index abs_fpath module_name d)
    as [(H1 & _ & [e He])|(p & -> & H1 & H2)]; rewrite H1.
  - split; [constructor|]. intros a d'. rewrite He. discriminate.
  - split.
    + constructor; [|constructor]. simpl.
      split; [apply names_of_with_names|now apply agree_with_names].
    + intros a d' Hr. destruct H2 as [[_ [e He]]|[_ Hret]]; [congruence|].
      rewrite Hret in Hr. inversion Hr. now apply agree_with_names.
Qed.

(** X11.  [generate_graphs] works on the dictionary of its caller and
    assigns three keys of it for each file, and nothing else: every call
    of [generate] gets the path of a file, its base name and the cleaned
    base name of that same file, and otherwise the entries the caller
    gave; and when the run returns, the entries of the caller are as
    they were, but for these three keys. *)
Theorem generate_is_called_with_the_names_of_one_file (d : dict) :
  (forall module_name kwargs,
      In (module_name, kwargs) (generate_calls (fst (generate_graphs d))) ->
      names_of kwargs /\ agree_but_names d kwargs)
  /\ (forall d', snd (generate_graphs d) = inr (tt, d') ->
                 agree_but_names d d').
Proof.
  set (Q := fun tr : list event =>
              Forall (fun call : pystr * dict =>
                        names_of (snd call) /\ agree_but_names d (snd call))
                     (generate_calls tr)).
  assert (Hnil : Q []) by constructor.
  assert (Happ : forall tr1 tr2, Q tr1 -> Q tr2 -> Q (tr1 ++ tr2)).
  { unfold Q. intros tr1 tr2 H1 H2. rewrite generate_calls_app.
    apply Forall_app. now split. }
  assert (H : preserves (agree_but_names d) Q generate_graphs).
  { unfold Driver.generate_graphs, log.
    repeat first
      [apply generate_graph_names
      |preserves_step (agree_but_names d) Q Hnil Happ];
      constructor. }
  destruct (H d) as [Hq Hi]; [now intros k _ _ _|].
  split.
  - intros module_name kwargs Hin. unfold Q in Hq.
    rewrite Forall_forall in Hq. exact (Hq _ Hin).
  - intros d'. apply Hi.
Qed.

(** *** The order of the calls *)

Section Observes.

Variable X : Type.
Variable obs : list event -> list X.
Hypothesis obs_app : forall tr1 tr2, obs (tr1 ++ tr2) = obs tr1 ++ obs tr2.

Lemma observes_bind {A B} (m : M A) (f : A -> M B) (d : dict)
    (e1 e2 : list X) :
  observes obs (m d) e1 ->
  (forall a d', observes obs (f a d') e2) ->
  observes obs (bind m f d) (e1 ++ e2).
Proof using Type obs_app.
  intros [rest1 [Hw1 Hr1]] Hf. unfold bind.
  destruct (m d) as [evs [e|[a d1]]]; simpl in *.
  - exists (rest1 ++ e2). split; [|discriminate].
    simpl. now rewrite app_assoc, Hw1.
  - rewrite (Hr1 a d1 eq_refl), app_nil_r in Hw1.
    destruct (Hf a d1) as [rest2 [Hw2 Hr2]].
    destruct (f a d1) as [evs' r]; simpl in *.
    exists rest2. split; [|exact Hr2].
    simpl. now rewrite obs_app, <- app_assoc, Hw1, Hw2.
Qed.

Lemma observes_for_each {A} (l : list A) (body : A -> M unit)
    (expected : A -> list X) (d : dict) :
  (forall x d', observes obs (body x d') (expected x)) ->
  observes obs (for_each l body d) (flat_map expected l).
Proof using Type obs_app.
  intros Hb. revert d. induction l as [|x l IH]; intros d; simpl.
  - exists []. split; [|reflexivity]. simpl. rewrite app_nil_r.
    pose proof (obs_app [] []) as H. simpl in H.
    destruct (obs []); [reflexivity|].
    apply (f_equal (@List.length X)) in H. rewrite length_app in H.
    simpl in H. lia.
  - apply observes_bind; [apply Hb|intros _ d'; apply IH].
Qed.

End Observes.

Lemma call_targets_app (tr1 tr2 : list event) :
  call_targets (tr1 ++ tr2) = call_targets tr1 ++ call_targets tr2.
Proof. unfold call_targets. now rewrite generate_calls_app, map_app. Qed.

Lemma generate_graph_targets (index : nat) (abs_fpath : value)
    (module_name : pystr) (d : dict) :
  observes call_targets (generate_graph index abs_fpath module_name d)
           [(module_name, Some abs_fpath)].
Proof.
  destruct (generate_graph_outcome index abs_fpath module_name d)
    as [(H1 & _ & [e He])|(p & -> & H1 & H2)].
  - exists [(module_name, Some abs_fpath)]. unfold call_targets.
    rewrite H1. split; [reflexivity|]. intros a d'. rewrite He.
    discriminate.
  - exists []. unfold call_targets. rewrite H1. split; [|reflexivity].
    simpl. unfold Calls.with_names. now dict_simpl.
Qed.

(** X12.  The calls of [generate] follow the two loops: file by file in
    the order of [files], and for each file the selected graph modules
    in their order, one call for each pair; a run that raises has made
    the calls up to some pair, and a run that returns has made them
    all. *)
Theorem generate_calls_follow_the_loops (d : dict)
    (graphtypes : list pystr) (files : value) (items : list value) :
  select_graphtypes d = inr graphtypes ->
  dict_get d (py "files") = Some files ->
  iter files = inr items ->
  exists rest,
    call_targets (fst (generate_graphs d)) ++ rest
    = flat_map (fun abs_fpath =>
                  map (fun module_name => (module_name, Some abs_fpath))
                      graphtypes)
               items
    /\ forall d', snd (generate_graphs d) = inr (tt, d') -> rest = [].
Proof.
  intros Hg Hf Hi. unfold Driver.generate_graphs.
  rewrite run_get_args. cbv beta. rewrite run_log. cbv beta.
  rewrite Hg, run_lift, run_log. cbv beta.
  rewrite (run_lookup _ _ _ _ Hf). cbv beta. rewrite Hi, run_lift.
  simpl fst. simpl snd.
  assert (H : forall start d0,
             observes call_targets
               (for_each (enumerate_from start items)
                  (fun '(index, abs_fpath) =>
                     log DEBUG (Processing abs_fpath) ;;;
                     for_each graphtypes (generate_graph index abs_fpath))
                  d0)
               (flat_map (fun abs_fpath =>
                            map (fun module_name =>
                                   (module_name, Some abs_fpath))
                                graphtypes)
                         items)).
  { clear Hf Hi. induction items as [|f items IH]; intros start d0.
    - exists []. now split.
    - simpl. apply (observes_bind _ _ call_targets_app).
      + rewrite run_log.
        pose proof (observes_for_each _ _ call_targets_app graphtypes
                      (generate_graph start f)
                      (fun module_name => [(module_name, Some f)]) d0
                      (fun m d' => generate_graph_targets start f m d'))
          as H.
        replace (flat_map (fun module_name => [(module_name, Some f)])
                          graphtypes)
          with (map (fun module_name => (module_name, Some f)) graphtypes)
          in H by (clear; induction graphtypes; simpl; congruence).
        exact H.
      + intros _ d'. apply IH. }
  destruct (H 0%nat d) as [rest [Hw Hr]]. exists rest. split.
  - exact Hw.
  - intros d'. apply Hr.
Qed.

(** *** The release of the figures *)

Lemma balanced_bind {A B} (m : M A) (f : A -> M B) (d : dict) :
  balanced (m d) -> (forall a d', balanced (f a d')) ->
  balanced (bind m f d).
Proof.
  intros Hm Hf. unfold balanced, bind in *.
  destruct (m d) as [evs [e|[a d1]]]; simpl in *; [exact Hm|].
  specialize (Hf a d1). destruct (f a d1) as [evs' r]. simpl in *.
  rewrite generate_calls_app, closes_app, length_app.
  destruct r; lia.
Qed.

Lemma balanced_quiet {A} (run : list event * (exn + A * dict)) :
  generate_calls (fst run) = [] -> closes (fst run) = 0%nat ->
  balanced run.
Proof.
  intros H1 H2. unfold balanced. rewrite H1, H2.
  destruct (snd run); simpl; auto.
Qed.

Lemma balanced_for_each {A} (l : list A) (body : A -> M unit) (d : dict) :
  (forall x d', balanced (body x d')) -> balanced (for_each l body d).
Proof.
  intros Hb. revert d. induction l as [|x l IH]; intros d; simpl.
  - now apply balanced_quiet.
  - apply balanced_bind; [apply Hb|intros _ d'; apply IH].
Qed.

Lemma generate_graph_balanced (index : nat) (abs_fpath : value)
    (module_name : pystr) (d : dict) :
  balanced (generate_graph index abs_fpath module_name d).
Proof.
  unfold balanced.
  destruct (generate_graph_outcome index abs_fpath module_name d)
    as [(H1 & H2 & [e He])|(p & _ & H1 & [[H2 [e He]]|[H2 Hr]])];
    rewrite H1, H2; [rewrite He|rewrite He|rewrite Hr]; simpl; auto.
Qed.

Ltac balanced_prim :=
  apply balanced_quiet;
  unfold lookup, lift, store, get_args, log, emit, ret, raise;
  repeat match goal with
         | |- context [match ?x with _ => _ end] => destruct x
         end;
  reflexivity.

(** X13.  The figure is released at the end of each pass of the inner
    loop and nowhere else: in a run that returns it was released once
    for every call of [generate]; in a run that raises, once for every
    call but possibly the last one, whose figure is then left as it
    is. *)
Theorem figures_are_released_pair_by_pair (d : dict) :
  (forall d', snd (generate_graphs d) = inr (tt, d') ->
     closes (fst (generate_graphs d))
     = List.length (generate_calls (fst (generate_graphs d))))
  /\ (forall e, snd (generate_graphs d) = inl e ->
        closes (fst (generate_graphs d))
        = List.length (generate_calls (fst (generate_graphs d)))
        \/ S (closes (fst (generate_graphs d)))
           = List.length (generate_calls (fst (generate_graphs d)))).
Proof.
  assert (H : balanced (generate_graphs d)).
  { unfold Driver.generate_graphs.
    repeat first
      [apply generate_graph_balanced
      |apply balanced_for_each; intros ? ?
      |apply balanced_bind; [balanced_prim|intros ? ?]
      |match goal with
       | |- balanced ((match ?t with (_, _) => _ end) _) => destruct t
       end]. }
  unfold balanced in H. split.
  - intros d' Hr. rewrite Hr in H. now symmetry.
  - intros e He. rewrite He in H. destruct H as [H|H]; [left|right];
      now symmetry.
Qed.

(** ** More on names *)

Lemma py_inj (s t : string) : py s = py t -> s = t.
Proof.
  unused.
  unfold py. intros H. apply (f_equal (map ascii_of_N)) in H.
  rewrite !map_map in H.
  rewrite !(map_ext _ (fun a => a) ascii_N_embedding), !map_id in H.
  apply (f_equal string_of_list_ascii) in H.
  now rewrite !string_of_list_ascii_of_string in H.
Qed.

Lemma to_int_proper (z : Z) :
  Z.to_int z <> Decimal.Pos Decimal.Nil
  /\ Z.to_int z <> Decimal.Neg Decimal.Nil.
Proof.
  unused.
  destruct z as [|p|p]; simpl; split; try discriminate;
    intros [= E]; exact (DecimalPos.Unsigned.to_uint_nonnil p E).
Qed.

(** [str] of an [int] tells the numbers apart. *)
Lemma of_int_inj (i j : Z) : Str.of_int i = Str.of_int j -> i = j.
Proof.
  unused.
  unfold Str.of_int. intros H. apply py_inj in H.
  destruct (to_int_proper i) as [Hi1 Hi2].
  destruct (to_int_proper j) as [Hj1 Hj2].
  pose proof (NilZero.isi _ Hi1 Hi2) as Ei.
  pose proof (NilZero.isi _ Hj1 Hj2) as Ej.
  rewrite H, Ej in Ei. injection Ei as E.
  rewrite <- (DecimalZ.of_to i), <- (DecimalZ.of_to j). now rewrite E.
Qed.

Lemma uint_digits (d : Decimal.uint) :
  Forall (fun c => 48 <= c /\ c <= 57) (py (NilEmpty.string_of_uint d)).
Proof.
  unused.
  induction d; simpl; constructor; try assumption; simpl; lia.
Qed.

(** [str] of a number that is not negative: digits, and at least one. *)
Lemma of_int_digits (z : Z) :
  (0 <= z)%Z ->
  exists c rest,
    Str.of_int z = c :: rest
    /\ Forall (fun c => 48 <= c /\ c <= 57) (c :: rest).
Proof.
  unused.
  intros Hz. unfold Str.of_int.
  destruct z as [|p|p]; [| |lia].
  - exists 48, []. split; [reflexivity|]. constructor; [lia|constructor].
  - simpl Z.to_int. unfold NilZero.string_of_int, NilZero.string_of_uint.
    pose proof (uint_digits (Pos.to_uint p)) as Hd.
    pose proof (DecimalPos.Unsigned.to_uint_nonnil p) as Hn.
    destruct (Pos.to_uint p) eqn:E; [now elim Hn| | | | | | | | | |];
      simpl in *; eexists; eexists; (split; [reflexivity|exact Hd]).
Qed.

Lemma app_sep_inj (c : N) (a b rest_a rest_b : pystr) :
  ~ In c a -> ~ In c b ->
  a ++ c :: rest_a = b ++ c :: rest_b -> a = b.
Proof.
  unused.
  revert b. induction a as [|x a IH]; intros [|y b] Ha Hb H;
    simpl in *; try reflexivity.
  - injection H as -> _. tauto.
  - injection H as -> _. tauto.
  - injection H as -> H. f_equal. apply IH; tauto.
Qed.

Lemma join_inj (a x y : pystr) :
  Str.startswith x [Path.sep] = Str.startswith y [Path.sep] ->
  Path.join a x = Path.join a y -> x = y.
Proof.
  unused.
  unfold Path.join. intros <-.
  destruct (Str.startswith x [Path.sep]); [easy|].
  destruct (match a with [] => true | _ :: _ => Str.endswith a [Path.sep] end);
    intros H; apply app_inv_head in H; [exact H|].
  now apply app_inv_head in H.
Qed.

(** X14.  The index tells the artifacts of the files of a run apart:
    under one save directory and one prefix, names built for different
    positions in [files] are different, whatever the files, the graph
    types and the formats are. *)
Theorem indexed_names_differ (ffrmt ffrmt' abs_fpath abs_fpath' : pystr)
    (abs_save_path : pystr) (save_prefix : option pystr)
    (graphtype graphtype' : pystr) (i j : Z) :
  (forall p, save_prefix = Some p -> brace_free p) ->
  brace_free graphtype -> brace_free graphtype' ->
  (0 <= i)%Z -> (0 <= j)%Z ->
  fst (fst (gen_names ffrmt abs_fpath abs_save_path save_prefix
                      graphtype (Some i)))
  = fst (fst (gen_names ffrmt' abs_fpath' abs_save_path save_prefix
                        graphtype' (Some j))) ->
  i = j.
Proof.
  intros Hp Hg Hg' Hi Hj.
  rewrite !gen_names_layout by assumption. simpl fst.
  unfold save_fname_layout. fold (prefix_segment save_prefix).
  destruct (of_int_digits i Hi) as (ci & ri & Ei & Di).
  destruct (of_int_digits j Hj) as (cj & rj & Ej & Dj).
  intros H. apply join_inj in H.
  - apply app_inv_head in H. rewrite <- !app_assoc in H.
    apply of_int_inj. apply (app_sep_inj 45) in H; [exact H| |].
    + rewrite Ei. intros Hin. rewrite Forall_forall in Di.
      specialize (Di _ Hin). lia.
    + rewrite Ej. intros Hin. rewrite Forall_forall in Dj.
      specialize (Dj _ Hin). lia.
  - apply Forall_inv in Di, Dj. cbv beta in Di, Dj.
    destruct save_prefix as [[|c p]|]; simpl prefix_segment;
      try reflexivity; rewrite Ei, Ej; cbn [app Str.startswith];
      destruct (N.eqb_spec Path.sep ci) as [Hc|Hc];
      destruct (N.eqb_spec Path.sep cj) as [Hc'|Hc'];
      unfold Path.sep in *; try reflexivity; lia.
Qed.

(** X15.  The save directory holds for a file name that is not
    absolute only: with a prefix that begins with a separator, the path
    [gen_names] gives is the file name itself, and the save directory
    plays no part in it. *)
Theorem prefix_with_leading_separator_leaves_save_dir
    (ffrmt abs_fpath abs_save_path : pystr) (prefix : pystr)
    (graphtype : pystr) (findex : option Z) :
  Str.startswith prefix [Path.sep] = true ->
  brace_free prefix -> brace_free graphtype ->
  fst (fst (gen_names ffrmt abs_fpath abs_save_path (Some prefix)
                      graphtype findex))
  = save_fname_layout (Some prefix) findex graphtype
                      (clean_fname (Path.basename abs_fpath)) ffrmt.
Proof.
  intros Hs Hp Hg.
  rewrite gen_names_layout; [|now intros p [= <-]|assumption].
  simpl fst. destruct prefix as [|c p]; [discriminate|].
  unfold Path.join, save_fname_layout.
  change (Str.startswith (((c :: p) ++ py "-") ++ _) [Path.sep])
    with (Str.startswith (c :: p) [Path.sep]).
  now rewrite Hs.
Qed.

(** ** The table of graph modules *)



(** ** The components of a path *)

Lemma rfind_from_none (c : N) (s : pystr) (i best : Z) :
  ~ In c s -> Str.rfind_from c s i best = best.
Proof.
  unused.
  revert i best. induction s as [|x s IH]; intros i best H;
    [reflexivity|].
  simpl. destruct (N.eqb_spec x c) as [->|Hx].
  - exfalso. apply H. now left.
  - apply IH. intros Hin. apply H. now right.
Qed.

Lemma rfind_from_app (c : N) (a s : pystr) (i best : Z) :
  Str.rfind_from c (a ++ s) i best
  = Str.rfind_from c s (i + Z.of_nat (List.length a))%Z
                   (Str.rfind_from c a i best).
Proof.
  unused.
  revert i best. induction a as [|x a IH]; intros i best.
  - simpl. now rewrite Z.add_0_r.
  - simpl app. simpl Str.rfind_from at 1 3. rewrite IH. f_equal.
    simpl List.length. lia.
Qed.

Lemma rfind_from_bound (c : N) (s : pystr) (i best : Z) :
  Str.rfind_from c s i best = best
  \/ (i <= Str.rfind_from c s i best
      < i + Z.of_nat (List.length s))%Z.
Proof.
  unused.
  revert i best. induction s as [|x s IH]; intros i best;
    [now left|].
  simpl Str.rfind_from. simpl List.length.
  destruct (IH (i + 1)%Z (if x =? c then i else best)) as [H|H].
  - rewrite H. destruct (x =? c); [right; lia|now left].
  - right. lia.
Qed.

Lemma rfind_bound (s : pystr) (c : N) :
  (-1 <= Str.rfind s c < Z.of_nat (List.length s))%Z.
Proof.
  unused.
  unfold Str.rfind.
  destruct (rfind_from_bound c s 0 (-1)) as [H|H]; lia.
Qed.

(** The last [c] of a string. *)
Lemma rfind_last (a b : pystr) (c : N) :
  ~ In c b -> Str.rfind (a ++ c :: b) c = Z.of_nat (List.length a).
Proof.
  unused.
  intros H. unfold Str.rfind. rewrite rfind_from_app.
  simpl Str.rfind_from. rewrite N.eqb_refl.
  now rewrite rfind_from_none.
Qed.

Lemma rfind_app_none (a b : pystr) (c : N) :
  ~ In c b -> Str.rfind (a ++ b) c = Str.rfind a c.
Proof.
  unused.
  intros H. unfold Str.rfind. rewrite rfind_from_app.
  now apply rfind_from_none.
Qed.

Lemma firstn_exact {A} (a b : list A) : firstn (List.length a) (a ++ b) = a.
Proof.
  unused.
  induction a as [|x a IH]; simpl; [reflexivity|now rewrite IH].
Qed.

Lemma skipn_exact {A} (a b : list A) : skipn (List.length a) (a ++ b) = b.
Proof.
  unused.
  induction a as [|x a IH]; simpl; [reflexivity|exact IH].
Qed.

Lemma basename_no_sep (b : pystr) :
  ~ In Path.sep b -> Path.basename b = b.
Proof.
  unused.
  intros H. unfold Path.basename.
  pose proof (rfind_app_none [] b Path.sep H) as E. simpl in E.
  rewrite E. reflexivity.
Qed.

Lemma basename_after_sep (a b : pystr) :
  ~ In Path.sep b -> Path.basename (a ++ Path.sep :: b) = b.
Proof.
  unused.
  intros H. unfold Path.basename. rewrite (rfind_last a b Path.sep H).
  unfold Str.slice_from.
  replace (Z.to_nat (Z.of_nat (List.length a) + 1))
    with (List.length (a ++ [Path.sep]))
    by (rewrite length_app; simpl; lia).
  replace (a ++ Path.sep :: b) with ((a ++ [Path.sep]) ++ b)
    by now rewrite <- app_assoc.
  apply skipn_exact.
Qed.

Lemma endswith_sep (a : pystr) :
  Str.endswith a [Path.sep] = true -> exists a', a = a' ++ [Path.sep].
Proof.
  unused.
  unfold Str.endswith. intros H.
  destruct (rev a) as [|x r] eqn:E; [discriminate|].
  cbn [rev app Str.startswith] in H.
  apply andb_true_iff in H. destruct H as [H _].
  apply N.eqb_eq in H. subst x. exists (rev r).
  rewrite <- (rev_involutive a), E. reflexivity.
Qed.

Lemma startswith_sep_In (b : pystr) :
  ~ In Path.sep b -> Str.startswith b [Path.sep] = false.
Proof.
  unused.
  destruct b as [|x b]; [reflexivity|]. intros H.
  cbn [Str.startswith].
  destruct (N.eqb_spec Path.sep x) as [<-|]; [|reflexivity].
  exfalso. apply H. now left.
Qed.

(** A name without a separator is joined to the directory as its last
    component. *)
Lemma join_no_sep (a b : pystr) :
  ~ In Path.sep b ->
  (exists s, Path.join a b = a ++ s ++ b /\ (s = [] \/ s = [Path.sep]))
  /\ Path.basename (Path.join a b) = b.
Proof.
  unused.
  intros H. unfold Path.join. rewrite (startswith_sep_In b H).
  destruct a as [|x a].
  - split; [exists []; auto|]. now apply basename_no_sep.
  - destruct (Str.endswith (x :: a) [Path.sep]) eqn:E.
    + split; [exists []; auto|].
      apply endswith_sep in E. destruct E as [a' ->].
      rewrite <- app_assoc. now apply basename_after_sep.
    + split; [exists [Path.sep]; auto|].
      now apply basename_after_sep.
Qed.

Lemma of_int_chars (z : Z) :
  Forall (fun c => c = 45 \/ (48 <= c /\ c <= 57)) (Str.of_int z).
Proof.
  unused.
  assert (Hu : forall d,
             Forall (fun c => c = 45 \/ (48 <= c /\ c <= 57))
                    (py (NilEmpty.string_of_uint d))).
  { intros d. eapply Forall_impl; [|apply uint_digits].
    cbv beta. intros c Hc. now right. }
  assert (Hz : forall d,
             Forall (fun c => c = 45 \/ (48 <= c /\ c <= 57))
                    (py (NilZero.string_of_uint d))).
  { intros d. unfold NilZero.string_of_uint.
    destruct d; try apply Hu.
    change (py "0") with [48]. constructor; [right; lia|constructor]. }
  unfold Str.of_int, NilZero.string_of_int.
  destruct (Z.to_int z) as [d|d]; [apply Hz|].
  change (py (String "-" (NilZero.string_of_uint d)))
    with (45 :: py (NilZero.string_of_uint d)).
  constructor; [now left|apply Hz].
Qed.

Lemma of_int_no_sep (z : Z) : ~ In Path.sep (Str.of_int z).
Proof.
  unused.
  intros H. pose proof (of_int_chars z) as Hc.
  rewrite Forall_forall in Hc. specialize (Hc _ H).
  unfold Path.sep in Hc. lia.
Qed.

Lemma clean_fname_without (fn : pystr) (c : N) :
  isalnum c = false -> ~ In c (clean_fname fn).
Proof.
  intros Hc. rewrite clean_fname_filter. intros H.
  apply filter_In in H. destruct H as [_ H]. congruence.
Qed.

Lemma not_in_app (c : N) (a b : pystr) :
  ~ In c a -> ~ In c b -> ~ In c (a ++ b).
Proof.
  unused.
  intros Ha Hb H. apply in_app_or in H. tauto.
Qed.

Lemma not_in_literal (c : N) (s : pystr) :
  forallb (fun x => negb (x =? c)) s = true -> ~ In c s.
Proof.
  unused.
  intros H Hin. rewrite forallb_forall in H. specialize (H _ Hin).
  now rewrite N.eqb_refl in H.
Qed.

(** The part of the file name after the graph type. *)
Lemma layout_tail_no_sep (findex : option Z) (cleaned ffrmt : pystr) :
  ~ In Path.sep cleaned -> ~ In Path.sep ffrmt ->
  ~ In Path.sep
      (match findex with Some _ => py "-" ++ cleaned | None => [] end
       ++ py "." ++ ffrmt).
Proof.
  unused.
  intros Hc Hf. apply not_in_app.
  - destruct findex; [|easy].
    apply not_in_app; [now apply not_in_literal|exact Hc].
  - apply not_in_app; [now apply not_in_literal|exact Hf].
Qed.

(** X17.  A prefix, a graph type and a format without a separator give
    a file name without one: the artifact lies in the save directory
    itself, and nothing of the directories of the input file is part of
    its path. *)
Theorem artifacts_lie_in_the_save_directory
    (ffrmt abs_fpath abs_save_path : pystr) (save_prefix : option pystr)
    (graphtype : pystr) (findex : option Z) :
  (forall p, save_prefix = Some p -> brace_free p /\ ~ In Path.sep p) ->
  brace_free graphtype -> ~ In Path.sep graphtype ->
  ~ In Path.sep ffrmt ->
  let save_fname :=
    save_fname_layout save_prefix findex graphtype
                      (clean_fname (Path.basename abs_fpath)) ffrmt in
  let abs_save_fpath :=
    fst (fst (gen_names ffrmt abs_fpath abs_save_path save_prefix
                        graphtype findex)) in
  (exists s, abs_save_fpath = abs_save_path ++ s ++ save_fname
             /\ (s = [] \/ s = [Path.sep]))
  /\ Path.basename abs_save_fpath = save_fname.
Proof.
  intros Hp Hg Hgs Hf save_fname abs_save_fpath.
  unfold abs_save_fpath.
  rewrite gen_names_layout; [|intros p E; now apply Hp|assumption].
  simpl fst. fold save_fname. apply join_no_sep.
  unfold save_fname, save_fname_layout.
  assert (Hc : ~ In Path.sep (clean_fname (Path.basename abs_fpath)))
    by now apply clean_fname_without.
  repeat apply not_in_app.
  - destruct save_prefix as [[|c p]|]; try easy.
    apply not_in_app; [now apply Hp|now apply not_in_literal].
  - destruct findex as [i|]; [|easy].
    apply not_in_app; [apply of_int_no_sep|now apply not_in_literal].
  - exact Hgs.
  - destruct findex; [|easy].
    apply not_in_app; [now apply not_in_literal|exact Hc].
  - now apply not_in_literal.
  - exact Hf.
Qed.

(** ** The extension of a path *)

(** The scan of [splitext] stops at a character of the last component
    that is not a dot. *)
Lemma splitext_scan_finds (pre : pystr) (x : N) (rest : pystr) (dot : Z)
    (n : nat) (filenameIndex : Z) :
  x <> Path.extsep ->
  (0 <= filenameIndex)%Z ->
  (Z.to_nat filenameIndex <= List.length pre)%nat ->
  (Z.of_nat (List.length pre) < dot)%Z ->
  (List.length pre - Z.to_nat filenameIndex < n)%nat ->
  Path.splitext_scan (pre ++ x :: rest) dot n filenameIndex
  = (Str.slice_to (pre ++ x :: rest) dot,
     Str.slice_from (pre ++ x :: rest) dot).
Proof.
  unused.
  intros Hx. revert filenameIndex.
  induction n as [|n IH]; intros fi H0 Hle Hdot Hn; [lia|].
  cbn [Path.splitext_scan].
  assert (Hlt : (fi <? dot)%Z = true) by (apply Z.ltb_lt; lia).
  rewrite Hlt.
  destruct (negb (str_eqb (firstn 1 (Str.slice_from (pre ++ x :: rest) fi))
                          [Path.extsep])) eqn:E; [reflexivity|].
  destruct (Nat.eq_dec (Z.to_nat fi) (List.length pre)) as [Eq|Ne].
  - exfalso. unfold Str.slice_from in E. rewrite Eq, skipn_exact in E.
    cbn [firstn] in E. rewrite str_eqb_neq in E; [discriminate|].
    intros [= Ex]. now apply Hx.
  - apply IH; lia.
Qed.

Lemma splitext_stem (pre : pystr) (x : N) (mid ext : pystr) :
  x <> Path.extsep -> x <> Path.sep ->
  ~ In Path.sep mid -> ~ In Path.sep ext -> ~ In Path.extsep ext ->
  Path.splitext (pre ++ x :: mid ++ Path.extsep :: ext)
  = (pre ++ x :: mid, Path.extsep :: ext).
Proof.
  unused.
  intros Hxd Hxs Hms Hes Hed.
  assert (Ep : pre ++ x :: mid ++ Path.extsep :: ext
               = (pre ++ x :: mid) ++ Path.extsep :: ext)
    by now rewrite <- app_assoc.
  assert (Edot : Str.rfind (pre ++ x :: mid ++ Path.extsep :: ext)
                           Path.extsep
                 = Z.of_nat (List.length (pre ++ x :: mid)))
    by (rewrite Ep; now apply rfind_last).
  assert (Esep : Str.rfind (pre ++ x :: mid ++ Path.extsep :: ext) Path.sep
                 = Str.rfind pre Path.sep).
  { apply rfind_app_none. intros [H|H]; [now apply Hxs|].
    apply in_app_or in H. destruct H as [H|[H|H]];
      [now apply Hms|discriminate H|now apply Hes]. }
  pose proof (rfind_bound pre Path.sep) as Hb.
  assert (Hlen : List.length (pre ++ x :: mid)
                 = (List.length pre + S (List.length mid))%nat)
    by (rewrite length_app; reflexivity).
  unfold Path.splitext. cbv zeta. rewrite Edot, Esep.
  assert (Hlt : (Str.rfind pre Path.sep
                 <? Z.of_nat (List.length (pre ++ x :: mid)))%Z = true)
    by (apply Z.ltb_lt; lia).
  rewrite Hlt.
  rewrite splitext_scan_finds; try assumption; try lia.
  - unfold Str.slice_to, Str.slice_from. rewrite Nat2Z.id, Ep.
    now rewrite firstn_exact, skipn_exact.
  - rewrite length_app. simpl List.length. lia.
Qed.

Lemma join_suffix (a b : pystr) : exists d, Path.join a b = d ++ b.
Proof.
  unused.
  unfold Path.join. destruct (Str.startswith b [Path.sep]).
  - now exists [].
  - destruct (match a with [] => true | _ :: _ => Str.endswith a [Path.sep] end).
    + now exists a.
    + exists (a ++ [Path.sep]). now rewrite <- app_assoc.
Qed.

(** X18.  In JSON mode the artifact has the path of the image with
    [.json] in the place of the format: [splitext] cuts the path at the
    dot before the format, for a format without a dot and without a
    separator, and a graph type without a separator that is not made of
    dots only. *)
Theorem json_artifact_keeps_the_stem
    (ffrmt abs_fpath abs_save_path : pystr) (save_prefix : option pystr)
    (graphtype : pystr) (findex : option Z) :
  (forall p, save_prefix = Some p -> brace_free p) ->
  brace_free graphtype -> ~ In Path.sep graphtype ->
  (exists x, In x graphtype /\ x <> Path.extsep) ->
  ~ In Path.sep ffrmt -> ~ In Path.extsep ffrmt ->
  exists stem,
    fst (fst (gen_names ffrmt abs_fpath abs_save_path save_prefix
                        graphtype findex))
    = stem ++ py "." ++ ffrmt
    /\ artifact_path true
         (fst (fst (gen_names ffrmt abs_fpath abs_save_path save_prefix
                              graphtype findex)))
       = stem ++ py ".json".
Proof.
  intros Hp Hg Hgs [x [Hx Hxd]] Hfs Hfd.
  rewrite gen_names_layout by assumption. simpl fst.
  unfold artifact_path, save_fname_layout.
  set (seg := match save_prefix with
              | Some (c :: p) => (c :: p) ++ py "-"
              | _ => []
              end).
  set (cleaned := clean_fname (Path.basename abs_fpath)).
  set (idx := match findex with
              | Some i => Str.of_int i ++ py "-"
              | None => []
              end).
  set (tail := match findex with
               | Some _ => py "-" ++ cleaned
               | None => []
               end).
  destruct (join_suffix abs_save_path
              (seg ++ idx ++ graphtype ++ tail
               ++ py "." ++ ffrmt)) as [d Hd].
  rewrite Hd.
  exists (d ++ seg ++ idx ++ graphtype ++ tail).
  split; [now rewrite <- !app_assoc|].
  destruct (in_split x graphtype Hx) as [g1 [g2 Eg]].
  assert (Hxs : x <> Path.sep) by (intros ->; now apply Hgs).
  assert (Hts : ~ In Path.sep tail).
  { unfold tail. destruct findex; [|easy].
    apply not_in_app; [now apply not_in_literal|].
    now apply clean_fname_without. }
  assert (Hms : ~ In Path.sep (g2 ++ tail)).
  { apply not_in_app; [|exact Hts]. intros H. apply Hgs. rewrite Eg.
    apply in_or_app. right. now right. }
  replace (d ++ seg ++ idx ++ graphtype ++ tail
           ++ py "." ++ ffrmt)
    with ((d ++ seg ++ idx ++ g1)
          ++ x :: (g2 ++ tail) ++ Path.extsep :: ffrmt)
    by (rewrite Eg, <- !app_assoc; reflexivity).
  rewrite splitext_stem by assumption. simpl fst.
  rewrite Eg.
  repeat (rewrite <- app_assoc || rewrite <- app_comm_cons).
  reflexivity.
Qed.

(** ** The outputs of a run *)

Lemma shown_app (tr1 tr2 : list event) :
  shown (tr1 ++ tr2) = shown tr1 ++ shown tr2.
Proof.
  induction tr1 as [|[] tr1 IH]; simpl; now rewrite ?IH.
Qed.

Lemma logged_saves_app (tr1 tr2 : list event) :
  logged_saves (tr1 ++ tr2) = logged_saves tr1 ++ logged_saves tr2.
Proof.
  induction tr1 as [|[[l []]| | | |] tr1 IH]; simpl; now rewrite ?IH.
Qed.

Lemma saved_files_app (tr1 tr2 : list event) :
  saved_files (tr1 ++ tr2) = saved_files tr1 ++ saved_files tr2.
Proof.
  induction tr1 as [|[| | |path []|] tr1 IH]; simpl; now rewrite ?IH.
Qed.

Lemma left_behind_app (tr1 tr2 : list event) :
  left_behind (tr1 ++ tr2) = left_behind tr1 ++ left_behind tr2.
Proof.
  induction tr1 as [|[| | |path []|] tr1 IH]; simpl; now rewrite ?IH.
Qed.

Lemma outputs_app (tr1 tr2 : list event) :
  outputs (tr1 ++ tr2) = (outputs tr1 + outputs tr2)%nat.
Proof.
  unfold outputs. rewrite shown_app, saved_files_app, !length_app. lia.
Qed.

(** Every file of a trace was written to its end or left behind. *)
Lemma writes_saved_or_left (tr : list event) :
  List.length (writes tr)
  = (List.length (saved_files tr) + List.length (left_behind tr))%nat.
Proof.
  induction tr as [|[| | |path []|] tr IH]; simpl; lia.
Qed.

(** The output block: what it logs as saved is what it wrote to the
    end; it releases no figure; when it returns it gave one output and
    left nothing behind, and when it raises it gave none and left one
    file behind at most. *)
Lemma output_graph_outputs (fig : Figure) (save_kwargs : dict)
    (json_data : jvalue) (abs_save_fpath : pystr) (d : dict) :
  let run := output_graph fig save_kwargs json_data abs_save_fpath d in
  logged_saves (fst run) = saved_files (fst run)
  /\ closes (fst run) = 0%nat
  /\ ((outputs (fst run) = 1%nat /\ left_behind (fst run) = []
       /\ exists d', snd run = inr (tt, d'))
      \/ (outputs (fst run) = 0%nat
          /\ (List.length (left_behind (fst run)) <= 1)%nat
          /\ exists e, snd run = inl e)).
Proof.
  cbv zeta. unfold Driver.output_graph, log.
  repeat first
    [run_step
    |match goal with
     | |- context [(if truthy ?v then _ else _) _] => destruct (truthy v)
     end];
    simpl; (split; [reflexivity|]); (split; [reflexivity|]);
    solve [left; split; [reflexivity|split; [reflexivity|eauto]]
          |right; split; [reflexivity|split; [simpl; lia|eauto]]].
Qed.

Lemma after_generate_outputs (abs_save_fpath : pystr)
    (result : Figure * dict * jvalue) (d : dict) :
  let run :=
    (let '(fig, save_kwargs, json_data) := result in
     figsize <- lookup (py "figsize") ;;
     size <- lift (iter figsize) ;;
     let fig := tight_layout (set_size_inches fig size) in
     output_graph fig save_kwargs json_data abs_save_fpath ;;;
     emit Close) d in
  (logged_saves (fst run) = saved_files (fst run)
   /\ closes (fst run) = outputs (fst run))
  /\ tidy run.
Proof.
  destruct result as [[fig save_kwargs] json_data]. cbv zeta.
  do 2 (run_step; try solve [simpl; repeat split; unfold tidy; simpl; lia]).
  unfold bind.
  destruct (output_graph_outputs (tight_layout (set_size_inches fig l))
              save_kwargs json_data abs_save_fpath d) as (H1 & H2 & H3).
  cbv zeta in H1, H2, H3. unfold tidy.
  destruct (output_graph _ _ _ _ d) as [evs [e|[[] d1]]]; simpl in *.
  - destruct H3 as [(_ & _ & [d' H])|(H & Hl & _)]; [discriminate H|].
    rewrite H1, H2, H. repeat split. exact Hl.
  - rewrite logged_saves_app, saved_files_app, closes_app, outputs_app,
      left_behind_app.
    destruct H3 as [(H & Hl & _)|(_ & _ & [e H])]; [|discriminate H].
    rewrite H1, H2, H, Hl. simpl. repeat split.
Qed.

Lemma generate_graph_tail (index : nat) (abs_fpath : value)
    (module_name : pystr) (d : dict) :
  (logged_saves (fst (generate_graph index abs_fpath module_name d))
   = saved_files (fst (generate_graph index abs_fpath module_name d))
   /\ closes (fst (generate_graph index abs_fpath module_name d))
      = outputs (fst (generate_graph index abs_fpath module_name d)))
  /\ tidy (generate_graph index abs_fpath module_name d).
Proof.
  unfold Driver.generate_graph.
  do 6 (run_step; try solve [simpl; repeat split; unfold tidy; simpl; lia]).
  destruct p as [[path fname] cleaned].
  rewrite !run_store, run_get_args. cbv beta. rewrite run_emit. cbv beta.
  match goal with
  | |- context [lift (generate module_name ?kw)] =>
      destruct (generate module_name kw) as [e|result]
  end.
  { rewrite run_lift_raise. simpl. repeat split. unfold tidy. simpl. lia. }
  rewrite run_lift.
  match goal with
  | |- context [dict_set ?d0 (py "cleaned_fname") ?v] =>
      destruct (after_generate_outputs path result
                  (dict_set d0 (py "cleaned_fname") v)) as [[H1 H2] H3]
  end.
  cbv zeta in H1, H2, H3. unfold tidy in *. simpl fst. simpl snd.
  simpl logged_saves. simpl saved_files. simpl closes. simpl left_behind.
  unfold outputs in *. simpl shown. simpl saved_files.
  repeat split; assumption.
Qed.

Lemma generate_graph_outputs (index : nat) (abs_fpath : value)
    (module_name : pystr) :
  preserves any_dict
    (fun tr : list event =>
       logged_saves tr = saved_files tr /\ closes tr = outputs tr)
    (generate_graph index abs_fpath module_name).
Proof.
  intros d _. split; [|easy]. apply generate_graph_tail.
Qed.

Lemma generate_graphs_outputs (d : dict) :
  logged_saves (fst (generate_graphs d))
  = saved_files (fst (generate_graphs d))
  /\ closes (fst (generate_graphs d)) = outputs (fst (generate_graphs d)).
Proof.
  set (Q := fun tr : list event =>
              logged_saves tr = saved_files tr
              /\ closes tr = outputs tr).
  assert (Hnil : Q []) by (split; reflexivity).
  assert (Happ : forall tr1 tr2, Q tr1 -> Q tr2 -> Q (tr1 ++ tr2)).
  { unfold Q. intros tr1 tr2 [H1 H2] [H3 H4].
    rewrite logged_saves_app, saved_files_app, closes_app, outputs_app.
    now rewrite H1, H2, H3, H4. }
  assert (H : preserves any_dict Q generate_graphs).
  { unfold Driver.generate_graphs, log.
    repeat first
      [apply generate_graph_outputs
      |preserves_step any_dict Q Hnil Happ];
      split; reflexivity. }
  now apply H.
Qed.

Lemma tidy_bind {A B} (m : M A) (f : A -> M B) (d : dict) :
  tidy (m d) -> (forall a d', tidy (f a d')) -> tidy (bind m f d).
Proof.
  intros Hm Hf. unfold tidy, bind in *.
  destruct (m d) as [evs [e|[a d1]]]; simpl in *; [exact Hm|].
  specialize (Hf a d1). destruct (f a d1) as [evs' r]. simpl in *.
  rewrite left_behind_app, Hm. exact Hf.
Qed.

Lemma tidy_quiet {A} (run : list event * (exn + A * dict)) :
  left_behind (fst run) = [] -> tidy run.
Proof.
  intros H. unfold tidy. rewrite H. destruct (snd run); simpl; auto.
Qed.

Lemma tidy_for_each {A} (l : list A) (body : A -> M unit) (d : dict) :
  (forall x d', tidy (body x d')) -> tidy (for_each l body d).
Proof.
  intros Hb. revert d. induction l as [|x l IH]; intros d; simpl.
  - now apply tidy_quiet.
  - apply tidy_bind; [apply Hb|intros _ d'; apply IH].
Qed.

Ltac tidy_prim :=
  apply tidy_quiet;
  unfold lookup, lift, store, get_args, log, emit, ret, raise;
  repeat match goal with
         | |- context [match ?x with _ => _ end] => destruct x
         end;
  reflexivity.

Lemma generate_graphs_tidy (d : dict) : tidy (generate_graphs d).
Proof.
  unfold Driver.generate_graphs.
  repeat first
    [apply generate_graph_tail
    |apply tidy_for_each; intros ? ?
    |apply tidy_bind; [tidy_prim|intros ? ?]
    |match goal with
     | |- tidy ((match ?t with (_, _) => _ end) _) => destruct t
     end].
Qed.

(** X19.  What a run reports as saved is what it wrote to the end: the
    records [Graph saved to: ...] of a run, whether it returns or
    raises, name the files written completely, each once and in the
    order they were written; in JSON mode that is the path of the JSON
    document.  A file that a write left behind when it raised has no
    record; a run that returns left none behind, and a run that raises
    one at most. *)
Theorem saved_records_name_the_files_written (d : dict) :
  logged_saves (fst (generate_graphs d))
  = saved_files (fst (generate_graphs d))
  /\ List.length (writes (fst (generate_graphs d)))
     = (List.length (saved_files (fst (generate_graphs d)))
        + List.length (left_behind (fst (generate_graphs d))))%nat
  /\ (forall d', snd (generate_graphs d) = inr (tt, d') ->
                 left_behind (fst (generate_graphs d)) = [])
  /\ (List.length (left_behind (fst (generate_graphs d))) <= 1)%nat.
Proof.
  split; [apply generate_graphs_outputs|].
  split; [apply writes_saved_or_left|].
  pose proof (generate_graphs_tidy d) as H. unfold tidy in H. split.
  - intros d' Hr. now rewrite Hr in H.
  - destruct (snd (generate_graphs d)); [exact H|rewrite H; simpl; lia].
Qed.

(** X20.  Each pass of the inner loop that comes to its end gave one
    output, a figure shown or a file written to the end and never both,
    and a pass that raises gave none: in every run the figures shown
    and the files written to the end are together as many as the
    releases of the figure.  What a failing write left behind is not
    counted, and its figure is not released. *)
Theorem every_released_figure_was_shown_or_written (d : dict) :
  closes (fst (generate_graphs d))
  = (List.length (shown (fst (generate_graphs d)))
     + List.length (saved_files (fst (generate_graphs d))))%nat.
Proof. apply generate_graphs_outputs. Qed.

End Properties.

(** ** Names *)

(** C1, where the specification's layout fails: for a single file there
    is no index, and [gen_names] then leaves the cleaned name out as
    well. *)
Lemma gen_names_omits_name_without_index :
  gen_names ascii_only (py "png") (py "/tmp/a.exe") (py "/out") None
            (py "ent") None
  = (py "/out/ent.png", py "a.exe", py "aexe")
  /\ Path.join (py "/out")
       (spec_filename None None (py "ent") (py "aexe") (py "png"))
     = py "/out/ent-aexe.png"
  /\ fst (fst (gen_names ascii_only (py "png") (py "/tmp/a.exe") (py "/out")
                         None (py "ent") None))
     <> Path.join (py "/out")
          (spec_filename None None (py "ent") (py "aexe") (py "png")).
Proof.
  split; [|split]; vm_compute; [reflexivity|reflexivity|discriminate].
Qed.

(** The template is filled by substitution: a placeholder inside the
    prefix is substituted too, and an empty prefix counts as none. *)
Example gen_names_prefix_with_placeholder :
  fst (fst (gen_names ascii_only (py "png") (py "/tmp/a.exe") (py "/out")
                      (Some (py "{graphtype}")) (py "ent") (Some 0%Z)))
  = py "/out/ent-0-ent-aexe.png".
Proof. vm_compute. reflexivity. Qed.

Example gen_names_empty_prefix :
  fst (fst (gen_names ascii_only (py "png") (py "/tmp/a.exe") (py "/out")
                      (Some []) (py "ent") (Some 0%Z)))
  = py "/out/0-ent-aexe.png".
Proof. vm_compute. reflexivity. Qed.

Lemma output_names_layout_witness :
  ((forall p, Some (py "pre") = Some p -> brace_free p)
   /\ brace_free (py "ent")
   /\ gen_names ascii_only (py "png") (py "/in/b-c.bin") (py "/out")
                (Some (py "pre")) (py "ent") (Some 1%Z)
      = (py "/out/pre-1-ent-bcbin.png", py "b-c.bin", py "bcbin"))
  /\ (Str.startswith (py "pre-1-ent-bcbin.png") [Path.sep] = false
      /\ exists s,
           fst (fst (gen_names ascii_only (py "png") (py "/in/b-c.bin")
                               (py "/out") (Some (py "pre")) (py "ent")
                               (Some 1%Z)))
           = py "/out" ++ s ++ py "pre-1-ent-bcbin.png"
           /\ (s = [] \/ s = [Path.sep]))
  /\ (exists rest,
        map fst (writes (fst (demo_generate_graphs
                                (demo_args [py "/in/a.bin"; py "/in/b-c.bin"]
                                           false false 100))))
        ++ rest
        = [py "/out/0-ent-abin.png"; py "/out/1-ent-bcbin.png"]
        /\ rest = [])
  /\ (exists rest,
        map fst (writes (fst (demo_generate_graphs
                                (demo_args [py "/in/b-c.bin"]
                                           false false 100))))
        ++ rest
        = [py "/out/ent.png"]
        /\ rest = []).
Proof.
  destruct (output_names_layout ascii_only N demo_graphs demo_generate
              demo_set_size_inches demo_tight_layout demo_savefig demo_os)
    as (Hnames & Hjoin & Hrun & Hone).
  assert (Hp : forall p, Some (py "pre") = Some p -> brace_free p).
  { intros p [= <-]. vm_compute. intuition discriminate. }
  assert (Hg : brace_free (py "ent")).
  { vm_compute. intuition discriminate. }
  split; [|split; [|split]].
  - split; [exact Hp|]. split; [exact Hg|].
    rewrite (Hnames _ _ _ _ _ _ Hp Hg). vm_compute. reflexivity.
  - split; [reflexivity|].
    destruct (Hjoin (py "png") (py "/in/b-c.bin") (py "/out")
                    (Some (py "pre")) (py "ent") (Some 1%Z) Hp Hg)
      as [Hrel _].
    destruct Hrel as [s [Hs Hcases]]; [vm_compute; reflexivity|].
    exists s. split; [|exact Hcases].
    etransitivity; [exact Hs|]. vm_compute. reflexivity.
  - destruct (Hrun {| c_format := py "png"; c_save_dir := py "/out";
                      c_prefix := VNone;
                      c_files := [py "/in/a.bin"; py "/in/b-c.bin"];
                      c_showplt := VBool false; c_json := VBool false |}
                   [py "ent"]
                   (demo_args [py "/in/a.bin"; py "/in/b-c.bin"]
                              false false 100))
      as [rest [Hw Hr]].
    + repeat split.
    + reflexivity.
    + reflexivity.
    + exists rest. split.
      * etransitivity; [exact Hw|]. vm_compute. reflexivity.
      * eapply Hr. vm_compute. reflexivity.
  - destruct (Hone {| c_format := py "png"; c_save_dir := py "/out";
                      c_prefix := VNone;
                      c_files := [py "/in/b-c.bin"];
                      c_showplt := VBool false; c_json := VBool false |}
                   [py "ent"]
                   (demo_args [py "/in/b-c.bin"] false false 100)
                   (py "/in/b-c.bin"))
      as [rest [Hw Hr]].
    + repeat split.
    + reflexivity.
    + reflexivity.
    + reflexivity.
    + exists rest. split.
      * etransitivity; [exact Hw|]. vm_compute. reflexivity.
      * eapply Hr. vm_compute. reflexivity.
Defined.

(** ** A failing module *)

(** C2, where it fails: [generate] raises on the first of two files; the
    run raises without a call for the second file, which the module can
    read, and no file is written. *)
Lemma generate_failure_ends_the_run :
  let run := demo_generate_graphs
               (demo_args [py "/in/bad.bin"; py "/in/b.bin"] false false 100) in
  snd run = inl (Raised 1)
  /\ called_on (fst run) = [Some (VStr (py "/in/bad.bin"))]
  /\ writes (fst run) = []
  /\ demo_generate (py "ent") [(py "abs_fpath", VStr (py "/in/b.bin"))]
     = inr (9, [], JObject [(py "file", JString (py "/in/b.bin"))])
  /\ called_on (fst run)
     <> [Some (VStr (py "/in/bad.bin")); Some (VStr (py "/in/b.bin"))].
Proof.
  cbv zeta. split; [|split; [|split; [|split]]]; vm_compute;
    try reflexivity; discriminate.
Qed.

Lemma failed_generate_aborts_run_witness :
  let d := demo_args [py "/in/bad.bin"; py "/in/b.bin"] false false 100 in
  let kwargs :=
    dict_set (dict_set (dict_set d (py "abs_fpath") (VStr (py "/in/bad.bin")))
                       (py "fname") (VStr (py "bad.bin")))
             (py "cleaned_fname") (VStr (py "badbin")) in
  fst (demo_generate_graphs d)
  = firstn 3 (fst (demo_generate_graphs d))
    ++ Generate (py "ent") kwargs :: []
  /\ demo_generate (py "ent") kwargs = inl (Raised 1)
  /\ @nil (event N) = [] /\ snd (demo_generate_graphs d) = inl (Raised 1)
  /\ writes (fst (demo_generate_graphs d))
     = writes (firstn 3 (fst (demo_generate_graphs d)))
  /\ generate_calls (fst (demo_generate_graphs d))
     = generate_calls (firstn 3 (fst (demo_generate_graphs d)))
       ++ [(py "ent", kwargs)].
Proof.
  intros d kwargs.
  assert (H1 : fst (demo_generate_graphs d)
               = firstn 3 (fst (demo_generate_graphs d))
                 ++ Generate (py "ent") kwargs :: [])
    by (vm_compute; reflexivity).
  assert (H2 : demo_generate (py "ent") kwargs = inl (Raised 1))
    by (vm_compute; reflexivity).
  split; [exact H1|]. split; [exact H2|].
  exact (failed_generate_aborts_run ascii_only N demo_graphs demo_generate
           demo_set_size_inches demo_tight_layout demo_savefig demo_os
           d _ [] (py "ent") kwargs (Raised 1) H1 H2).
Defined.

(** ** No file to process *)



(** ** JSON and image files *)

Lemma json_graph_decodes_to_image_bytes_witness :
  let d_json := demo_args [py "/in/a.bin"] true false 100 in
  let d_file := demo_args [py "/in/a.bin"] false false 100 in
  let document :=
    [(py "info", JNull);
     (py "graph", JString (py "iVBORw=="));
     (py "cmdline",
      JString (py "files recurse prefix save_dir json showplt format figsize dpi graphtype"));
     (py "version", __version__)] in
  writes (fst (demo_output_graph 1 [] JNull (py "/out/ent.png") d_json))
  = [(py "/out/ent.json", Json document)]
  /\ exists graph buf,
       jget document (py "graph") = Some (JString graph)
       /\ Base64.b64decode graph = Some buf
       /\ plt_savefig N demo_savefig 1 Buffer (VStr (py "png")) (VInt 100) []
          = Saved buf
       /\ (forall data,
             writes (fst (demo_output_graph 1 [] JNull (py "/out/ent.png")
                                            d_file))
             = [(py "/out/ent.png", Image data)]
             <-> plt_savefig N demo_savefig 1 (File (py "/out/ent.png"))
                             (VStr (py "png")) (VInt 100) []
                 = Saved data)
       /\ (forall data,
             plt_savefig N demo_savefig 1 (File (py "/out/ent.png"))
                         (VStr (py "png")) (VInt 100) []
             = Saved data ->
             (Base64.b64decode graph = Some data
              <-> plt_savefig N demo_savefig 1 Buffer (VStr (py "png"))
                              (VInt 100) []
                  = plt_savefig N demo_savefig 1 (File (py "/out/ent.png"))
                                (VStr (py "png")) (VInt 100) [])).
Proof.
  intros d_json d_file document.
  assert (H : writes (fst (demo_output_graph 1 [] JNull (py "/out/ent.png")
                                             d_json))
              = [(py "/out/ent.json", Json document)])
    by (vm_compute; reflexivity).
  split; [exact H|].
  exact (json_graph_decodes_to_image_bytes N demo_savefig demo_os 1 []
           JNull JNull (py "/out/ent.png") d_json d_file
           (VBool false) (VBool false) (VBool true) (VBool false)
           (VStr (py "png")) (VInt 100) (py "/out/ent.json") document
           eq_refl eq_refl eq_refl eq_refl eq_refl eq_refl
           eq_refl eq_refl eq_refl eq_refl eq_refl eq_refl H).
Defined.

(** C4, where it fails: with a backend that writes the name of its file
    into the image, the [graph] member decodes to the bytes of the
    buffer, and they are not the bytes file mode writes for the same
    figure, format, dpi and save options. *)
Lemma json_graph_is_a_second_rendering :
  let d_json := demo_args [py "/in/a.bin"] true false 100 in
  let d_file := demo_args [py "/in/a.bin"] false false 100 in
  let document :=
    [(py "info", JNull);
     (py "graph", JString (py "iVBORw=="));
     (py "cmdline",
      JString (py "files recurse prefix save_dir json showplt format figsize dpi graphtype"));
     (py "version", __version__)] in
  writes (fst (output_graph N demo_savefig_titled demo_os 1 [] JNull
                            (py "/out/ent.png") d_json))
  = [(py "/out/ent.json", Json document)]
  /\ Base64.b64decode (py "iVBORw==") = Some demo_image
  /\ writes (fst (output_graph N demo_savefig_titled demo_os 1 [] JNull
                               (py "/out/ent.png") d_file))
     = [(py "/out/ent.png",
         Image (demo_image ++ title_bytes (py "/out/ent.png")))]
  /\ demo_image ++ title_bytes (py "/out/ent.png") <> demo_image.
Proof.
  cbv zeta. split; [vm_compute; reflexivity|].
  split; [vm_compute; reflexivity|].
  split; [vm_compute; reflexivity|].
  intros H. apply (f_equal (@List.length Byte.byte)) in H.
  vm_compute in H. discriminate H.
Qed.

(** C7, where the code misses it: [cmdline] is [" ".join(args_dict)],
    the keys of the dictionary and none of its values; two runs that
    differ in [dpi] write the same [cmdline]. *)
Theorem json_cmdline_is_the_key_names :
  let document (graph : pystr) :=
    Json [(py "info", JObject [(py "file", JString (py "/in/a.bin"))]);
          (py "graph", JString graph);
          (py "cmdline",
           JString (py "files recurse prefix save_dir json showplt format figsize dpi graphtype abs_fpath fname cleaned_fname"));
          (py "version",
           JObject [(py "codename", JString (py "Iron Airedale"));
                    (py "digit", JNumber (py "3.4"))])] in
  writes (fst (demo_generate_graphs (demo_args [py "/in/a.bin"] true false 100)))
  = [(py "/out/ent.json", document (py "iVBORw=="))]
  /\ writes (fst (demo_generate_graphs
                    (demo_args [py "/in/a.bin"] true false 300)))
     = [(py "/out/ent.json", document (py "iVBORw=="))].
Proof. cbv zeta. split; vm_compute; reflexivity. Qed.

(** ** List files *)

(** C5, where it fails: the empty second line of the list file is a path
    of the result. *)
Lemma listfile_keeps_empty_lines :
  os_read_text demo_os (py "list.txt")
  = Some (py "a.bin" ++ [10; 10] ++ py "b.bin" ++ [10])
  /\ resolve_files demo_os [py "@list.txt"] true
     = ([], inr [py "a.bin"; []; py "b.bin"])
  /\ spec_listfile_paths (py "a.bin" ++ [10; 10] ++ py "b.bin" ++ [10])
     = [py "a.bin"; py "b.bin"].
Proof. split; [|split]; vm_compute; reflexivity. Qed.

Lemma listfile_yields_every_line_witness :
  os_path_exists demo_os (py "list.txt") = true
  /\ os_path_isfile demo_os (py "list.txt") = true
  /\ os_read_text demo_os (py "list.txt")
     = Some (py "a.bin" ++ [10; 10] ++ py "b.bin" ++ [10])
  /\ os_path_isdir demo_os (py "a.bin") = true
  /\ resolve_files demo_os [py "@" ++ py "list.txt"] true
     = ([], inr [py "a.bin"; []; py "b.bin"]).
Proof.
  repeat (split; [reflexivity|]).
  etransitivity;
    [exact (listfile_yields_every_line demo_os (py "list.txt")
              (py "a.bin" ++ [10; 10] ++ py "b.bin" ++ [10]) true
              eq_refl eq_refl eq_refl)|].
  vm_compute. reflexivity.
Defined.

(** ** Finding files *)

(** C6, where the code misses it: the files of a directory given by a
    relative path come back relative, although a file given directly comes
    back absolute. *)
Theorem find_files_recursion_keeps_relative_paths :
  fst (find_files demo_os [py "dir"] true) = [py "dir/c.bin"]
  /\ forallb Path.isabs (fst (find_files demo_os [py "dir"] true)) = false
  /\ fst (find_files demo_os [py "dir/c.bin"] true) = [py "/home/u/dir/c.bin"].
Proof. split; [|split]; vm_compute; reflexivity. Qed.

Lemma find_files_recurses_and_skips_witness :
  (os_path_isdir demo_os (py "dir") = true
   /\ (In (py "dir/c.bin") (fst (find_files demo_os [py "dir"] true)) <->
       exists dir_name dirs files fname,
         In (dir_name, dirs, files) (os_walk demo_os (py "dir"))
         /\ In fname files
         /\ py "dir/c.bin" = Path.join dir_name fname
         /\ os_path_isfile demo_os (py "dir/c.bin") = true
         /\ os_path_islink demo_os (py "dir/c.bin") = false
         /\ os_stat_size demo_os (py "dir/c.bin") <> 0)
   /\ (forall l m, In (l, m) (snd (find_files demo_os [py "dir"] true)) ->
                   l <> CRITICAL))
  /\ (false && os_path_isdir demo_os (py "a.bin") = false
      /\ (os_path_isfile demo_os (py "a.bin") = false
          \/ os_path_islink demo_os (py "a.bin") = true
          \/ os_stat_size demo_os (py "a.bin") = 0)
      /\ find_files demo_os [py "a.bin"; py "dir/c.bin"] false
         = (fst (find_files demo_os [py "dir/c.bin"] false),
            (CRITICAL, NotAFileSkipping (py "a.bin"))
              :: snd (find_files demo_os [py "dir/c.bin"] false))).
Proof.
  destruct (find_files_recurses_and_skips demo_os (py "dir") [] true)
    as [Hdir _].
  destruct (find_files_recurses_and_skips demo_os (py "a.bin")
              [py "dir/c.bin"] false)
    as [_ Hskip].
  split.
  - split; [reflexivity|]. destruct (Hdir eq_refl) as [Hin Hlog].
    split; [exact (Hin (py "dir/c.bin"))|exact Hlog].
  - split; [reflexivity|]. split; [left; reflexivity|].
    exact (Hskip eq_refl (or_introl eq_refl)).
Defined.

(** C9, where it fails: a symbolic link to a directory, given with
    [recurse] set, is not skipped: it is walked like a directory, its
    file is in the result, and there is no record of a skip. *)
Lemma find_files_walks_a_linked_directory :
  os_path_islink link_os (py "lnk") = true
  /\ os_path_isdir link_os (py "lnk") = true
  /\ find_files link_os [py "lnk"] true
     = ([py "lnk/c.bin"],
        [(DEBUG, FoundDirectory (py "lnk"));
         (INFO, FileFound (py "lnk/c.bin"))]).
Proof. split; [|split]; vm_compute; reflexivity. Qed.

(** ** Interactive display *)

Lemma interactive_mode_writes_no_file_witness :
  let d := demo_args [py "/in/a.bin"; py "/in/b.bin"] true true 100 in
  dict_get d (py "showplt") = Some (VBool true)
  /\ truthy (VBool true) = true
  /\ writes (fst (demo_generate_graphs d)) = []
  /\ shown (fst (demo_generate_graphs d)) = [9; 9].
Proof.
  intros d.
  split; [reflexivity|]. split; [reflexivity|]. split.
  - exact (proj1 (interactive_mode_writes_no_file ascii_only N demo_graphs
                    demo_generate demo_set_size_inches demo_tight_layout
                    demo_savefig demo_os d (VBool true) eq_refl eq_refl)).
  - vm_compute. reflexivity.
Defined.

(** ** A list file that cannot be read *)


(** ** The lines of a list file *)

Lemma File2Strings_round_trip_witness :
  File2Strings demo_os (py "list.txt")
  = (Some [py "a.bin"; []; py "b.bin"], [])
  /\ exists text,
       os_read_text demo_os (py "list.txt") = Some text
       /\ @nil log_record = []
       /\ (forall line, In line [py "a.bin"; []; py "b.bin"] ->
                        ~ In 10 line)
       /\ text = Str.join [10] [py "a.bin"; []; py "b.bin"]
                 ++ (if Str.endswith text [10] then [10] else []).
Proof.
  assert (H : File2Strings demo_os (py "list.txt")
              = (Some [py "a.bin"; []; py "b.bin"], []))
    by (vm_compute; reflexivity).
  split; [exact H|].
  exact (File2Strings_round_trip demo_os (py "list.txt") _ _ H).
Defined.

(** ** Inputs that are not list files *)

Lemma resolve_files_literals_witness :
  (forall f, In f [py "dir/c.bin"; py "a.bin"] ->
             Str.startswith f (py "@") = false)
  /\ resolve_files demo_os [py "dir/c.bin"; py "a.bin"] false
     = ([(DEBUG, FoundFile (py "/home/u/dir/c.bin"));
         (CRITICAL, NotAFileSkipping (py "a.bin"))],
        inr [py "/home/u/dir/c.bin"]).
Proof.
  assert (H : forall f, In f [py "dir/c.bin"; py "a.bin"] ->
              Str.startswith f (py "@") = false).
  { intros f [<-|[<-|[]]]; reflexivity. }
  split; [exact H|].
  etransitivity;
    [exact (resolve_files_literals demo_os [py "dir/c.bin"; py "a.bin"]
              false H)|].
  vm_compute. reflexivity.
Defined.

Lemma find_files_without_recursion_absolute_witness :
  Path.isabs (os_getcwd demo_os) = true
  /\ In (py "/home/u/dir/c.bin")
        (fst (find_files demo_os [py "a.bin"; py "dir/c.bin"] false))
  /\ Path.isabs (py "/home/u/dir/c.bin") = true.
Proof.
  assert (H1 : Path.isabs (os_getcwd demo_os) = true) by reflexivity.
  assert (H2 : In (py "/home/u/dir/c.bin")
                  (fst (find_files demo_os [py "a.bin"; py "dir/c.bin"]
                                   false)))
    by (vm_compute; left; reflexivity).
  split; [exact H1|]. split; [exact H2|].
  exact (find_files_without_recursion_absolute demo_os
           [py "a.bin"; py "dir/c.bin"] (py "/home/u/dir/c.bin") H1 H2).
Defined.

Lemma find_files_directory_logs_witness :
  os_path_isdir demo_os (py "dir") = true
  /\ snd (find_files demo_os [py "dir"] true)
     = [(DEBUG, FoundDirectory (py "dir"));
        (INFO, FileFound (py "dir/c.bin"))].
Proof.
  assert (H : os_path_isdir demo_os (py "dir") = true) by reflexivity.
  split; [exact H|].
  etransitivity;
    [exact (find_files_directory_logs demo_os (py "dir") H)|].
  vm_compute. reflexivity.
Defined.

(** ** The checks of [main] *)

Lemma save_dir_not_a_directory_exits_witness :
  let args := demo_with (py "save_dir") (VStr (py "/nowhere"))
                        [py "dir/c.bin"] in
  dict_get args (py "files") = Some (VList (map VStr [py "dir/c.bin"]))
  /\ dict_get args (py "recurse") = Some (VBool false)
  /\ resolve_files demo_os [py "dir/c.bin"] (truthy (VBool false))
     = ([(DEBUG, FoundFile (py "/home/u/dir/c.bin"))],
        inr [py "/home/u/dir/c.bin"])
  /\ dict_get args (py "save_dir") = Some (VStr (py "/nowhere"))
  /\ os_path_isdir demo_os (Path.abspath (os_getcwd demo_os) (py "/nowhere"))
     = false
  /\ demo_main args
     = ([Log (DEBUG, FoundFile (py "/home/u/dir/c.bin"));
         Log (CRITICAL, OutNotADirectory (py "/nowhere"))],
        inl (SystemExit 1)).
Proof.
  intros args.
  assert (H1 : dict_get args (py "files")
               = Some (VList (map VStr [py "dir/c.bin"])))
    by reflexivity.
  assert (H2 : dict_get args (py "recurse") = Some (VBool false))
    by reflexivity.
  assert (H3 : resolve_files demo_os [py "dir/c.bin"] (truthy (VBool false))
               = ([(DEBUG, FoundFile (py "/home/u/dir/c.bin"))],
                  inr [py "/home/u/dir/c.bin"]))
    by (vm_compute; reflexivity).
  assert (H4 : dict_get args (py "save_dir") = Some (VStr (py "/nowhere")))
    by reflexivity.
  assert (H5 : os_path_isdir demo_os
                 (Path.abspath (os_getcwd demo_os) (py "/nowhere")) = false)
    by (vm_compute; reflexivity).
  repeat (split; [assumption|]).
  etransitivity;
    [exact (save_dir_not_a_directory_exits ascii_only N demo_graphs
              demo_generate demo_validation demo_set_size_inches
              demo_tight_layout demo_savefig demo_os args
              [py "dir/c.bin"] (VBool false) _ _ (py "/nowhere")
              H1 H2 H3 H4 H5)|].
  vm_compute. reflexivity.
Defined.

Lemma main_runs_generate_graphs_witness :
  let args := demo_args [py "dir/c.bin"] false false 100 in
  let args' :=
    dict_set (dict_set args (py "files")
                       (VList (map VStr [py "/home/u/dir/c.bin"])))
             (py "save_dir") (VStr (py "/out")) in
  dict_get args (py "files") = Some (VList (map VStr [py "dir/c.bin"]))
  /\ dict_get args (py "recurse") = Some (VBool false)
  /\ resolve_files demo_os [py "dir/c.bin"] (truthy (VBool false))
     = ([(DEBUG, FoundFile (py "/home/u/dir/c.bin"))],
        inr [py "/home/u/dir/c.bin"])
  /\ dict_get args (py "save_dir") = Some (VStr (py "/out"))
  /\ os_path_isdir demo_os (Path.abspath (os_getcwd demo_os) (py "/out"))
     = true
  /\ select_graphtypes demo_graphs args' = inr [py "ent"]
  /\ (forall name, In name [py "ent"] ->
                   demo_validation name args' = inr args')
  /\ demo_main args
     = (Log (DEBUG, FoundFile (py "/home/u/dir/c.bin"))
        :: fst (demo_generate_graphs args'),
        snd (demo_generate_graphs args')).
Proof.
  intros args args'.
  assert (H1 : dict_get args (py "files")
               = Some (VList (map VStr [py "dir/c.bin"])))
    by reflexivity.
  assert (H2 : dict_get args (py "recurse") = Some (VBool false))
    by reflexivity.
  assert (H3 : resolve_files demo_os [py "dir/c.bin"] (truthy (VBool false))
               = ([(DEBUG, FoundFile (py "/home/u/dir/c.bin"))],
                  inr [py "/home/u/dir/c.bin"]))
    by (vm_compute; reflexivity).
  assert (H4 : dict_get args (py "save_dir") = Some (VStr (py "/out")))
    by reflexivity.
  assert (H5 : os_path_isdir demo_os
                 (Path.abspath (os_getcwd demo_os) (py "/out")) = true)
    by (vm_compute; reflexivity).
  assert (H6 : select_graphtypes demo_graphs
                 (dict_set
                    (dict_set args (py "files")
                       (VList (map VStr [py "/home/u/dir/c.bin"])))
                    (py "save_dir")
                    (VStr (Path.abspath (os_getcwd demo_os) (py "/out"))))
               = inr [py "ent"])
    by (vm_compute; reflexivity).
  assert (H7 : forall name, In name [py "ent"] ->
               demo_validation name
                 (dict_set
                    (dict_set args (py "files")
                       (VList (map VStr [py "/home/u/dir/c.bin"])))
                    (py "save_dir")
                    (VStr (Path.abspath (os_getcwd demo_os) (py "/out"))))
               = inr (dict_set
                        (dict_set args (py "files")
                           (VList (map VStr [py "/home/u/dir/c.bin"])))
                        (py "save_dir")
                        (VStr (Path.abspath (os_getcwd demo_os)
                                            (py "/out")))))
    by reflexivity.
  repeat (split; [assumption|]).
  etransitivity;
    [exact (main_runs_generate_graphs ascii_only N demo_graphs
              demo_generate demo_validation demo_set_size_inches
              demo_tight_layout demo_savefig demo_os args
              [py "dir/c.bin"] (VBool false) _ _ (py "/out") [py "ent"]
              H1 H2 H3 H4 H5 H6 H7)|].
  vm_compute. reflexivity.
Defined.

Lemma failed_validation_aborts_main_witness :
  let args := demo_args [py "dir/c.bin"] false false 0 in
  let args' :=
    dict_set (dict_set args (py "files")
                       (VList (map VStr [py "/home/u/dir/c.bin"])))
             (py "save_dir") (VStr (py "/out")) in
  dict_get args (py "files") = Some (VList (map VStr [py "dir/c.bin"]))
  /\ dict_get args (py "recurse") = Some (VBool false)
  /\ resolve_files demo_os [py "dir/c.bin"] (truthy (VBool false))
     = ([(DEBUG, FoundFile (py "/home/u/dir/c.bin"))],
        inr [py "/home/u/dir/c.bin"])
  /\ dict_get args (py "save_dir") = Some (VStr (py "/out"))
  /\ os_path_isdir demo_os (Path.abspath (os_getcwd demo_os) (py "/out"))
     = true
  /\ select_graphtypes demo_graphs args' = inr ([] ++ py "ent" :: [])
  /\ (forall n, In n [] -> demo_strict_validation n args' = inr args')
  /\ demo_strict_validation (py "ent") args' = inl (Raised 2)
  /\ demo_strict_main args
     = ([Log (DEBUG, FoundFile (py "/home/u/dir/c.bin"))],
        inl (Raised 2)).
Proof.
  intros args args'.
  assert (H1 : dict_get args (py "files")
               = Some (VList (map VStr [py "dir/c.bin"])))
    by reflexivity.
  assert (H2 : dict_get args (py "recurse") = Some (VBool false))
    by reflexivity.
  assert (H3 : resolve_files demo_os [py "dir/c.bin"] (truthy (VBool false))
               = ([(DEBUG, FoundFile (py "/home/u/dir/c.bin"))],
                  inr [py "/home/u/dir/c.bin"]))
    by (vm_compute; reflexivity).
  assert (H4 : dict_get args (py "save_dir") = Some (VStr (py "/out")))
    by reflexivity.
  assert (H5 : os_path_isdir demo_os
                 (Path.abspath (os_getcwd demo_os) (py "/out")) = true)
    by (vm_compute; reflexivity).
  assert (H6 : select_graphtypes demo_graphs
                 (dict_set
                    (dict_set args (py "files")
                       (VList (map VStr [py "/home/u/dir/c.bin"])))
                    (py "save_dir")
                    (VStr (Path.abspath (os_getcwd demo_os) (py "/out"))))
               = inr ([] ++ py "ent" :: []))
    by (vm_compute; reflexivity).
  assert (H7 : forall n, In n [] ->
               demo_strict_validation n
                 (dict_set
                    (dict_set args (py "files")
                       (VList (map VStr [py "/home/u/dir/c.bin"])))
                    (py "save_dir")
                    (VStr (Path.abspath (os_getcwd demo_os) (py "/out"))))
               = inr (dict_set
                        (dict_set args (py "files")
                           (VList (map VStr [py "/home/u/dir/c.bin"])))
                        (py "save_dir")
                        (VStr (Path.abspath (os_getcwd demo_os)
                                            (py "/out")))))
    by (intros n []).
  assert (H8 : demo_strict_validation (py "ent")
                 (dict_set
                    (dict_set args (py "files")
                       (VList (map VStr [py "/home/u/dir/c.bin"])))
                    (py "save_dir")
                    (VStr (Path.abspath (os_getcwd demo_os) (py "/out"))))
               = inl (Raised 2))
    by (vm_compute; reflexivity).
  repeat (split; [assumption|]).
  exact (failed_validation_aborts_main ascii_only N demo_graphs
           demo_generate demo_strict_validation demo_set_size_inches
           demo_tight_layout demo_savefig demo_os args
           [py "dir/c.bin"] (VBool false) _ _ (py "/out") [] (py "ent") []
           (Raised 2) H1 H2 H3 H4 H5 H6 H7 H8).
Defined.

(** ** A graph type that is not in the table *)

Lemma unknown_graphtype_is_a_key_error_witness :
  let d := demo_with (py "graphtype") (VStr (py "pie")) [py "/in/a.bin"] in
  dict_get d (py "graphtype") = Some (VStr (py "pie"))
  /\ py "pie" <> py "all"
  /\ ~ In (py "pie") demo_graphs
  /\ demo_generate_graphs d
     = ([Log (DEBUG, ArgsDict d)], inl (KeyError (VStr (py "pie")))).
Proof.
  intros d.
  assert (H1 : dict_get d (py "graphtype") = Some (VStr (py "pie")))
    by reflexivity.
  assert (H2 : py "pie" <> py "all") by discriminate.
  assert (H3 : ~ In (py "pie") demo_graphs).
  { intros [H|[H|[]]]; discriminate H. }
  repeat (split; [assumption|]).
  exact (unknown_graphtype_is_a_key_error ascii_only N demo_graphs
           demo_generate demo_set_size_inches demo_tight_layout
           demo_savefig demo_os d (py "pie") H1 H2 H3).
Defined.

(** ** The calls of a run for every graph type *)

Lemma generate_calls_follow_the_loops_witness :
  let d := demo_with (py "graphtype") (VStr (py "all"))
                     [py "/in/a.bin"; py "/in/b.bin"] in
  select_graphtypes demo_graphs d = inr [py "ent"; py "hist"]
  /\ dict_get d (py "files")
     = Some (VList [VStr (py "/in/a.bin"); VStr (py "/in/b.bin")])
  /\ iter (VList [VStr (py "/in/a.bin"); VStr (py "/in/b.bin")])
     = inr [VStr (py "/in/a.bin"); VStr (py "/in/b.bin")]
  /\ exists rest,
       call_targets (fst (demo_generate_graphs d)) ++ rest
       = [(py "ent", Some (VStr (py "/in/a.bin")));
          (py "hist", Some (VStr (py "/in/a.bin")));
          (py "ent", Some (VStr (py "/in/b.bin")));
          (py "hist", Some (VStr (py "/in/b.bin")))]
       /\ forall d', snd (demo_generate_graphs d) = inr (tt, d') ->
                     rest = [].
Proof.
  intros d.
  assert (H1 : select_graphtypes demo_graphs d = inr [py "ent"; py "hist"])
    by reflexivity.
  assert (H2 : dict_get d (py "files")
               = Some (VList [VStr (py "/in/a.bin"); VStr (py "/in/b.bin")]))
    by reflexivity.
  assert (H3 : iter (VList [VStr (py "/in/a.bin"); VStr (py "/in/b.bin")])
               = inr [VStr (py "/in/a.bin"); VStr (py "/in/b.bin")])
    by reflexivity.
  repeat (split; [assumption|]).
  exact (generate_calls_follow_the_loops ascii_only N demo_graphs
           demo_generate demo_set_size_inches demo_tight_layout
           demo_savefig demo_os d _ _ _ H1 H2 H3).
Defined.

(** ** Names *)

Lemma indexed_names_differ_witness :
  (forall p, @None pystr = Some p -> brace_free p)
  /\ brace_free (py "ent")
  /\ (0 <= 1)%Z
  /\ fst (fst (gen_names ascii_only (py "png") (py "/in/a.bin") (py "/out")
                         None (py "ent") (Some 1%Z)))
     = fst (fst (gen_names ascii_only (py "png") (py "/other/a.bin")
                           (py "/out") None (py "ent") (Some 1%Z)))
  /\ 1%Z = 1%Z.
Proof.
  assert (H1 : forall p, @None pystr = Some p -> brace_free p)
    by discriminate.
  assert (H2 : brace_free (py "ent")).
  { vm_compute. intuition discriminate. }
  assert (H3 : (0 <= 1)%Z) by lia.
  assert (H4 : fst (fst (gen_names ascii_only (py "png") (py "/in/a.bin")
                                   (py "/out") None (py "ent") (Some 1%Z)))
               = fst (fst (gen_names ascii_only (py "png")
                                     (py "/other/a.bin") (py "/out") None
                                     (py "ent") (Some 1%Z))))
    by (vm_compute; reflexivity).
  repeat (split; [assumption|]).
  exact (indexed_names_differ ascii_only (py "png") (py "png")
           (py "/in/a.bin") (py "/other/a.bin") (py "/out") None
           (py "ent") (py "ent") 1 1 H1 H2 H2 H3 H3 H4).
Defined.

Lemma prefix_with_leading_separator_leaves_save_dir_witness :
  Str.startswith (py "/tmp/x") [Path.sep] = true
  /\ brace_free (py "/tmp/x")
  /\ brace_free (py "ent")
  /\ fst (fst (gen_names ascii_only (py "png") (py "/in/a.bin") (py "/out")
                         (Some (py "/tmp/x")) (py "ent") None))
     = py "/tmp/x-ent.png".
Proof.
  assert (H1 : Str.startswith (py "/tmp/x") [Path.sep] = true)
    by reflexivity.
  assert (H2 : brace_free (py "/tmp/x")).
  { vm_compute. intuition discriminate. }
  assert (H3 : brace_free (py "ent")).
  { vm_compute. intuition discriminate. }
  repeat (split; [assumption|]).
  etransitivity;
    [exact (prefix_with_leading_separator_leaves_save_dir ascii_only
              (py "png") (py "/in/a.bin") (py "/out") (py "/tmp/x")
              (py "ent") None H1 H2 H3)|].
  vm_compute. reflexivity.
Defined.

Lemma artifacts_lie_in_the_save_directory_witness :
  (forall p, Some (py "pre") = Some p ->
             brace_free p /\ ~ In Path.sep p)
  /\ brace_free (py "ent")
  /\ ~ In Path.sep (py "ent")
  /\ ~ In Path.sep (py "png")
  /\ (exists s,
        fst (fst (gen_names ascii_only (py "png") (py "/in/sub/a.bin")
                            (py "/out") (Some (py "pre")) (py "ent")
                            (Some 0%Z)))
        = py "/out" ++ s
          ++ save_fname_layout (Some (py "pre")) (Some 0%Z) (py "ent")
               (clean_fname ascii_only (Path.basename (py "/in/sub/a.bin")))
               (py "png")
        /\ (s = [] \/ s = [Path.sep]))
  /\ Path.basename
       (fst (fst (gen_names ascii_only (py "png") (py "/in/sub/a.bin")
                            (py "/out") (Some (py "pre")) (py "ent")
                            (Some 0%Z))))
     = py "pre-0-ent-abin.png".
Proof.
  assert (H1 : forall p, Some (py "pre") = Some p ->
               brace_free p /\ ~ In Path.sep p).
  { intros p [= <-]. vm_compute. intuition discriminate. }
  assert (H2 : brace_free (py "ent")).
  { vm_compute. intuition discriminate. }
  assert (H3 : ~ In Path.sep (py "ent")).
  { vm_compute. intuition discriminate. }
  assert (H4 : ~ In Path.sep (py "png")).
  { vm_compute. intuition discriminate. }
  repeat (split; [assumption|]).
  destruct (artifacts_lie_in_the_save_directory ascii_only (py "png")
              (py "/in/sub/a.bin") (py "/out") (Some (py "pre")) (py "ent")
              (Some 0%Z) H1 H2 H3 H4) as [Hs Hb].
  split; [exact Hs|].
  etransitivity; [exact Hb|]. vm_compute. reflexivity.
Defined.

Lemma json_artifact_keeps_the_stem_witness :
  (forall p, @None pystr = Some p -> brace_free p)
  /\ brace_free (py "ent")
  /\ ~ In Path.sep (py "ent")
  /\ (exists x, In x (py "ent") /\ x <> Path.extsep)
  /\ ~ In Path.sep (py "png")
  /\ ~ In Path.extsep (py "png")
  /\ exists stem,
       fst (fst (gen_names ascii_only (py "png") (py "/in/a.bin")
                           (py "/out.d") None (py "ent") None))
       = stem ++ py "." ++ py "png"
       /\ artifact_path true
            (fst (fst (gen_names ascii_only (py "png") (py "/in/a.bin")
                                 (py "/out.d") None (py "ent") None)))
          = stem ++ py ".json".
Proof.
  assert (H1 : forall p, @None pystr = Some p -> brace_free p)
    by discriminate.
  assert (H2 : brace_free (py "ent")).
  { vm_compute. intuition discriminate. }
  assert (H3 : ~ In Path.sep (py "ent")).
  { vm_compute. intuition discriminate. }
  assert (H4 : exists x, In x (py "ent") /\ x <> Path.extsep).
  { exists 101. split; [now left|discriminate]. }
  assert (H5 : ~ In Path.sep (py "png")).
  { vm_compute. intuition discriminate. }
  assert (H6 : ~ In Path.extsep (py "png")).
  { vm_compute. intuition discriminate. }
  repeat (split; [assumption|]).
  exact (json_artifact_keeps_the_stem ascii_only (py "png") (py "/in/a.bin")
           (py "/out.d") None (py "ent") None H1 H2 H3 H4 H5 H6).
Defined.

(** ** A module that cannot be imported *)


(** ** Writes that fail *)

(** [json.dump] raises on data it cannot encode after [open] created
    the file: the file is left behind, nothing is logged as saved, and
    the figure is not released. *)
Example failing_json_dump_leaves_a_file :
  demo_output_graph 1 [] (JOther TypeError) (py "/out/ent.png")
                    (demo_args [py "/in/a.bin"] true false 100)
  = ([Log (INFO, SavingAsJson); Write (py "/out/ent.json") Truncated],
     inl TypeError).
Proof. vm_compute. reflexivity. Qed.

(** [open] raises for a save directory that is not there: there is no
    file, and the run ends with the error of the operating system. *)
Example failing_open_writes_nothing :
  demo_output_graph 1 [] JNull (py "/nowhere/ent.png")
                    (demo_args [py "/in/a.bin"] true false 100)
  = ([Log (INFO, SavingAsJson)], inl (OSError 2)).
Proof. vm_compute. reflexivity. Qed.
